(** * AI-SEO-Buddy: the content analyzer and the recommendation generator

    A shallow embedding of [src/app/analyzer.py] ([analyze_content]) and
    [src/app/recommendations.py] ([generate_recommendations]), together with
    the part of the Python run time the two functions rely on: [str]
    methods, the regular expression [\b\w+\b], insertion-ordered [dict]s,
    and [int]/[float] arithmetic, comparison and formatting.

    Modelling conventions.
    - A Python [str] is a [string]; the text is taken to be ASCII, so
      [str.lower] maps [A-Z] to [a-z] and [\w] is [[A-Za-z0-9_]].
    - A Python [int] is a [Z].  A Python [float] is an IEEE-754 binary64
      value, a [spec_float] at precision 53 and maximal exponent 1024;
      every operation rounds to nearest, ties to even, as the hardware does.
    - A [dict] whose iteration order is observed is an association list in
      insertion order.
    - A statement that can raise returns an [exc].
    - The two functions are modelled twice.  First as functions of values:
      a page, an analysis and an audit are records, and the result is a
      record.  Then as programs on a heap of dictionaries and lists, where
      an argument is a reference and every subscript, method call and
      assignment of the source is an operation on the heap; the second
      model is proved to compute what the first one does, and it is the
      one that can say what a call leaves unchanged.
    - The conversion of an [int] to a string is limited by the interpreter
      ([sys.get_int_max_str_digits()], 4300 by default since CPython
      3.11); [generate_recommendations] is the program without the limit,
      [generate_recommendations_limited] the program under a limit. *)

From Stdlib Require Import ZArith List String Ascii Bool Lia.
From Stdlib Require Import DecimalString DecimalZ SpecFloat.
From Equations Require Import Equations.
From Equations.Prop Require Import Logic.
Import ListNotations.

Open Scope string_scope.
Open Scope Z_scope.

(* ===================================================================== *)
(** * Python strings *)
(* ===================================================================== *)

(** [len(s)] *)
Definition len (s : string) : Z := Z.of_nat (String.length s).

(** [bool(s)]: a string is truthy iff it is not empty. *)
Definition truthy (s : string) : bool :=
  match s with
  | EmptyString => false
  | String _ _ => true
  end.

Definition is_upper (c : ascii) : bool :=
  ((65 <=? nat_of_ascii c) && (nat_of_ascii c <=? 90))%nat.

Definition lower_char (c : ascii) : ascii :=
  if is_upper c then ascii_of_nat (nat_of_ascii c + 32) else c.

(** [s.lower()] on ASCII text: the letters [A] to [Z] are mapped, every
    other character is kept.  On other text [str.lower] maps more
    characters and can change the length of the string; such text is
    outside the model. *)
Fixpoint lower (s : string) : string :=
  match s with
  | EmptyString => EmptyString
  | String c s' => String (lower_char c) (lower s')
  end.

(** [s.startswith(p)] *)
Fixpoint startswith (s p : string) {struct p} : bool :=
  match p with
  | EmptyString => true
  | String a p' =>
      match s with
      | EmptyString => false
      | String b s' => Ascii.eqb a b && startswith s' p'
      end
  end.

(** [s.startswith((p1, p2, ...))]: true iff one of the prefixes matches. *)
Definition startswith_any (s : string) (ps : list string) : bool :=
  existsb (startswith s) ps.

(** [sub in s] *)
Fixpoint contains (s sub : string) : bool :=
  startswith s sub ||
  match s with
  | EmptyString => false
  | String _ s' => contains s' sub
  end.

(** [s] without its first [n] characters, [s[n:]]. *)
Fixpoint drop (n : nat) (s : string) : string :=
  match n, s with
  | O, _ => s
  | S n', String _ s' => drop n' s'
  | S _, EmptyString => EmptyString
  end.

Lemma drop_length n s : String.length (drop n s) = (String.length s - n)%nat.
Proof.
  revert s; induction n as [|n IH]; intros [|c s]; simpl; auto.
Qed.

(** [s.count(sub)] for a non-empty [sub]: scan from the left; at a match
    count one and resume after the match, otherwise move one character. *)
Equations? count_nonempty (s sub : string) : Z by wf (String.length s) lt :=
  count_nonempty EmptyString sub := 0;
  count_nonempty (String c s') sub with inspect (startswith (String c s') sub) := {
    | exist _ true _ => 1 + count_nonempty (drop (String.length sub - 1) s') sub
    | exist _ false _ => count_nonempty s' sub }.
Proof.
  rewrite drop_length. lia.
Defined.

(** [s.count(sub)]: the number of non-overlapping occurrences of [sub] in
    [s]; the empty string occurs [len(s) + 1] times. *)
Definition str_count (s sub : string) : Z :=
  match sub with
  | EmptyString => len s + 1
  | String _ _ => count_nonempty s sub
  end.

(** [str(n)] for an [int]. *)
Definition str_of_int (z : Z) : string := NilZero.string_of_int (Z.to_int z).

(* ===================================================================== *)
(** * The regular expression [\b\w+\b] *)
(* ===================================================================== *)

(** [\w] on ASCII text. *)
Definition is_word (c : ascii) : bool :=
  let n := nat_of_ascii c in
  ((48 <=? n) && (n <=? 57) || (65 <=? n) && (n <=? 90)
   || (97 <=? n) && (n <=? 122) || (n =? 95))%nat.

(** [\b] at the position between [prev] and the head of [rest]: exactly one
    side is a word character; the two ends of the text count as non-word. *)
Definition at_boundary (prev : option ascii) (rest : string) : bool :=
  xorb (match prev with Some c => is_word c | None => false end)
       (match rest with String c _ => is_word c | EmptyString => false end).

(** [\w+\b] at the head of [s], greedy with backtracking: take a word
    character, try first to extend the match, and stop here only when the
    longer attempts fail and [\b] holds.  Returns the token and what
    follows it. *)
Fixpoint match_word (s : string) : option (string * string) :=
  match s with
  | EmptyString => None
  | String c s' =>
      if is_word c then
        match match_word s' with
        | Some (tok, rest) => Some (String c tok, rest)
        | None =>
            if at_boundary (Some c) s' then Some (String c EmptyString, s')
            else None
        end
      else None
  end.

Lemma match_word_shorter s tok rest :
  match_word s = Some (tok, rest) ->
  (String.length rest < String.length s)%nat.
Proof.
  revert tok rest; induction s as [|c s IH]; simpl; intros tok rest H;
    [discriminate|].
  destruct (is_word c); [|discriminate].
  destruct (match_word s) as [[t r]|] eqn:E.
  - inversion H; subst. specialize (IH _ _ eq_refl). lia.
  - destruct (at_boundary _ _); inversion H; subst; lia.
Qed.

(** The last character of [s], or [prev] when [s] is empty. *)
Fixpoint last_char (prev : option ascii) (s : string) : option ascii :=
  match s with
  | EmptyString => prev
  | String c s' => last_char (Some c) s'
  end.

(** [re.findall(r'\b\w+\b', text)], scanning from a position whose left
    neighbour is [prev]: try the pattern here; after a match resume behind
    it, otherwise move one character to the right. *)
Equations? findall_from (prev : option ascii) (s : string) : list string
  by wf (String.length s) lt :=
  findall_from prev EmptyString := [];
  findall_from prev (String c s')
    with inspect (if at_boundary prev (String c s')
                  then match_word (String c s') else None) := {
    | exist _ (Some (tok, rest)) Heq =>
        tok :: findall_from (last_char prev tok) rest
    | exist _ None _ => findall_from (Some c) s' }.
Proof.
  destruct (at_boundary prev (String c s')); [|discriminate].
  exact (match_word_shorter (String c s') tok rest Heq).
Defined.

Definition findall_words (text : string) : list string :=
  findall_from None text.

(* ===================================================================== *)
(** * Python numbers *)
(* ===================================================================== *)

(** A number is an [int] or a [float]. *)
Inductive pynum : Type :=
| PyInt (z : Z)
| PyFloat (f : spec_float).

Definition prec : Z := 53.
Definition emax : Z := 1024.

(** The binary64 value nearest to the fraction [n / d]: what [n / d] on two
    [int]s returns and what reading a decimal literal returns. *)
Definition float_of_ratio (n : Z) (d : positive) : spec_float :=
  match n with
  | Z0 => S754_zero false
  | Zpos p =>
      let '(mz, ez, lz) := SFdiv_core_binary prec emax (Zpos p) 0 (Zpos d) 0 in
      binary_round_aux prec emax false mz ez lz
  | Zneg p =>
      let '(mz, ez, lz) := SFdiv_core_binary prec emax (Zpos p) 0 (Zpos d) 0 in
      binary_round_aux prec emax true mz ez lz
  end.

(** [float(n)] for an [int]; infinite when [n] is out of range. *)
Definition float_of_int (z : Z) : spec_float :=
  binary_normalize prec emax z 0 false.

(** The literals [0.5] and [100.0]. *)
Definition float_0_5 : spec_float := float_of_ratio 5 10.
Definition float_100 : spec_float := float_of_int 100.

(** [x * y] on two [float]s. *)
Definition float_mul (x y : spec_float) : spec_float := SFmul prec emax x y.

(** [n / d] rounded to the nearest integer, ties to the even one
    ([0 <= n], [0 < d]). *)
Definition round_half_even (n d : Z) : Z :=
  let q := n / d in
  match 2 * (n mod d) ?= d with
  | Lt => q
  | Gt => q + 1
  | Eq => if Z.even q then q else q + 1
  end.

(** [m * 2^e * 10^k] as a fraction of two positive integers. *)
Definition scaled_fraction (m : positive) (e k : Z) : Z * Z :=
  (Zpos m * (if 0 <=? e then 2 ^ e else 1) * (if 0 <=? k then 10 ^ k else 1),
   (if 0 <=? e then 1 else 2 ^ (- e)) * (if 0 <=? k then 1 else 10 ^ (- k))).

Definition floor_scaled (m : positive) (e k : Z) : Z :=
  let '(n, d) := scaled_fraction m e k in n / d.

Definition nearest_scaled (m : positive) (e k : Z) : Z :=
  let '(n, d) := scaled_fraction m e k in round_half_even n d.

(** The binary64 value nearest to [c / 10^k]. *)
Definition float_of_decimal (c k : Z) : spec_float :=
  if 0 <=? k then float_of_ratio c (Z.to_pos (10 ^ k))
  else float_of_ratio (c * 10 ^ (- k)) 1.

(** [round(x, 2)] on a [float]: the exact value of [x] is rounded to two
    decimals, ties to even, and the decimal is read back as a [float]. *)
Definition float_round2 (f : spec_float) : spec_float :=
  match f with
  | S754_finite s m e =>
      match nearest_scaled m e 2 with
      | Zpos h => float_of_decimal (if s then Zneg h else Zpos h) 2
      | _ => S754_zero s
      end
  | _ => f
  end.

(** ['{:.0f}'.format(x)] on a [float]. *)
Definition format_0f_float (f : spec_float) : string :=
  match f with
  | S754_nan => "nan"
  | S754_infinity s => if s then "-inf" else "inf"
  | S754_zero s => if s then "-0" else "0"
  | S754_finite s m e =>
      (if s then "-" else "") ++ str_of_int (nearest_scaled m e 0)
  end.

(** ** [repr] of a [float]: the shortest decimal that reads back as the
    same [float], the nearest one among the shortest. *)

(** The least [p] from [p0] on with [m * 2^e < 10^p]. *)
Fixpoint decpt_search (fuel : nat) (m : positive) (e p : Z) : Z :=
  match fuel with
  | O => p
  | S fuel' =>
      if floor_scaled m e (- p) =? 0 then p
      else decpt_search fuel' m e (p + 1)
  end.

(** The position of the decimal point: [10^(p-1) <= m * 2^e < 10^p].  The
    search starts just below the estimate drawn from the bit length. *)
Definition decpt_of (m : positive) (e : Z) : Z :=
  decpt_search 8 m e ((Zpos (digits2_pos m) + e - 1) * 30103 / 100000 - 1).

Definition same_float (a b : spec_float) : bool :=
  match a, b with
  | S754_finite s1 m1 e1, S754_finite s2 m2 e2 =>
      Bool.eqb s1 s2 && Pos.eqb m1 m2 && (e1 =? e2)
  | _, _ => false
  end.

(** The [n]-digit decimal [c / 10^(n - p)] that reads back as [m * 2^e], if
    there is one: among the two neighbours of the value, one that reads
    back, the nearer when both do. *)
Definition candidate (m : positive) (e p n : Z) : option Z :=
  let k := n - p in
  let lo := floor_scaled m e k in
  let x := S754_finite false m e in
  match same_float (float_of_decimal lo k) x,
        same_float (float_of_decimal (lo + 1) k) x with
  | true, false => Some lo
  | false, true => Some (lo + 1)
  | true, true => Some (nearest_scaled m e k)
  | false, false => None
  end.

Fixpoint shortest (fuel : nat) (m : positive) (e p n : Z) : Z * Z :=
  match fuel with
  | O => (nearest_scaled m e (n - p), n)
  | S fuel' =>
      match candidate m e p n with
      | Some c => (c, n)
      | None => shortest fuel' m e p (n + 1)
      end
  end.

Fixpoint strip_zeros (fuel : nat) (c n : Z) : Z * Z :=
  match fuel with
  | O => (c, n)
  | S fuel' =>
      if (c mod 10 =? 0) && (1 <? n) then strip_zeros fuel' (c / 10) (n - 1)
      else (c, n)
  end.

Fixpoint zeros (n : nat) : string :=
  match n with
  | O => EmptyString
  | S n' => String "0" (zeros n')
  end.

Definition pad2 (s : string) : string :=
  if (String.length s <? 2)%nat then "0" ++ s else s.

(** The digits [c] ([n] of them) and the decimal point position [p] laid
    out as [repr] does: scientific notation when [p <= -4] or [16 < p]. *)
Definition layout (c n p : Z) : string :=
  let digits := str_of_int c in
  if (p <=? -4) || (16 <? p) then
    String.substring 0 1 digits
      ++ (if 1 <? n then "." ++ String.substring 1 (Z.to_nat n - 1) digits
          else "")
      ++ "e" ++ (if p - 1 <? 0 then "-" else "+")
      ++ pad2 (str_of_int (Z.abs (p - 1)))
  else if p <=? 0 then "0." ++ zeros (Z.to_nat (- p)) ++ digits
  else if n <=? p then digits ++ zeros (Z.to_nat (p - n)) ++ ".0"
  else String.substring 0 (Z.to_nat p) digits ++ "."
       ++ String.substring (Z.to_nat p) (Z.to_nat (n - p)) digits.

Definition repr_finite (m : positive) (e : Z) : string :=
  let p := decpt_of m e in
  let '(c, n) := shortest 17 m e p 1 in
  let '(c, p) := if c =? 10 ^ n then (10 ^ (n - 1), p + 1) else (c, p) in
  let '(c, n) := strip_zeros 20 c n in
  layout c n p.

(** [repr(x)] on a [float], which is also [str(x)] and how an f-string
    shows it. *)
Definition repr_float (f : spec_float) : string :=
  match f with
  | S754_nan => "nan"
  | S754_infinity s => if s then "-inf" else "inf"
  | S754_zero s => if s then "-0.0" else "0.0"
  | S754_finite s m e => (if s then "-" else "") ++ repr_finite m e
  end.

(** ** Comparison *)

(** A [float] against an [int], exactly; [None] for a NaN. *)
Definition float_compare_int (f : spec_float) (z : Z) : option comparison :=
  match f with
  | S754_nan => None
  | S754_infinity s => Some (if s then Lt else Gt)
  | S754_zero _ => Some (0 ?= z)
  | S754_finite s m e =>
      let v := if s then Zneg m else Zpos m in
      Some (if 0 <=? e then v * 2 ^ e ?= z else v ?= z * 2 ^ (- e))
  end.

Definition num_compare (x y : pynum) : option comparison :=
  match x, y with
  | PyInt a, PyInt b => Some (a ?= b)
  | PyFloat a, PyFloat b => SFcompare a b
  | PyFloat a, PyInt b => float_compare_int a b
  | PyInt a, PyFloat b => option_map CompOpp (float_compare_int b a)
  end.

(** [x < y] and [x > y]; both are false when a NaN is involved. *)
Definition num_lt (x y : pynum) : bool :=
  match num_compare x y with
  | Some Lt => true
  | _ => false
  end.

Definition num_gt (x y : pynum) : bool :=
  match num_compare x y with
  | Some Gt => true
  | _ => false
  end.

(** ** Exceptions and formatting *)

Inductive pyerror : Type :=
| OverflowError
| ValueError
| TypeError
| KeyError
| AttributeError.

Inductive exc (A : Type) : Type :=
| Ok (a : A)
| Raise (e : pyerror).

Arguments Ok {A} a.
Arguments Raise {A} e.

Definition bind {A B : Type} (x : exc A) (k : A -> exc B) : exc B :=
  match x with
  | Ok a => k a
  | Raise e => Raise e
  end.

Notation "x <- c ;; k" := (bind c (fun x => k))
  (at level 61, c at next level, right associativity).

(** ['{:.0f}'.format(x)]: an [int] is converted to a [float] first, which
    raises [OverflowError] when it is too large. *)
Definition format_0f (x : pynum) : exc string :=
  match x with
  | PyFloat f => Ok (format_0f_float f)
  | PyInt z =>
      match float_of_int z with
      | S754_infinity _ => Raise OverflowError
      | f => Ok (format_0f_float f)
      end
  end.

(** [f'{x}'] for a number. *)
Definition str_of_num (x : pynum) : string :=
  match x with
  | PyInt z => str_of_int z
  | PyFloat f => repr_float f
  end.

(* ===================================================================== *)
(** * Insertion-ordered dictionaries *)
(* ===================================================================== *)

Definition dict (V : Type) : Type := list (string * V).

(** [d[k] = v]: an existing key keeps its place and takes the new value, a
    new key goes to the end. *)
Fixpoint dict_set {V : Type} (k : string) (v : V) (d : dict V) : dict V :=
  match d with
  | [] => [(k, v)]
  | (k', v') :: d' =>
      if String.eqb k' k then (k', v) :: d' else (k', v') :: dict_set k v d'
  end.

(** [d.get(k)] *)
Fixpoint dict_get {V : Type} (k : string) (d : dict V) : option V :=
  match d with
  | [] => None
  | (k', v') :: d' => if String.eqb k' k then Some v' else dict_get k d'
  end.

(* ===================================================================== *)
(** * The data model *)
(* ===================================================================== *)

(** ** The scraped page, the [content] argument of [analyze_content] *)

(** An entry of [content["links"]]. *)
Record link : Type := { href : string; link_text : string }.

(** An entry of [content["images"]]. *)
Record image : Type := { src : string; alt : string }.

(** [content["headings"]], with the keys ["h1"], ["h2"], ["h3"]. *)
Record headings : Type :=
  { h1 : list string; h2 : list string; h3 : list string }.

(** [content["headings"].values()] *)
Definition headings_values (h : headings) : list (list string) :=
  [h1 h; h2 h; h3 h].

Record snapshot : Type :=
  { page_url : string;
    page_title : string;
    page_meta_description : string;
    page_headings : headings;
    page_content : string;
    page_links : list link;
    page_images : list image }.

(** ** The analysis, the result of [analyze_content] *)

(** [analysis["title"]] *)
Record title_analysis : Type :=
  { title_length : Z; has_title : bool; title_optimal_length : bool }.

(** [analysis["meta_description"]] *)
Record meta_analysis : Type :=
  { meta_length : Z; has_meta : bool; meta_optimal_length : bool }.

(** [analysis["headings"]] *)
Record headings_analysis : Type :=
  { h1_count : Z; h2_count : Z; h3_count : Z; has_proper_structure : bool }.

(** [analysis["content"]] *)
Record content_analysis : Type :=
  { word_count : Z; has_sufficient_content : bool }.

(** An entry of [analysis["keywords"]] *)
Record keyword_data : Type :=
  { count : Z;
    density : pynum;
    in_title : bool;
    in_meta : bool;
    in_headings : bool }.

(** [analysis["links"]] *)
Record links_analysis : Type :=
  { internal_count : Z; external_count : Z; links_total_count : Z }.

(** [analysis["images"]] *)
Record images_analysis : Type :=
  { images_total_count : Z; missing_alt_count : Z }.

(** The key ["keywords"] is present only when keywords were analysed. *)
Record analysis : Type :=
  { a_title : title_analysis;
    a_meta_description : meta_analysis;
    a_headings : headings_analysis;
    a_content : content_analysis;
    a_keywords : option (dict keyword_data);
    a_links : links_analysis;
    a_images : images_analysis }.

(** ** The audit scores, the [lighthouse] argument *)

Record audit : Type :=
  { performance : pynum;
    seo : pynum;
    accessibility : pynum;
    best_practices : pynum }.

(** ** The recommendations *)

Record recommendations : Type :=
  { critical : list string; important : list string; minor : list string }.

(* ===================================================================== *)
(** * [analyze_content] *)
(* ===================================================================== *)

Definition analyze_title (title : string) : title_analysis :=
  {| title_length := len title;
     has_title := truthy title;
     title_optimal_length :=
       if truthy title then (50 <=? len title) && (len title <=? 60)
       else false |}.

Definition analyze_meta (meta_desc : string) : meta_analysis :=
  {| meta_length := len meta_desc;
     has_meta := truthy meta_desc;
     meta_optimal_length :=
       if truthy meta_desc then (150 <=? len meta_desc) && (len meta_desc <=? 160)
       else false |}.

Definition list_len {A : Type} (l : list A) : Z := Z.of_nat (List.length l).

Definition analyze_headings (h : headings) : headings_analysis :=
  {| h1_count := list_len (h1 h);
     h2_count := list_len (h2 h);
     h3_count := list_len (h3 h);
     has_proper_structure := list_len (h1 h) =? 1 |}.

(** [len(re.findall(r'\b\w+\b', text.lower()))] *)
Definition count_words (text : string) : Z :=
  list_len (findall_words (lower text)).

Definition analyze_text (text : string) : content_analysis :=
  {| word_count := count_words text;
     has_sufficient_content := 300 <=? count_words text |}.

(** [(exact_matches / word_count * 100) if word_count > 0 else 0] *)
Definition raw_density (exact_matches word_count : Z) : pynum :=
  if 0 <? word_count then
    PyFloat (float_mul (float_of_ratio exact_matches (Z.to_pos word_count))
                       float_100)
  else PyInt 0.

(** [round(x, 2)]: an [int] rounds to itself. *)
Definition round2 (x : pynum) : pynum :=
  match x with
  | PyInt z => PyInt z
  | PyFloat f => PyFloat (float_round2 f)
  end.

(** The body of the loop over the keywords: the entry stored under
    [keyword]. *)
Definition analyze_keyword (content : snapshot) (keyword : string)
  : keyword_data :=
  let keyword_lower := lower keyword in
  let exact_matches := str_count (lower (page_content content)) keyword_lower in
  let density := raw_density exact_matches (count_words (page_content content)) in
  {| count := exact_matches;
     density := round2 density;
     in_title := contains (lower (page_title content)) keyword_lower;
     in_meta := contains (lower (page_meta_description content)) keyword_lower;
     in_headings :=
       existsb (fun h => contains (lower h) keyword_lower)
               (List.concat (headings_values (page_headings content))) |}.

(** The loop over the keywords, filling [keyword_analysis]. *)
Definition analyze_keywords (content : snapshot) (keywords : list string)
  : dict keyword_data :=
  fold_left (fun d keyword => dict_set keyword (analyze_keyword content keyword) d)
            keywords [].

Definition is_internal (url : string) (l : link) : bool :=
  startswith_any (href l) ["/"; url].

Definition is_external (l : link) : bool :=
  startswith_any (href l) ["http"; "https"].

Definition analyze_links (url : string) (links : list link) : links_analysis :=
  let internal_links := filter (is_internal url) links in
  let external_links := filter is_external links in
  {| internal_count := list_len internal_links;
     external_count := list_len external_links;
     links_total_count := list_len links |}.

Definition analyze_images (images : list image) : images_analysis :=
  let images_without_alt := filter (fun img => negb (truthy (alt img))) images in
  {| images_total_count := list_len images;
     missing_alt_count := list_len images_without_alt |}.

(** [analyze_content(content, keywords)]; [keywords] is [None] or a list,
    and both [None] and the empty list are falsy. *)
Definition analyze_content (content : snapshot) (keywords : option (list string))
  : analysis :=
  {| a_title := analyze_title (page_title content);
     a_meta_description := analyze_meta (page_meta_description content);
     a_headings := analyze_headings (page_headings content);
     a_content := analyze_text (page_content content);
     a_keywords :=
       match keywords with
       | None => None
       | Some [] => None
       | Some (k :: ks) => Some (analyze_keywords content (k :: ks))
       end;
     a_links := analyze_links (page_url content) (page_links content);
     a_images := analyze_images (page_images content) |}.

(* ===================================================================== *)
(** * [generate_recommendations] *)
(* ===================================================================== *)

(** [recommendations["critical"].append(msg)] and its two siblings. *)
Definition append_critical (msg : string) (r : recommendations) : recommendations :=
  {| critical := critical r ++ [msg]; important := important r; minor := minor r |}.

Definition append_important (msg : string) (r : recommendations) : recommendations :=
  {| critical := critical r; important := important r ++ [msg]; minor := minor r |}.

Definition append_minor (msg : string) (r : recommendations) : recommendations :=
  {| critical := critical r; important := important r; minor := minor r ++ [msg] |}.

(** ** The message templates *)

Definition msg_add_title : string := "Add a title tag to your page".
Definition msg_adjust_title : string :=
  "Adjust title length to be between 50-60 characters for optimal display in search results".
Definition msg_add_meta : string := "Add a meta description to your page".
Definition msg_adjust_meta : string :=
  "Adjust meta description length to be between 150-160 characters for optimal display".
Definition msg_add_h1 : string := "Add an H1 heading to your page".
Definition msg_one_h1 : string := "Use only one H1 heading per page".
Definition msg_more_content : string :=
  "Add more content to your page (aim for at least 300 words)".
Definition msg_include_keyword (keyword : string) : string :=
  "Include the keyword '" ++ keyword
    ++ "' in your title, meta description, or headings".
Definition msg_increase_keyword (keyword : string) (d : pynum) : string :=
  "Consider increasing the usage of keyword '" ++ keyword
    ++ "' (current density: " ++ str_of_num d ++ "%)".
Definition msg_reduce_keyword (keyword : string) (d : pynum) : string :=
  "Reduce the usage of keyword '" ++ keyword
    ++ "' to avoid keyword stuffing (current density: " ++ str_of_num d ++ "%)".
Definition msg_alt_text (n : Z) : string :=
  "Add alt text to " ++ str_of_int n ++ " images".
Definition msg_internal_links : string :=
  "Add internal links to improve site navigation".
Definition msg_external_links : string :=
  "Consider adding relevant external links".
Definition msg_improve_performance (score : string) : string :=
  "Improve page performance (current score: " ++ score ++ "/100)".
Definition msg_optimize_performance (score : string) : string :=
  "Consider optimizing page performance (current score: " ++ score ++ "/100)".
Definition msg_technical_seo (score : string) : string :=
  "Address technical SEO issues (current score: " ++ score ++ "/100)".
Definition msg_accessibility (score : string) : string :=
  "Improve accessibility (current score: " ++ score ++ "/100)".

(** ** The rules, in the order of the source; each one updates the
    [recommendations] built so far. *)

Definition title_rule (a : analysis) (r : recommendations) : recommendations :=
  if negb (has_title (a_title a)) then append_critical msg_add_title r
  else if negb (title_optimal_length (a_title a)) then
    append_important msg_adjust_title r
  else r.

Definition meta_rule (a : analysis) (r : recommendations) : recommendations :=
  if negb (has_meta (a_meta_description a)) then append_critical msg_add_meta r
  else if negb (meta_optimal_length (a_meta_description a)) then
    append_important msg_adjust_meta r
  else r.

Definition heading_rule (a : analysis) (r : recommendations) : recommendations :=
  if negb (has_proper_structure (a_headings a)) then
    if h1_count (a_headings a) =? 0 then append_critical msg_add_h1 r
    else if 1 <? h1_count (a_headings a) then append_important msg_one_h1 r
    else r
  else r.

Definition content_rule (a : analysis) (r : recommendations) : recommendations :=
  if negb (has_sufficient_content (a_content a)) then
    append_important msg_more_content r
  else r.

(** The body of the loop over [analysis["keywords"].items()]. *)
Definition keyword_item (keyword : string) (data : keyword_data)
  (r : recommendations) : recommendations :=
  let r :=
    if negb (in_title data) && negb (in_meta data) && negb (in_headings data)
    then append_important (msg_include_keyword keyword) r
    else r in
  if num_lt (density data) (PyFloat float_0_5) then
    append_minor (msg_increase_keyword keyword (density data)) r
  else if num_gt (density data) (PyInt 3) then
    append_important (msg_reduce_keyword keyword (density data)) r
  else r.

Definition keyword_rule (a : analysis) (r : recommendations) : recommendations :=
  match a_keywords a with
  | Some items =>
      fold_left (fun r item => keyword_item (fst item) (snd item) r) items r
  | None => r
  end.

Definition image_rule (a : analysis) (r : recommendations) : recommendations :=
  if 0 <? missing_alt_count (a_images a) then
    append_important (msg_alt_text (missing_alt_count (a_images a))) r
  else r.

Definition link_rule (a : analysis) (r : recommendations) : recommendations :=
  let r :=
    if internal_count (a_links a) =? 0 then append_minor msg_internal_links r
    else r in
  if external_count (a_links a) =? 0 then append_minor msg_external_links r
  else r.

Definition performance_rule (lighthouse : audit) (r : recommendations)
  : exc recommendations :=
  if num_lt (performance lighthouse) (PyInt 90) then
    score <- format_0f (performance lighthouse) ;;
    Ok (append_critical (msg_improve_performance score) r)
  else if num_lt (performance lighthouse) (PyInt 95) then
    score <- format_0f (performance lighthouse) ;;
    Ok (append_important (msg_optimize_performance score) r)
  else Ok r.

Definition seo_rule (lighthouse : audit) (r : recommendations)
  : exc recommendations :=
  if num_lt (seo lighthouse) (PyInt 90) then
    score <- format_0f (seo lighthouse) ;;
    Ok (append_important (msg_technical_seo score) r)
  else Ok r.

Definition accessibility_rule (lighthouse : audit) (r : recommendations)
  : exc recommendations :=
  if num_lt (accessibility lighthouse) (PyInt 90) then
    score <- format_0f (accessibility lighthouse) ;;
    Ok (append_important (msg_accessibility score) r)
  else Ok r.

Definition no_recommendations : recommendations :=
  {| critical := []; important := []; minor := [] |}.

(** [generate_recommendations(analysis, lighthouse)] *)
Definition generate_recommendations (a : analysis) (lighthouse : audit)
  : exc recommendations :=
  let r := no_recommendations in
  let r := title_rule a r in
  let r := meta_rule a r in
  let r := heading_rule a r in
  let r := content_rule a r in
  let r := keyword_rule a r in
  let r := image_rule a r in
  let r := link_rule a r in
  r <- performance_rule lighthouse r ;;
  r <- seo_rule lighthouse r ;;
  accessibility_rule lighthouse r.

(* ===================================================================== *)
(** * Worked inputs *)
(* ===================================================================== *)

(** A string of [n] copies of [c]. *)
Fixpoint replicate (n : nat) (c : ascii) : string :=
  match n with
  | O => EmptyString
  | S n' => String c (replicate n' c)
  end.

(** [n] copies of the string [w]. *)
Fixpoint repeat_string (n : nat) (w : string) : string :=
  match n with
  | O => EmptyString
  | S n' => w ++ repeat_string n' w
  end.

Definition no_headings : headings := {| h1 := []; h2 := []; h3 := [] |}.

(** The page with nothing on it, at [https://x.com]. *)
Definition empty_page : snapshot :=
  {| page_url := "https://x.com";
     page_title := "";
     page_meta_description := "";
     page_headings := no_headings;
     page_content := "";
     page_links := [];
     page_images := [] |}.

Definition with_title (t : string) (c : snapshot) : snapshot :=
  {| page_url := page_url c;
     page_title := t;
     page_meta_description := page_meta_description c;
     page_headings := page_headings c;
     page_content := page_content c;
     page_links := page_links c;
     page_images := page_images c |}.

Definition with_meta (d : string) (c : snapshot) : snapshot :=
  {| page_url := page_url c;
     page_title := page_title c;
     page_meta_description := d;
     page_headings := page_headings c;
     page_content := page_content c;
     page_links := page_links c;
     page_images := page_images c |}.

Definition with_content (t : string) (c : snapshot) : snapshot :=
  {| page_url := page_url c;
     page_title := page_title c;
     page_meta_description := page_meta_description c;
     page_headings := page_headings c;
     page_content := t;
     page_links := page_links c;
     page_images := page_images c |}.

Definition with_links (ls : list link) (c : snapshot) : snapshot :=
  {| page_url := page_url c;
     page_title := page_title c;
     page_meta_description := page_meta_description c;
     page_headings := page_headings c;
     page_content := page_content c;
     page_links := ls;
     page_images := page_images c |}.

(** Every audit score equal to the integer [n]. *)
Definition flat_audit (n : Z) : audit :=
  {| performance := PyInt n;
     seo := PyInt n;
     accessibility := PyInt n;
     best_practices := PyInt n |}.

(** A page whose text is three times the keyword. *)
Definition seo_page : snapshot := with_content "seo seo seo" empty_page.

(** The same text in mixed letter case, and a text of 100 words that holds
    the keyword once in lower case and 99 times in upper case. *)
Definition mixed_case_page : snapshot := with_content "Seo SEO seo" empty_page.

Definition shouting_page : snapshot :=
  with_content (repeat_string 99 "SEO " ++ "seo") empty_page.

(* ===================================================================== *)
(** * Specification-side notions *)
(* ===================================================================== *)

(** [s] starts with [p]. *)
Definition starts_with (p s : string) : Prop := exists rest, s = p ++ rest.

(** The link rules as the specification words them. *)
Definition internal_spec (url : string) (l : link) : Prop :=
  starts_with "/" (href l) \/ starts_with url (href l).

Definition external_spec (l : link) : Prop :=
  starts_with "http" (href l) \/ starts_with "https" (href l).

(** The number of entries of [l] that satisfy [p]. *)
Definition count_if {A : Type} (p : A -> bool) (l : list A) : Z :=
  list_len (filter p l).

(** ** Tokens: the maximal runs of word characters *)

(** The run collected so far, if any. *)
Definition flush (cur : string) : list string :=
  match cur with
  | EmptyString => []
  | String _ _ => [cur]
  end.

(** The maximal runs of word characters of [s], from left to right, with
    [cur] the run that is being read. *)
Fixpoint word_runs_acc (cur : string) (s : string) : list string :=
  match s with
  | EmptyString => flush cur
  | String c s' =>
      if is_word c then word_runs_acc (cur ++ String c EmptyString) s'
      else flush cur ++ word_runs_acc EmptyString s'
  end.

(** The tokens of [s]: its maximal runs of word characters. *)
Definition word_runs (s : string) : list string := word_runs_acc EmptyString s.

(** [s] is empty or starts with a non-word character. *)
Definition starts_nonword (s : string) : Prop :=
  match s with
  | EmptyString => True
  | String c _ => is_word c = false
  end.

(** [s] consists of word characters. *)
Fixpoint all_word (s : string) : Prop :=
  match s with
  | EmptyString => True
  | String c s' => is_word c = true /\ all_word s'
  end.

(** The character before the scanning position is a word character. *)
Definition word_before (prev : option ascii) : bool :=
  match prev with
  | Some c => is_word c
  | None => false
  end.

(** ** Non-overlapping occurrences *)

(** [sub] occurs in [s] at position [i]. *)
Definition occurs_at (s sub : string) (i : nat) : Prop :=
  (i <= String.length s)%nat /\ startswith (drop i s) sub = true.

(** Ascending positions, each at least [w] after the one before. *)
Fixpoint spaced (w : nat) (ps : list nat) : Prop :=
  match ps with
  | [] => True
  | p :: ps' => (forall q, In q ps' -> (p + w <= q)%nat) /\ spaced w ps'
  end.

(** Occurrences of [sub] in [s] that do not overlap; two occurrences of
    the empty string are at different positions. *)
Definition occurrences (s sub : string) (ps : list nat) : Prop :=
  Forall (occurs_at s sub) ps /\ spaced (Nat.max 1 (String.length sub)) ps.

(** [n] is the largest number of non-overlapping occurrences. *)
Definition max_occurrences (s sub : string) (n : Z) : Prop :=
  (exists ps, occurrences s sub ps /\ Z.of_nat (List.length ps) = n)
  /\ (forall ps, occurrences s sub ps -> Z.of_nat (List.length ps) <= n).

(** ** The density as a decimal *)

(** The number of hundredths [h] a density stands for: the density is
    the [float] nearest to [h / 100], or the [int] [h / 100]. *)
Definition density_hundredths (x : pynum) : option Z :=
  match x with
  | PyInt z => Some (100 * z)
  | PyFloat (S754_zero _) => Some 0
  | PyFloat (S754_finite false m e) =>
      let h := nearest_scaled m e 2 in
      if same_float (float_of_decimal h 2) (S754_finite false m e) then Some h
      else None
  | PyFloat _ => None
  end.

(** [x] stands for a hundredth nearest to [100 * c / w]. *)
Definition nearest_hundredth (c w : Z) (x : pynum) : bool :=
  match density_hundredths x with
  | Some h => 2 * Z.abs (w * h - 10000 * c) <=? w
  | None => false
  end.

(** [0, 1, ..., n - 1] *)
Definition range (n : nat) : list Z := map Z.of_nat (seq 0 n).

(** ** Links of the worked pages *)

Definition about_link : link := {| href := "https://x.com/about"; link_text := "About" |}.
Definition mail_link : link := {| href := "mailto:team@x.com"; link_text := "Mail" |}.

(** ** The rule table of the recommendation generator *)

(** Bucket-wise concatenation. *)
Definition combine (r d : recommendations) : recommendations :=
  {| critical := (critical r ++ critical d)%list;
     important := (important r ++ important d)%list;
     minor := (minor r ++ minor d)%list |}.

Definition combine_all (ds : list recommendations) : recommendations :=
  fold_left combine ds no_recommendations.

(** [if b then [msg] else []] *)
Definition when (b : bool) (msg : string) : list string :=
  if b then [msg] else [].

(** What each rule of the table contributes. *)
Definition title_delta (a : analysis) : recommendations :=
  {| critical := when (negb (has_title (a_title a))) msg_add_title;
     important :=
       when (has_title (a_title a) && negb (title_optimal_length (a_title a)))
            msg_adjust_title;
     minor := [] |}.

Definition meta_delta (a : analysis) : recommendations :=
  {| critical := when (negb (has_meta (a_meta_description a))) msg_add_meta;
     important :=
       when (has_meta (a_meta_description a)
             && negb (meta_optimal_length (a_meta_description a)))
            msg_adjust_meta;
     minor := [] |}.

Definition heading_delta (a : analysis) : recommendations :=
  {| critical :=
       when (negb (has_proper_structure (a_headings a))
             && (h1_count (a_headings a) =? 0)) msg_add_h1;
     important :=
       when (negb (has_proper_structure (a_headings a))
             && negb (h1_count (a_headings a) =? 0)
             && (1 <? h1_count (a_headings a))) msg_one_h1;
     minor := [] |}.

Definition content_delta (a : analysis) : recommendations :=
  {| critical := [];
     important := when (negb (has_sufficient_content (a_content a))) msg_more_content;
     minor := [] |}.

(** A keyword is under-used below 0.5 and over-used above 3. *)
Definition under_used (data : keyword_data) : bool :=
  num_lt (density data) (PyFloat float_0_5).

Definition over_used (data : keyword_data) : bool :=
  negb (under_used data) && num_gt (density data) (PyInt 3).

Definition absent_everywhere (data : keyword_data) : bool :=
  negb (in_title data) && negb (in_meta data) && negb (in_headings data).

Definition keyword_delta (item : string * keyword_data) : recommendations :=
  {| critical := [];
     important :=
       (when (absent_everywhere (snd item)) (msg_include_keyword (fst item))
        ++ when (over_used (snd item))
                (msg_reduce_keyword (fst item) (density (snd item))))%list;
     minor :=
       when (under_used (snd item))
            (msg_increase_keyword (fst item) (density (snd item))) |}.

Definition keyword_items (a : analysis) : dict keyword_data :=
  match a_keywords a with
  | Some items => items
  | None => []
  end.

Definition image_delta (a : analysis) : recommendations :=
  {| critical := [];
     important :=
       when (0 <? missing_alt_count (a_images a))
            (msg_alt_text (missing_alt_count (a_images a)));
     minor := [] |}.

Definition link_delta (a : analysis) : recommendations :=
  {| critical := [];
     important := [];
     minor :=
       (when (internal_count (a_links a) =? 0) msg_internal_links
        ++ when (external_count (a_links a) =? 0) msg_external_links)%list |}.

(** The text ['{:.0f}'.format(x)] when the formatting succeeds. *)
Definition score_text (x : pynum) : string :=
  match format_0f x with
  | Ok s => s
  | Raise _ => EmptyString
  end.

Definition performance_delta (l : audit) : recommendations :=
  {| critical :=
       when (num_lt (performance l) (PyInt 90))
            (msg_improve_performance (score_text (performance l)));
     important :=
       when (negb (num_lt (performance l) (PyInt 90))
             && num_lt (performance l) (PyInt 95))
            (msg_optimize_performance (score_text (performance l)));
     minor := [] |}.

Definition seo_delta (l : audit) : recommendations :=
  {| critical := [];
     important :=
       when (num_lt (seo l) (PyInt 90)) (msg_technical_seo (score_text (seo l)));
     minor := [] |}.

Definition accessibility_delta (l : audit) : recommendations :=
  {| critical := [];
     important :=
       when (num_lt (accessibility l) (PyInt 90))
            (msg_accessibility (score_text (accessibility l)));
     minor := [] |}.

(** The rule table: the contributions in the order of evaluation. *)
Definition rule_table (a : analysis) (l : audit) : list recommendations :=
  ([title_delta a; meta_delta a; heading_delta a; content_delta a]
   ++ map keyword_delta (keyword_items a)
   ++ [image_delta a; link_delta a;
       performance_delta l; seo_delta l; accessibility_delta l])%list.

(** ** Well-formed audit scores: a number between 0 and 100. *)

Definition num_le (x y : pynum) : bool :=
  match num_compare x y with
  | Some Lt | Some Eq => true
  | _ => false
  end.

Definition score_in_range (x : pynum) : bool :=
  num_le (PyInt 0) x && num_le x (PyInt 100).

Definition audit_in_range (l : audit) : bool :=
  score_in_range (performance l) && score_in_range (seo l)
  && score_in_range (accessibility l) && score_in_range (best_practices l).

(** ** Counting messages *)

Definition count_msgs (p : string -> bool) (msgs : list string) : nat :=
  List.length (filter p msgs).

(** The number of messages of all three buckets that satisfy [p]. *)
Definition count_all (p : string -> bool) (r : recommendations) : nat :=
  (count_msgs p (critical r) + count_msgs p (important r)
   + count_msgs p (minor r))%nat.

Definition is_msg (msg : string) (m : string) : bool := String.eqb m msg.

Definition is_title_msg (m : string) : bool :=
  is_msg msg_add_title m || is_msg msg_adjust_title m.

Definition is_meta_msg (m : string) : bool :=
  is_msg msg_add_meta m || is_msg msg_adjust_meta m.

Definition is_h1_msg (m : string) : bool :=
  is_msg msg_add_h1 m || is_msg msg_one_h1 m.

Definition is_improve_performance_msg (m : string) : bool :=
  startswith m "Improve page performance (current score: ".

Definition is_optimize_performance_msg (m : string) : bool :=
  startswith m "Consider optimizing page performance (current score: ".

Definition is_performance_msg (m : string) : bool :=
  is_improve_performance_msg m || is_optimize_performance_msg m.

Definition is_include_keyword_msg (m : string) : bool :=
  startswith m "Include the keyword '".

Definition is_increase_keyword_msg (m : string) : bool :=
  startswith m "Consider increasing the usage of keyword '".

Definition is_reduce_keyword_msg (m : string) : bool :=
  startswith m "Reduce the usage of keyword '".

Definition is_keyword_msg (m : string) : bool :=
  is_include_keyword_msg m || is_increase_keyword_msg m || is_reduce_keyword_msg m.

(** The messages of the three buckets together. *)
Definition all_messages (r : recommendations) : list string :=
  (critical r ++ important r ++ minor r)%list.

(** [1] for [true], [0] for [false]. *)
Definition b2n (b : bool) : nat := if b then 1%nat else 0%nat.

(** An analysis whose heading flag agrees with its H1 count, as
    [analyze_content] builds it. *)
Definition headings_consistent (a : analysis) : Prop :=
  has_proper_structure (a_headings a) = (h1_count (a_headings a) =? 1).

(* ===================================================================== *)
(** * Further notions: closed forms, substrings, the front end, the
      scraper and the API *)
(* ===================================================================== *)

(** ** The three lists in closed form *)

(** What one keyword entry adds to the important list and to the minor
    list. *)
Definition keyword_important (item : string * keyword_data) : list string :=
  (when (absent_everywhere (snd item)) (msg_include_keyword (fst item))
   ++ when (over_used (snd item))
           (msg_reduce_keyword (fst item) (density (snd item))))%list.

Definition keyword_minor (item : string * keyword_data) : list string :=
  when (under_used (snd item))
       (msg_increase_keyword (fst item) (density (snd item))).

Definition critical_messages (a : analysis) (l : audit) : list string :=
  (when (negb (has_title (a_title a))) msg_add_title
   ++ when (negb (has_meta (a_meta_description a))) msg_add_meta
   ++ when (negb (has_proper_structure (a_headings a))
            && (h1_count (a_headings a) =? 0)) msg_add_h1
   ++ when (num_lt (performance l) (PyInt 90))
           (msg_improve_performance (score_text (performance l))))%list.

Definition important_messages (a : analysis) (l : audit) : list string :=
  (when (has_title (a_title a) && negb (title_optimal_length (a_title a)))
        msg_adjust_title
   ++ when (has_meta (a_meta_description a)
            && negb (meta_optimal_length (a_meta_description a)))
           msg_adjust_meta
   ++ when (negb (has_proper_structure (a_headings a))
            && negb (h1_count (a_headings a) =? 0)
            && (1 <? h1_count (a_headings a))) msg_one_h1
   ++ when (negb (has_sufficient_content (a_content a))) msg_more_content
   ++ flat_map keyword_important (keyword_items a)
   ++ when (0 <? missing_alt_count (a_images a))
           (msg_alt_text (missing_alt_count (a_images a)))
   ++ when (negb (num_lt (performance l) (PyInt 90))
            && num_lt (performance l) (PyInt 95))
           (msg_optimize_performance (score_text (performance l)))
   ++ when (num_lt (seo l) (PyInt 90)) (msg_technical_seo (score_text (seo l)))
   ++ when (num_lt (accessibility l) (PyInt 90))
           (msg_accessibility (score_text (accessibility l))))%list.

Definition minor_messages (a : analysis) : list string :=
  (flat_map keyword_minor (keyword_items a)
   ++ when (internal_count (a_links a) =? 0) msg_internal_links
   ++ when (external_count (a_links a) =? 0) msg_external_links)%list.

(** ** The keys of the keyword dictionary *)

(** The distinct entries of [l], each at the place of its first
    occurrence. *)
Fixpoint first_occurrences (l : list string) : list string :=
  match l with
  | [] => []
  | k :: l' => k :: filter (fun x => negb (String.eqb x k)) (first_occurrences l')
  end.

(** The dictionary entry of a keyword. *)
Definition keyword_entry (c : snapshot) (kw : string) : string * keyword_data :=
  (kw, analyze_keyword c kw).

(** [k in ks] *)
Definition mem (k : string) (ks : list string) : bool :=
  existsb (String.eqb k) ks.

(** [sub] is a substring of [s]. *)
Definition substring_of (sub s : string) : Prop :=
  exists pre post, s = pre ++ sub ++ post.

(** The page with its title, meta description, headings and text in lower
    case. *)
Definition lower_page (c : snapshot) : snapshot :=
  {| page_url := page_url c;
     page_title := lower (page_title c);
     page_meta_description := lower (page_meta_description c);
     page_headings :=
       {| h1 := map lower (h1 (page_headings c));
          h2 := map lower (h2 (page_headings c));
          h3 := map lower (h3 (page_headings c)) |};
     page_content := lower (page_content c);
     page_links := page_links c;
     page_images := page_images c |}.

(** All the headings of the page. *)
Definition all_headings (c : snapshot) : list string :=
  List.concat (headings_values (page_headings c)).

(** A page with a title and a heading, for the worked examples. *)
Definition guide_page : snapshot :=
  {| page_url := "https://x.com";
     page_title := "SEO Guide";
     page_meta_description := "";
     page_headings := {| h1 := ["Learn Seo"]; h2 := []; h3 := [] |};
     page_content := "seo seo seo";
     page_links := [about_link; mail_link];
     page_images := [] |}.

Definition with_url (u : string) (c : snapshot) : snapshot :=
  {| page_url := u;
     page_title := page_title c;
     page_meta_description := page_meta_description c;
     page_headings := page_headings c;
     page_content := page_content c;
     page_links := page_links c;
     page_images := page_images c |}.

(** ** When the formatting of a score fails *)

(** ['{:.0f}'.format(x)] raises. *)
Definition unformattable (x : pynum) : bool :=
  match format_0f x with
  | Ok _ => false
  | Raise _ => true
  end.

(** The score is formatted: it is below the last threshold [n] of its
    rule. *)
Definition formatted_below (n : Z) (x : pynum) : bool := num_lt x (PyInt n).

(** An audit with the same integer for the three scores that are read and
    100 for the fourth. *)
Definition audit_of (n : Z) : audit :=
  {| performance := PyInt n;
     seo := PyInt n;
     accessibility := PyInt n;
     best_practices := PyInt 100 |}.

(** The images of the page that have no alt text. *)
Definition images_without_alt (c : snapshot) : list image :=
  filter (fun img => negb (truthy (alt img))) (page_images c).

Definition is_alt_text_msg (m : string) : bool :=
  startswith m "Add alt text to ".

(** The keywords that were analysed. *)
Definition supplied (keywords : option (list string)) : list string :=
  match keywords with
  | Some kws => kws
  | None => []
  end.

(** ** A page with nothing to recommend *)

(** No rule fires on the analysis and the scores. *)
Definition silent (a : analysis) (l : audit) : bool :=
  (has_title (a_title a) && title_optimal_length (a_title a))
  && (has_meta (a_meta_description a) && meta_optimal_length (a_meta_description a))
  && (negb (negb (has_proper_structure (a_headings a))
            && (h1_count (a_headings a) =? 0))
      && negb (negb (has_proper_structure (a_headings a))
               && negb (h1_count (a_headings a) =? 0)
               && (1 <? h1_count (a_headings a))))
  && has_sufficient_content (a_content a)
  && forallb (fun item => negb (absent_everywhere (snd item))
                          && negb (under_used (snd item))
                          && negb (over_used (snd item)))
             (keyword_items a)
  && negb (0 <? missing_alt_count (a_images a))
  && negb (internal_count (a_links a) =? 0)
  && negb (external_count (a_links a) =? 0)
  && (negb (num_lt (performance l) (PyInt 90))
      && negb (num_lt (performance l) (PyInt 95)))
  && negb (num_lt (seo l) (PyInt 90))
  && negb (num_lt (accessibility l) (PyInt 90)).

(** The keyword is in the title, the meta description or a heading, and
    its density is neither below 0.5 nor above 3. *)
Definition keyword_in_place (c : snapshot) (kw : string) : bool :=
  let data := analyze_keyword c kw in
  (in_title data || in_meta data || in_headings data)
  && negb (num_lt (density data) (PyFloat float_0_5))
  && negb (num_gt (density data) (PyInt 3)).

(** What the page and the scores must satisfy for an empty result. *)
Definition nothing_to_recommend
  (c : snapshot) (keywords : option (list string)) (l : audit) : bool :=
  ((50 <=? len (page_title c)) && (len (page_title c) <=? 60))
  && ((150 <=? len (page_meta_description c))
      && (len (page_meta_description c) <=? 160))
  && (list_len (h1 (page_headings c)) =? 1)
  && (300 <=? count_words (page_content c))
  && forallb (keyword_in_place c) (supplied keywords)
  && forallb (fun img => truthy (alt img)) (page_images c)
  && existsb (is_internal (page_url c)) (page_links c)
  && existsb is_external (page_links c)
  && negb (num_lt (performance l) (PyInt 95))
  && negb (num_lt (seo l) (PyInt 90))
  && negb (num_lt (accessibility l) (PyInt 90)).

(** A page that passes every rule. *)
Definition perfect_page : snapshot :=
  {| page_url := "https://x.com";
     page_title := "seo " ++ replicate 50 "a";
     page_meta_description := replicate 155 "b";
     page_headings := {| h1 := ["Welcome"]; h2 := []; h3 := [] |};
     page_content := repeat_string 297 "text " ++ "seo seo seo";
     page_links :=
       [about_link; {| href := "/contact"; link_text := "Contact" |}];
     page_images := [{| src := "/logo.png"; alt := "Logo" |}] |}.

(* ===================================================================== *)
(** * The keyword field of the front end ([src/streamlit-app.py], [main]) *)
(* ===================================================================== *)

(** White space on ASCII text, as [str.strip()] sees it: the characters 9
    to 13 and 28 to 32. *)
Definition is_space (c : ascii) : bool :=
  let n := nat_of_ascii c in
  ((9 <=? n) && (n <=? 13) || (28 <=? n) && (n <=? 32))%nat.

(** [s.lstrip()] *)
Fixpoint lstrip (s : string) : string :=
  match s with
  | EmptyString => EmptyString
  | String c s' => if is_space c then lstrip s' else s
  end.

(** [s.rstrip()] *)
Fixpoint rstrip (s : string) : string :=
  match s with
  | EmptyString => EmptyString
  | String c s' =>
      match rstrip s' with
      | EmptyString => if is_space c then EmptyString else String c EmptyString
      | r => String c r
      end
  end.

(** [s.strip()] *)
Definition strip (s : string) : string := rstrip (lstrip s).

(** [s.split(",")]: the pieces between the commas; there is always at
    least one piece. *)
Fixpoint split_comma (s : string) : list string :=
  match s with
  | EmptyString => [EmptyString]
  | String c s' =>
      if Ascii.eqb c "," then EmptyString :: split_comma s'
      else match split_comma s' with
           | piece :: pieces => String c piece :: pieces
           | [] => [String c EmptyString]
           end
  end.

(** The keyword list the front end sends:
    [[k.strip() for k in keywords.split(",") if k.strip()]] when the field
    is not empty, [None] otherwise. *)
Definition parse_keywords (keywords : string) : option (list string) :=
  if truthy keywords then
    Some (map strip (filter (fun k => truthy (strip k)) (split_comma keywords)))
  else None.

(** [s] is empty or starts with a character that is no white space. *)
Definition no_leading_space (s : string) : Prop :=
  match s with
  | EmptyString => True
  | String c _ => is_space c = false
  end.

(** [c in s] for a character. *)
Fixpoint has_char (ch : ascii) (s : string) : bool :=
  match s with
  | EmptyString => false
  | String c s' => Ascii.eqb c ch || has_char ch s'
  end.

(** A keyword as the front end sends it: not empty, without white space
    at either end, without a comma. *)
Definition clean_keyword (k : string) : bool :=
  truthy k && String.eqb (strip k) k && negb (has_char "," k).

(** The field holds white space and commas only. *)
Fixpoint blank_field (s : string) : bool :=
  match s with
  | EmptyString => true
  | String c s' => (is_space c || Ascii.eqb c ",") && blank_field s'
  end.

(** [", ".join(ks)] *)
Definition join_keywords (ks : list string) : string := String.concat ", " ks.

(** [s] holds white space only. *)
Fixpoint all_space (s : string) : bool :=
  match s with
  | EmptyString => true
  | String c s' => is_space c && all_space s'
  end.

(* ===================================================================== *)
(** * The scraper ([src/app/scraper.py], [scrape_url]) *)
(* ===================================================================== *)

(** The part of [scrape_url] that follows the calls of the HTML parser.
    What the parser returns is the input: the values of [title],
    [meta_description] and [headings] (strings and lists of strings), the
    text of the page, and what the two loops read from every [<a>] and
    every [<img>] element.  The HTTP request and the parser are not
    modelled; a page for which [soup.title.string] is [None] instead of a
    string is outside the model. *)

(** An [<a>] element: [link.get("href")], which is [None] without the
    attribute, and [link.get_text(strip=True)]. *)
Record anchor : Type := { anchor_href : option string; anchor_text : string }.

(** An [<img>] element: [img.get("src")] and the [alt] attribute, if
    any. *)
Record img_tag : Type := { img_src : option string; img_alt : option string }.

Record parsed_page : Type :=
  { parsed_title : string;
    parsed_meta_description : string;
    parsed_headings : headings;
    parsed_text : string;
    parsed_anchors : list anchor;
    parsed_imgs : list img_tag }.

(** [bool(x)] for a string or [None]. *)
Definition truthy_opt (x : option string) : bool :=
  match x with
  | Some s => truthy s
  | None => false
  end.

(** [d.get(key, default)] *)
Definition get_default (x : option string) (default : string) : string :=
  match x with
  | Some s => s
  | None => default
  end.

(** The body of the loop over the [<a>] elements.  The loop assigns to the
    variable [text], which held the text of the page. *)
Definition link_step (st : string * list link) (a : anchor) : string * list link :=
  let links := snd st in
  let href := anchor_href a in
  let text := anchor_text a in
  (text,
   if truthy_opt href && truthy text
   then (links ++ [{| href := get_default href ""; link_text := text |}])%list
   else links).

(** The body of the loop over the [<img>] elements. *)
Definition image_step (images : list image) (i : img_tag) : list image :=
  let src := img_src i in
  let alt := get_default (img_alt i) "" in
  if truthy_opt src
  then (images ++ [{| src := get_default src ""; alt := alt |}])%list
  else images.

(** The dictionary [scrape_url] returns. *)
Definition scrape_result (url : string) (p : parsed_page) : snapshot :=
  let text := parsed_text p in
  let '(text, links) := fold_left link_step (parsed_anchors p) (text, []) in
  let images := fold_left image_step (parsed_imgs p) [] in
  {| page_url := url;
     page_title := parsed_title p;
     page_meta_description := parsed_meta_description p;
     page_headings := parsed_headings p;
     page_content := text;
     page_links := links;
     page_images := images |}.

(** An anchor that becomes a link, and the link it becomes. *)
Definition anchor_kept (a : anchor) : bool :=
  truthy_opt (anchor_href a) && truthy (anchor_text a).

Definition link_of_anchor (a : anchor) : link :=
  {| href := get_default (anchor_href a) ""; link_text := anchor_text a |}.

Definition img_kept (i : img_tag) : bool := truthy_opt (img_src i).

Definition image_of_img (i : img_tag) : image :=
  {| src := get_default (img_src i) ""; alt := get_default (img_alt i) "" |}.

(** An image element that is kept and has no alt text. *)
Definition img_lacks_alt (i : img_tag) : bool :=
  img_kept i && negb (truthy_opt (img_alt i)).

(** A parsed page for the worked examples: an article with a logo link
    and a link [Home] at its end. *)
Definition article : parsed_page :=
  {| parsed_title := "Article";
     parsed_meta_description := "";
     parsed_headings := no_headings;
     parsed_text := "A long article about search engines Home";
     parsed_anchors :=
       [{| anchor_href := Some "/logo"; anchor_text := "" |};
        {| anchor_href := None; anchor_text := "top" |};
        {| anchor_href := Some "/"; anchor_text := "Home" |}];
     parsed_imgs :=
       [{| img_src := Some "/logo.png"; img_alt := None |};
        {| img_src := None; img_alt := Some "decoration" |};
        {| img_src := Some "/a.png"; img_alt := Some "A" |}] |}.

(* ===================================================================== *)
(** * The API ([src/app/main.py]) *)
(* ===================================================================== *)

(** The two handlers, with the directory [data/] as explicit state.  A
    file [data/task_<id>.json] is modelled by the data it holds, so writing
    a file and reading it back preserve the data, and the operations on
    the directory succeed.  The two awaited calls, [scrape_url] and
    [run_lighthouse_audit], are not part of the model: what they return is
    an input, [None] when the call raises.  [None] as the scraped page
    stands also for a page on which [analyze_content] raises (a title that
    is [None]): the handler answers both in the same way, before it
    awaits the audit.  [generate_recommendations] is the program without
    the digit limit of the interpreter. *)

(** [task_data["results"]] once the task is completed. *)
Record task_results : Type :=
  { results_analysis : analysis;
    results_lighthouse : audit;
    results_recommendations : recommendations }.

(** The content of a task file; [None] as [task_result] stands for the
    empty dictionary of a task in progress. *)
Record task_data : Type :=
  { task_status : string;
    task_url : string;
    task_keywords : option (list string);
    task_result : option task_results }.

(** The directory [data/]: the task files by task id. *)
Definition store : Type := string -> option task_data.

Definition no_files : store := fun _ => None.

(** [json.dump(task_data, f)] on [data/task_<id>.json], opened for
    writing. *)
Definition write_task (id : string) (d : task_data) (fs : store) : store :=
  fun k => if String.eqb k id then Some d else fs k.

(** [URLRequest] *)
Record url_request : Type :=
  { request_url : string; request_keywords : option (list string) }.

(** What a handler returns: an [SEOResponse], or the [HTTPException] it
    raises. *)
Inductive http_result : Type :=
| Response (task_id status : string) (results : option task_results)
| HttpError (status_code : Z).

(** [analyze_url(request)], at the clock second [now]; [scraped] and
    [audited] are what the two awaited calls return. *)
Definition analyze_url (now : Z) (request : url_request)
  (scraped : option snapshot) (audited : option audit) (fs : store)
  : store * http_result :=
  let task_id := str_of_int now in
  let task_data :=
    {| task_status := "in_progress";
       task_url := request_url request;
       task_keywords := request_keywords request;
       task_result := None |} in
  let fs := write_task task_id task_data fs in
  match scraped with
  | None => (fs, HttpError 500)
  | Some content =>
      let analysis_results := analyze_content content (request_keywords request) in
      match audited with
      | None => (fs, HttpError 500)
      | Some lighthouse_results =>
          match generate_recommendations analysis_results lighthouse_results with
          | Raise _ => (fs, HttpError 500)
          | Ok recommendations =>
              let results :=
                {| results_analysis := analysis_results;
                   results_lighthouse := lighthouse_results;
                   results_recommendations := recommendations |} in
              let task_data :=
                {| task_status := "completed";
                   task_url := request_url request;
                   task_keywords := request_keywords request;
                   task_result := Some results |} in
              let fs := write_task task_id task_data fs in
              (fs, Response task_id "completed" (Some results))
          end
      end
  end.

(** [get_task_status(task_id)] *)
Definition get_task_status (task_id : string) (fs : store) : http_result :=
  match fs task_id with
  | Some task_data =>
      Response task_id (task_status task_data) (task_result task_data)
  | None => HttpError 404
  end.

(** A request for the worked examples, and the result of the empty page
    with every score at 50. *)
Definition example_request : url_request :=
  {| request_url := "https://x.com"; request_keywords := None |}.

Definition example_results : task_results :=
  {| results_analysis := analyze_content empty_page None;
     results_lighthouse := flat_audit 50;
     results_recommendations :=
       {| critical :=
            [msg_add_title; msg_add_meta; msg_add_h1; msg_improve_performance "50"];
          important :=
            [msg_more_content; msg_technical_seo "50"; msg_accessibility "50"];
          minor := [msg_internal_links; msg_external_links] |} |}.

(* ===================================================================== *)
(** * The limit on the conversion of an [int] to a string *)
(* ===================================================================== *)

(** Since CPython 3.11, [str(n)] and an f-string raise [ValueError] on an
    [int] with more digits than [sys.get_int_max_str_digits()], 4300
    unless it was changed; the limit 0 switches the check off, which is
    also how the earlier interpreters behave.  The definitions above are
    the program without the check; the ones below carry the limit. *)

(** The number of decimal digits of [z], without the sign. *)
Definition digits (z : Z) : Z := len (str_of_int (Z.abs z)).

Definition within_limit (limit z : Z) : bool :=
  negb ((0 <? limit) && (limit <? digits z)).

(** [str(z)] under the limit. *)
Definition int_to_str (limit z : Z) : exc string :=
  if within_limit limit z then Ok (str_of_int z) else Raise ValueError.

(** [f'{x}'] for a number under the limit; a [float] is always shown. *)
Definition num_to_str (limit : Z) (x : pynum) : exc string :=
  match x with
  | PyInt z => int_to_str limit z
  | PyFloat f => Ok (repr_float f)
  end.

(** The messages that show a number, from the text of the number. *)
Definition increase_keyword_text (keyword shown : string) : string :=
  "Consider increasing the usage of keyword '" ++ keyword
    ++ "' (current density: " ++ shown ++ "%)".
Definition reduce_keyword_text (keyword shown : string) : string :=
  "Reduce the usage of keyword '" ++ keyword
    ++ "' to avoid keyword stuffing (current density: " ++ shown ++ "%)".
Definition alt_text_text (shown : string) : string :=
  "Add alt text to " ++ shown ++ " images".

(** The body of the loop over [analysis["keywords"].items()]. *)
Definition keyword_item_limited (limit : Z) (keyword : string)
  (data : keyword_data) (r : recommendations) : exc recommendations :=
  let r :=
    if negb (in_title data) && negb (in_meta data) && negb (in_headings data)
    then append_important (msg_include_keyword keyword) r
    else r in
  if num_lt (density data) (PyFloat float_0_5) then
    shown <- num_to_str limit (density data) ;;
    Ok (append_minor (increase_keyword_text keyword shown) r)
  else if num_gt (density data) (PyInt 3) then
    shown <- num_to_str limit (density data) ;;
    Ok (append_important (reduce_keyword_text keyword shown) r)
  else Ok r.

(** The loop: it stops at the first exception. *)
Fixpoint keyword_loop_limited (limit : Z) (items : dict keyword_data)
  (r : recommendations) : exc recommendations :=
  match items with
  | [] => Ok r
  | (keyword, data) :: items' =>
      r <- keyword_item_limited limit keyword data r ;;
      keyword_loop_limited limit items' r
  end.

Definition keyword_rule_limited (limit : Z) (a : analysis) (r : recommendations)
  : exc recommendations :=
  match a_keywords a with
  | Some items => keyword_loop_limited limit items r
  | None => Ok r
  end.

Definition image_rule_limited (limit : Z) (a : analysis) (r : recommendations)
  : exc recommendations :=
  if 0 <? missing_alt_count (a_images a) then
    shown <- int_to_str limit (missing_alt_count (a_images a)) ;;
    Ok (append_important (alt_text_text shown) r)
  else Ok r.

(** [generate_recommendations(analysis, lighthouse)] under the limit. *)
Definition generate_recommendations_limited (limit : Z) (a : analysis)
  (lighthouse : audit) : exc recommendations :=
  let r := no_recommendations in
  let r := title_rule a r in
  let r := meta_rule a r in
  let r := heading_rule a r in
  let r := content_rule a r in
  r <- keyword_rule_limited limit a r ;;
  r <- image_rule_limited limit a r ;;
  let r := link_rule a r in
  r <- performance_rule lighthouse r ;;
  r <- seo_rule lighthouse r ;;
  accessibility_rule lighthouse r.

(** The number of a keyword entry is shown, and it cannot be. *)
Definition density_shown (data : keyword_data) : bool :=
  num_lt (density data) (PyFloat float_0_5) || num_gt (density data) (PyInt 3).

Definition num_within_limit (limit : Z) (x : pynum) : bool :=
  match x with
  | PyInt z => within_limit limit z
  | PyFloat _ => true
  end.

(** Some number the keyword rule or the image rule shows is over the
    limit. *)
Definition over_limit (limit : Z) (a : analysis) : bool :=
  existsb (fun item => density_shown (snd item)
                       && negb (num_within_limit limit (density (snd item))))
          (keyword_items a)
  || (0 <? missing_alt_count (a_images a))
     && negb (within_limit limit (missing_alt_count (a_images a))).

(** The default limit of CPython 3.11. *)
Definition default_limit : Z := 4300.

(** The analysis of the empty page, with [n] images and none of them with
    alt text. *)
Definition crowded (n : Z) : analysis :=
  let a := analyze_content empty_page None in
  {| a_title := a_title a;
     a_meta_description := a_meta_description a;
     a_headings := a_headings a;
     a_content := a_content a;
     a_keywords := a_keywords a;
     a_links := a_links a;
     a_images := {| images_total_count := n; missing_alt_count := n |} |}.

(** A score is formatted and cannot be. *)
Definition score_overflows (l : audit) : bool :=
  formatted_below 95 (performance l) && unformattable (performance l)
  || formatted_below 90 (seo l) && unformattable (seo l)
  || formatted_below 90 (accessibility l) && unformattable (accessibility l).

(* ===================================================================== *)
(** * The two functions as programs on the heap *)
(* ===================================================================== *)

(** The definitions above take the arguments of [analyze_content] and
    [generate_recommendations] as values.  In Python they are references
    to dictionaries and lists that the callee could change, and the
    callee could read or write a file.  The programs below run on a world
    that holds the objects and the task files; every subscript, method
    call and assignment of the source is an operation on that world.

    An address is the position of the object in the list of the objects
    of the world; a new object goes to the end of the list, so that the
    objects that exist when a function is called are a prefix of the
    objects that exist when it returns.  A list that a comprehension or
    [re.findall] builds and that the function drops before it returns is
    kept as a value. *)

Definition ref : Type := nat.

(** [bool] is kept apart from [int]; a number is a [pynum]. *)
Inductive value : Type :=
| VNone
| VBool (b : bool)
| VNum (x : pynum)
| VStr (s : string)
| VRef (r : ref).

Arguments VRef r%_nat.

Inductive object : Type :=
| ODict (items : dict value)
| OList (items : list value).

Record world : Type :=
  { objects : list object;
    files : store }.

(** A computation: it returns or raises, and leaves a world. *)
Definition M (A : Type) : Type := world -> exc A * world.

Definition ret {A : Type} (a : A) : M A := fun w => (Ok a, w).

Definition raise {A : Type} (e : pyerror) : M A := fun w => (Raise e, w).

Definition bindM {A B : Type} (m : M A) (k : A -> M B) : M B :=
  fun w =>
    match m w with
    | (Ok a, w') => k a w'
    | (Raise e, w') => (Raise e, w')
    end.

Notation "x <~ c ;; k" := (bindM c (fun x => k))
  (at level 61, c at next level, right associativity).
Notation "c ;;; k" := (bindM c (fun _ => k))
  (at level 61, right associativity).

(** An exception of a pure step. *)
Definition lift {A : Type} (x : exc A) : M A :=
  fun w => (x, w).

(** ** The heap *)

Definition deref (r : ref) (w : world) : option object :=
  nth_error (objects w) r.

Fixpoint replace_nth {A : Type} (n : nat) (x : A) (l : list A) : list A :=
  match n, l with
  | O, _ :: l' => x :: l'
  | S n', y :: l' => y :: replace_nth n' x l'
  | _, [] => []
  end.

(** The object at [r] becomes [o]. *)
Definition update (r : ref) (o : object) (w : world) : world :=
  {| objects := replace_nth r o (objects w); files := files w |}.

(** A dictionary or list display: a new object. *)
Definition alloc (o : object) : M value :=
  fun w =>
    (Ok (VRef (List.length (objects w))),
     {| objects := (objects w ++ [o])%list; files := files w |}).

(** ** The operations of Python the two functions use *)

(** [d[k]] for a string [k]. *)
Definition getitem (d : value) (k : string) : M value :=
  fun w =>
    match d with
    | VRef r =>
        match deref r w with
        | Some (ODict items) =>
            match dict_get k items with
            | Some v => (Ok v, w)
            | None => (Raise KeyError, w)
            end
        | _ => (Raise TypeError, w)
        end
    | _ => (Raise TypeError, w)
    end.

(** [d[k] = v] *)
Definition setitem (d : value) (k : string) (v : value) : M unit :=
  fun w =>
    match d with
    | VRef r =>
        match deref r w with
        | Some (ODict items) => (Ok tt, update r (ODict (dict_set k v items)) w)
        | _ => (Raise TypeError, w)
        end
    | _ => (Raise TypeError, w)
    end.

(** [l.append(x)] *)
Definition append_to (l : value) (x : value) : M unit :=
  fun w =>
    match l with
    | VRef r =>
        match deref r w with
        | Some (OList items) => (Ok tt, update r (OList (items ++ [x])) w)
        | _ => (Raise AttributeError, w)
        end
    | _ => (Raise AttributeError, w)
    end.

(** [k in d] for a string [k] and a dictionary [d]. *)
Definition has_key (d : value) (k : string) : M bool :=
  fun w =>
    match d with
    | VRef r =>
        match deref r w with
        | Some (ODict items) =>
            (Ok (match dict_get k items with Some _ => true | None => false end), w)
        | Some (OList items) =>
            (Ok (existsb (fun v => match v with
                                   | VStr s => String.eqb s k
                                   | _ => false
                                   end) items), w)
        | None => (Raise TypeError, w)
        end
    | VStr s => (Ok (contains s k), w)
    | _ => (Raise TypeError, w)
    end.

(** [len(v)] *)
Definition len_of (v : value) : M Z :=
  fun w =>
    match v with
    | VStr s => (Ok (len s), w)
    | VRef r =>
        match deref r w with
        | Some (ODict items) => (Ok (list_len items), w)
        | Some (OList items) => (Ok (list_len items), w)
        | None => (Raise TypeError, w)
        end
    | _ => (Raise TypeError, w)
    end.

Definition float_is_zero (f : spec_float) : bool :=
  match f with
  | S754_zero _ => true
  | _ => false
  end.

(** [bool(v)], which is also how [if v], [not v] and [any] read [v]. *)
Definition truth (v : value) : M bool :=
  fun w =>
    match v with
    | VNone => (Ok false, w)
    | VBool b => (Ok b, w)
    | VNum (PyInt z) => (Ok (negb (z =? 0)), w)
    | VNum (PyFloat f) => (Ok (negb (float_is_zero f)), w)
    | VStr s => (Ok (truthy s), w)
    | VRef r =>
        match deref r w with
        | Some (ODict items) => (Ok (negb (list_len items =? 0)), w)
        | Some (OList items) => (Ok (negb (list_len items =? 0)), w)
        | None => (Raise TypeError, w)
        end
    end.

(** The receiver of a [str] method: [v.lower()], [v.startswith(...)],
    [v.count(...)]. *)
Definition str_receiver (v : value) : M string :=
  match v with
  | VStr s => ret s
  | _ => raise AttributeError
  end.

(** [s.startswith(ps)] for a tuple [ps]: the elements are tried in
    order, and one that is no [str] raises [TypeError] when it is
    reached. *)
Fixpoint startswith_tuple (s : string) (ps : list value) : M bool :=
  match ps with
  | [] => ret false
  | VStr p :: ps' =>
      if startswith s p then ret true else startswith_tuple s ps'
  | _ :: _ => raise TypeError
  end.

(** [v.lower()] *)
Definition lower_of (v : value) : M string :=
  s <~ str_receiver v ;; ret (lower s).

(** The elements a [for] loop or a comprehension takes from [v]. *)
Definition iterate (v : value) : M (list value) :=
  fun w =>
    match v with
    | VRef r =>
        match deref r w with
        | Some (OList items) => (Ok items, w)
        | Some (ODict items) => (Ok (map (fun kv => VStr (fst kv)) items), w)
        | None => (Raise TypeError, w)
        end
    | VStr s =>
        (Ok (map (fun ch => VStr (String ch EmptyString)) (list_ascii_of_string s)), w)
    | _ => (Raise TypeError, w)
    end.

(** [d.values()] and [d.items()] *)
Definition values_of (d : value) : M (list value) :=
  fun w =>
    match d with
    | VRef r =>
        match deref r w with
        | Some (ODict items) => (Ok (map snd items), w)
        | _ => (Raise AttributeError, w)
        end
    | _ => (Raise AttributeError, w)
    end.

Definition items_of (d : value) : M (dict value) :=
  fun w =>
    match d with
    | VRef r =>
        match deref r w with
        | Some (ODict items) => (Ok items, w)
        | _ => (Raise AttributeError, w)
        end
    | _ => (Raise AttributeError, w)
    end.

(** A value as a number in a comparison with a number: a [bool] counts as
    0 or 1. *)
Definition as_number (v : value) : M pynum :=
  match v with
  | VNum x => ret x
  | VBool b => ret (PyInt (if b then 1 else 0))
  | _ => raise TypeError
  end.

(** [v < n] and [v > n] for a number [n]. *)
Definition less_than (v : value) (n : pynum) : M bool :=
  x <~ as_number v ;; ret (num_lt x n).

Definition greater_than (v : value) (n : pynum) : M bool :=
  x <~ as_number v ;; ret (num_gt x n).

(** [v == n] for an [int] [n]; it never raises. *)
Definition equals_int (v : value) (n : Z) : M bool :=
  match v with
  | VNum x => ret (match num_compare x (PyInt n) with Some Eq => true | _ => false end)
  | VBool b => ret ((if b then 1 else 0) =? n)
  | _ => ret false
  end.

(** ['{:.0f}'.format(v)] *)
Definition format_score (v : value) : M string :=
  match v with
  | VNum x => lift (format_0f x)
  | VBool b => ret (if b then "1" else "0")
  | VStr _ => raise ValueError
  | _ => raise TypeError
  end.

(** [f'{v}'] under the limit of the interpreter.  The text of a list or
    of a dictionary is not modelled. *)
Definition text_of (limit : Z) (v : value) : M string :=
  match v with
  | VNum x => lift (num_to_str limit x)
  | VStr s => ret s
  | VBool b => ret (if b then "True" else "False")
  | VNone => ret "None"
  | VRef _ => raise TypeError
  end.

(** A [for] loop. *)
Fixpoint for_each {A : Type} (l : list A) (body : A -> M unit) : M unit :=
  match l with
  | [] => ret tt
  | x :: l' => body x ;;; for_each l' body
  end.

(** [[x for x in l if p(x)]] *)
Fixpoint select {A : Type} (p : A -> M bool) (l : list A) : M (list A) :=
  match l with
  | [] => ret []
  | x :: l' =>
      b <~ p x ;;
      rest <~ select p l' ;;
      ret (if b then x :: rest else rest)
  end.

(** [any(p(x) for x in l)]: it stops at the first hit. *)
Fixpoint any_of {A : Type} (p : A -> M bool) (l : list A) : M bool :=
  match l with
  | [] => ret false
  | x :: l' =>
      b <~ p x ;;
      if b then ret true else any_of p l'
  end.

(** ** [analyze_content] on the heap *)

(** [50 <= len(v) <= 60 if v else False]: the length is taken once. *)
Definition optimal_length_of (lo hi : Z) (v : value) : M bool :=
  b <~ truth v ;;
  if b then n <~ len_of v ;; ret ((lo <=? n) && (n <=? hi)) else ret false.

(** The dictionary stored under [keyword]; its entries are computed in
    the order of the display. *)
Definition keyword_entry_of (content title meta_desc text keyword : value)
  (word_count : Z) : M value :=
  keyword_lower <~ lower_of keyword ;;
  lowered <~ lower_of text ;;
  let exact_matches := str_count lowered keyword_lower in
  let density := raw_density exact_matches word_count in
  title_lower <~ lower_of title ;;
  meta_lower <~ lower_of meta_desc ;;
  hs <~ getitem content "headings" ;;
  h_lists <~ values_of hs ;;
  in_headings <~
    any_of (fun h_list =>
              hl <~ iterate h_list ;;
              any_of (fun h => h_lower <~ lower_of h ;;
                               ret (contains h_lower keyword_lower)) hl)
           h_lists ;;
  alloc (ODict [("count", VNum (PyInt exact_matches));
                ("density", VNum (round2 density));
                ("in_title", VBool (contains title_lower keyword_lower));
                ("in_meta", VBool (contains meta_lower keyword_lower));
                ("in_headings", VBool in_headings)]).

(** A key of a dictionary has to be hashable; of the values here a list
    or a dictionary is not, and the model keeps only string keys. *)
Definition key_of (v : value) : M string :=
  match v with
  | VStr s => ret s
  | _ => raise TypeError
  end.

(** The sections of [analyze_content], in the order of the source.  A
    section returns the local variables that a later section reads. *)

(** Title analysis; it returns [title]. *)
Definition analyze_title_m (content analysis : value) : M value :=
  title <~ getitem content "title" ;;
  title_length <~ len_of title ;;
  has_title <~ truth title ;;
  title_optimal <~ optimal_length_of 50 60 title ;;
  d <~ alloc (ODict [("length", VNum (PyInt title_length));
                     ("has_title", VBool has_title);
                     ("optimal_length", VBool title_optimal)]) ;;
  setitem analysis "title" d ;;;
  ret title.

(** Meta description analysis; it returns [meta_desc]. *)
Definition analyze_meta_m (content analysis : value) : M value :=
  meta_desc <~ getitem content "meta_description" ;;
  meta_length <~ len_of meta_desc ;;
  has_meta <~ truth meta_desc ;;
  meta_optimal <~ optimal_length_of 150 160 meta_desc ;;
  d <~ alloc (ODict [("length", VNum (PyInt meta_length));
                     ("has_meta", VBool has_meta);
                     ("optimal_length", VBool meta_optimal)]) ;;
  setitem analysis "meta_description" d ;;;
  ret meta_desc.

(** [len(content["headings"][k])] *)
Definition heading_count (content : value) (k : string) : M Z :=
  hs <~ getitem content "headings" ;;
  l <~ getitem hs k ;;
  len_of l.

(** Headings analysis. *)
Definition analyze_headings_m (content analysis : value) : M unit :=
  h1_count <~ heading_count content "h1" ;;
  h2_count <~ heading_count content "h2" ;;
  h3_count <~ heading_count content "h3" ;;
  h1_again <~ heading_count content "h1" ;;
  d <~ alloc (ODict [("h1_count", VNum (PyInt h1_count));
                     ("h2_count", VNum (PyInt h2_count));
                     ("h3_count", VNum (PyInt h3_count));
                     ("has_proper_structure", VBool (h1_again =? 1))]) ;;
  setitem analysis "headings" d.

(** Content analysis; it returns [text] and [word_count]. *)
Definition analyze_text_m (content analysis : value) : M (value * Z) :=
  text <~ getitem content "content" ;;
  lowered <~ lower_of text ;;
  let words := findall_words lowered in
  let word_count := list_len words in
  d <~ alloc (ODict [("word_count", VNum (PyInt word_count));
                     ("has_sufficient_content", VBool (300 <=? word_count))]) ;;
  setitem analysis "content" d ;;;
  ret (text, word_count).

(** Keyword analysis if keywords provided. *)
Definition analyze_keywords_m (content keywords analysis : value)
  (title meta_desc text : value) (word_count : Z) : M unit :=
  given <~ truth keywords ;;
  if given then
    keyword_analysis <~ alloc (ODict []) ;;
    ks <~ iterate keywords ;;
    for_each ks (fun keyword =>
      d <~ keyword_entry_of content title meta_desc text keyword word_count ;;
      k <~ key_of keyword ;;
      setitem keyword_analysis k d) ;;;
    setitem analysis "keywords" keyword_analysis
  else ret tt.

(** Link analysis. *)
Definition analyze_links_m (content analysis : value) : M unit :=
  links <~ getitem content "links" ;;
  ls <~ iterate links ;;
  internal_links <~
    select (fun link =>
              href <~ getitem link "href" ;;
              s <~ str_receiver href ;;
              url <~ getitem content "url" ;;
              startswith_tuple s [VStr "/"; url]) ls ;;
  links <~ getitem content "links" ;;
  ls <~ iterate links ;;
  external_links <~
    select (fun link =>
              href <~ getitem link "href" ;;
              s <~ str_receiver href ;;
              startswith_tuple s [VStr "http"; VStr "https"]) ls ;;
  links <~ getitem content "links" ;;
  total <~ len_of links ;;
  d <~ alloc (ODict [("internal_count", VNum (PyInt (list_len internal_links)));
                     ("external_count", VNum (PyInt (list_len external_links)));
                     ("total_count", VNum (PyInt total))]) ;;
  setitem analysis "links" d.

(** Image analysis. *)
Definition analyze_images_m (content analysis : value) : M unit :=
  images <~ getitem content "images" ;;
  imgs <~ iterate images ;;
  images_without_alt <~
    select (fun img => a <~ getitem img "alt" ;; b <~ truth a ;; ret (negb b))
           imgs ;;
  images <~ getitem content "images" ;;
  total <~ len_of images ;;
  d <~ alloc (ODict [("total_count", VNum (PyInt total));
                     ("missing_alt_count",
                      VNum (PyInt (list_len images_without_alt)))]) ;;
  setitem analysis "images" d.

Definition analyze_content_m (content keywords : value) : M value :=
  analysis <~ alloc (ODict []) ;;
  title <~ analyze_title_m content analysis ;;
  meta_desc <~ analyze_meta_m content analysis ;;
  analyze_headings_m content analysis ;;;
  tw <~ analyze_text_m content analysis ;;
  analyze_keywords_m content keywords analysis title meta_desc (fst tw) (snd tw) ;;;
  analyze_links_m content analysis ;;;
  analyze_images_m content analysis ;;;
  ret analysis.

(** ** [generate_recommendations] on the heap *)

(** [not d[k]] *)
Definition lacks (d : value) (k : string) : M bool :=
  v <~ getitem d k ;; b <~ truth v ;; ret (negb b).

(** [recommendations[severity].append(msg)]: the list is looked up before
    the message is built. *)
Definition say (recommendations : value) (severity : string) (msg : M string)
  : M unit :=
  l <~ getitem recommendations severity ;;
  m <~ msg ;;
  append_to l (VStr m).

Definition title_rule_m (analysis recommendations : value) : M unit :=
  t <~ getitem analysis "title" ;;
  b <~ lacks t "has_title" ;;
  if b then say recommendations "critical" (ret msg_add_title)
  else
    t <~ getitem analysis "title" ;;
    b <~ lacks t "optimal_length" ;;
    if b then say recommendations "important" (ret msg_adjust_title)
    else ret tt.

Definition meta_rule_m (analysis recommendations : value) : M unit :=
  t <~ getitem analysis "meta_description" ;;
  b <~ lacks t "has_meta" ;;
  if b then say recommendations "critical" (ret msg_add_meta)
  else
    t <~ getitem analysis "meta_description" ;;
    b <~ lacks t "optimal_length" ;;
    if b then say recommendations "important" (ret msg_adjust_meta)
    else ret tt.

Definition heading_rule_m (analysis recommendations : value) : M unit :=
  hs <~ getitem analysis "headings" ;;
  b <~ lacks hs "has_proper_structure" ;;
  if b then
    hs <~ getitem analysis "headings" ;;
    n <~ getitem hs "h1_count" ;;
    none <~ equals_int n 0 ;;
    if none then say recommendations "critical" (ret msg_add_h1)
    else
      hs <~ getitem analysis "headings" ;;
      n <~ getitem hs "h1_count" ;;
      many <~ greater_than n (PyInt 1) ;;
      if many then say recommendations "important" (ret msg_one_h1)
      else ret tt
  else ret tt.

Definition content_rule_m (analysis recommendations : value) : M unit :=
  c <~ getitem analysis "content" ;;
  b <~ lacks c "has_sufficient_content" ;;
  if b then say recommendations "important" (ret msg_more_content)
  else ret tt.

(** The number of an f-string: [{data['density']}]. *)
Definition shown_field (limit : Z) (d : value) (k : string) : M string :=
  v <~ getitem d k ;; text_of limit v.

(** The body of the loop over [analysis["keywords"].items()]; [and]
    reads its right operand only when the left one holds. *)
Definition keyword_item_m (limit : Z) (recommendations : value)
  (keyword : string) (data : value) : M unit :=
  b1 <~ lacks data "in_title" ;;
  b2 <~ (if b1 then lacks data "in_meta" else ret false) ;;
  b3 <~ (if b2 then lacks data "in_headings" else ret false) ;;
  (if b3 then say recommendations "important" (ret (msg_include_keyword keyword))
   else ret tt) ;;;
  d <~ getitem data "density" ;;
  low <~ less_than d (PyFloat float_0_5) ;;
  if low then
    say recommendations "minor"
        (shown <~ shown_field limit data "density" ;;
         ret (increase_keyword_text keyword shown))
  else
    d <~ getitem data "density" ;;
    high <~ greater_than d (PyInt 3) ;;
    if high then
      say recommendations "important"
          (shown <~ shown_field limit data "density" ;;
           ret (reduce_keyword_text keyword shown))
    else ret tt.

Definition keyword_rule_m (limit : Z) (analysis recommendations : value)
  : M unit :=
  present <~ has_key analysis "keywords" ;;
  if present then
    ks <~ getitem analysis "keywords" ;;
    items <~ items_of ks ;;
    for_each items (fun item =>
      keyword_item_m limit recommendations (fst item) (snd item))
  else ret tt.

Definition image_rule_m (limit : Z) (analysis recommendations : value)
  : M unit :=
  images <~ getitem analysis "images" ;;
  n <~ getitem images "missing_alt_count" ;;
  some <~ greater_than n (PyInt 0) ;;
  if some then
    say recommendations "important"
        (images <~ getitem analysis "images" ;;
         shown <~ shown_field limit images "missing_alt_count" ;;
         ret (alt_text_text shown))
  else ret tt.

Definition link_rule_m (analysis recommendations : value) : M unit :=
  links <~ getitem analysis "links" ;;
  n <~ getitem links "internal_count" ;;
  none <~ equals_int n 0 ;;
  (if none then say recommendations "minor" (ret msg_internal_links)
   else ret tt) ;;;
  links <~ getitem analysis "links" ;;
  n <~ getitem links "external_count" ;;
  none <~ equals_int n 0 ;;
  if none then say recommendations "minor" (ret msg_external_links)
  else ret tt.

(** ['...{:.0f}/100)'.format(lighthouse[k])] *)
Definition formatted_field (lighthouse : value) (k : string) : M string :=
  v <~ getitem lighthouse k ;; format_score v.

Definition performance_rule_m (lighthouse recommendations : value) : M unit :=
  p <~ getitem lighthouse "performance" ;;
  poor <~ less_than p (PyInt 90) ;;
  if poor then
    say recommendations "critical"
        (score <~ formatted_field lighthouse "performance" ;;
         ret (msg_improve_performance score))
  else
    p <~ getitem lighthouse "performance" ;;
    fair <~ less_than p (PyInt 95) ;;
    if fair then
      say recommendations "important"
          (score <~ formatted_field lighthouse "performance" ;;
           ret (msg_optimize_performance score))
    else ret tt.

Definition seo_rule_m (lighthouse recommendations : value) : M unit :=
  p <~ getitem lighthouse "seo" ;;
  poor <~ less_than p (PyInt 90) ;;
  if poor then
    say recommendations "important"
        (score <~ formatted_field lighthouse "seo" ;;
         ret (msg_technical_seo score))
  else ret tt.

Definition accessibility_rule_m (lighthouse recommendations : value) : M unit :=
  p <~ getitem lighthouse "accessibility" ;;
  poor <~ less_than p (PyInt 90) ;;
  if poor then
    say recommendations "important"
        (score <~ formatted_field lighthouse "accessibility" ;;
         ret (msg_accessibility score))
  else ret tt.

Definition generate_recommendations_m (limit : Z) (analysis lighthouse : value)
  : M value :=
  critical <~ alloc (OList []) ;;
  important <~ alloc (OList []) ;;
  minor <~ alloc (OList []) ;;
  recommendations <~ alloc (ODict [("critical", critical);
                                   ("important", important);
                                   ("minor", minor)]) ;;
  title_rule_m analysis recommendations ;;;
  meta_rule_m analysis recommendations ;;;
  heading_rule_m analysis recommendations ;;;
  content_rule_m analysis recommendations ;;;
  keyword_rule_m limit analysis recommendations ;;;
  image_rule_m limit analysis recommendations ;;;
  link_rule_m analysis recommendations ;;;
  performance_rule_m lighthouse recommendations ;;;
  seo_rule_m lighthouse recommendations ;;;
  accessibility_rule_m lighthouse recommendations ;;;
  ret recommendations.

(** ** How the heap holds the arguments and the results *)

Section Encodings.
Variable h : list object.

Definition dict_at (v : value) (items : dict value) : Prop :=
  exists r, v = VRef r /\ nth_error h r = Some (ODict items).

Definition list_at (v : value) (items : list value) : Prop :=
  exists r, v = VRef r /\ nth_error h r = Some (OList items).

Definition strings_at (v : value) (l : list string) : Prop :=
  list_at v (map VStr l).

Definition field (items : dict value) (k : string) (v : value) : Prop :=
  dict_get k items = Some v.

Definition link_at (v : value) (l : link) : Prop :=
  exists items,
    dict_at v items
    /\ field items "href" (VStr (href l))
    /\ field items "text" (VStr (link_text l)).

Definition image_at (v : value) (i : image) : Prop :=
  exists items,
    dict_at v items
    /\ field items "src" (VStr (src i))
    /\ field items "alt" (VStr (alt i)).

(** The dictionary of the headings has its three keys and no other. *)
Definition headings_at (v : value) (hd : headings) : Prop :=
  exists v1 v2 v3,
    dict_at v [("h1", v1); ("h2", v2); ("h3", v3)]
    /\ strings_at v1 (h1 hd) /\ strings_at v2 (h2 hd) /\ strings_at v3 (h3 hd).

(** The [content] argument. *)
Definition snapshot_at (v : value) (c : snapshot) : Prop :=
  exists items vh vl vi ls ims,
    dict_at v items
    /\ field items "url" (VStr (page_url c))
    /\ field items "title" (VStr (page_title c))
    /\ field items "meta_description" (VStr (page_meta_description c))
    /\ field items "headings" vh /\ headings_at vh (page_headings c)
    /\ field items "content" (VStr (page_content c))
    /\ field items "links" vl /\ list_at vl ls
    /\ Forall2 link_at ls (page_links c)
    /\ field items "images" vi /\ list_at vi ims
    /\ Forall2 image_at ims (page_images c).

(** The [keywords] argument: [None] or a list of strings. *)
Definition keywords_at (v : value) (keywords : option (list string)) : Prop :=
  match keywords with
  | None => v = VNone
  | Some l => strings_at v l
  end.

Definition title_at (v : value) (t : title_analysis) : Prop :=
  exists items,
    dict_at v items
    /\ field items "length" (VNum (PyInt (title_length t)))
    /\ field items "has_title" (VBool (has_title t))
    /\ field items "optimal_length" (VBool (title_optimal_length t)).

Definition meta_at (v : value) (t : meta_analysis) : Prop :=
  exists items,
    dict_at v items
    /\ field items "length" (VNum (PyInt (meta_length t)))
    /\ field items "has_meta" (VBool (has_meta t))
    /\ field items "optimal_length" (VBool (meta_optimal_length t)).

Definition headings_analysis_at (v : value) (t : headings_analysis) : Prop :=
  exists items,
    dict_at v items
    /\ field items "h1_count" (VNum (PyInt (h1_count t)))
    /\ field items "h2_count" (VNum (PyInt (h2_count t)))
    /\ field items "h3_count" (VNum (PyInt (h3_count t)))
    /\ field items "has_proper_structure" (VBool (has_proper_structure t)).

Definition content_at (v : value) (t : content_analysis) : Prop :=
  exists items,
    dict_at v items
    /\ field items "word_count" (VNum (PyInt (word_count t)))
    /\ field items "has_sufficient_content" (VBool (has_sufficient_content t)).

Definition keyword_data_at (v : value) (t : keyword_data) : Prop :=
  exists items,
    dict_at v items
    /\ field items "count" (VNum (PyInt (count t)))
    /\ field items "density" (VNum (density t))
    /\ field items "in_title" (VBool (in_title t))
    /\ field items "in_meta" (VBool (in_meta t))
    /\ field items "in_headings" (VBool (in_headings t)).

Definition keyword_entry_at (kv : string * value) (e : string * keyword_data)
  : Prop :=
  fst kv = fst e /\ keyword_data_at (snd kv) (snd e).

(** The key ["keywords"] is there exactly when keywords were analysed. *)
Definition keyword_analysis_at (items : dict value)
  (k : option (dict keyword_data)) : Prop :=
  match k with
  | None => dict_get "keywords" items = None
  | Some entries =>
      exists vk kitems,
        field items "keywords" vk
        /\ dict_at vk kitems
        /\ Forall2 keyword_entry_at kitems entries
  end.

Definition links_at (v : value) (t : links_analysis) : Prop :=
  exists items,
    dict_at v items
    /\ field items "internal_count" (VNum (PyInt (internal_count t)))
    /\ field items "external_count" (VNum (PyInt (external_count t)))
    /\ field items "total_count" (VNum (PyInt (links_total_count t))).

Definition images_at (v : value) (t : images_analysis) : Prop :=
  exists items,
    dict_at v items
    /\ field items "total_count" (VNum (PyInt (images_total_count t)))
    /\ field items "missing_alt_count" (VNum (PyInt (missing_alt_count t))).

(** The result of [analyze_content], the [analysis] argument of
    [generate_recommendations]. *)
Definition analysis_at (v : value) (a : analysis) : Prop :=
  exists items vt vm vh vc vl vi,
    dict_at v items
    /\ field items "title" vt /\ title_at vt (a_title a)
    /\ field items "meta_description" vm /\ meta_at vm (a_meta_description a)
    /\ field items "headings" vh /\ headings_analysis_at vh (a_headings a)
    /\ field items "content" vc /\ content_at vc (a_content a)
    /\ keyword_analysis_at items (a_keywords a)
    /\ field items "links" vl /\ links_at vl (a_links a)
    /\ field items "images" vi /\ images_at vi (a_images a).

(** The [lighthouse] argument. *)
Definition audit_at (v : value) (l : audit) : Prop :=
  exists items,
    dict_at v items
    /\ field items "performance" (VNum (performance l))
    /\ field items "seo" (VNum (seo l))
    /\ field items "accessibility" (VNum (accessibility l)).

(** The result of [generate_recommendations]. *)
Definition recommendations_at (v : value) (r : recommendations) : Prop :=
  exists vc vi vm,
    dict_at v [("critical", vc); ("important", vi); ("minor", vm)]
    /\ strings_at vc (critical r)
    /\ strings_at vi (important r)
    /\ strings_at vm (minor r).
End Encodings.

(** The objects a call of [generate_recommendations] creates, when the
    heap had [n] objects: the three lists, then the dictionary. *)
Definition recommendation_objects (n : nat) (r : recommendations)
  : list object :=
  [OList (map VStr (critical r));
   OList (map VStr (important r));
   OList (map VStr (minor r));
   ODict [("critical", VRef n);
          ("important", VRef (n + 1)%nat);
          ("minor", VRef (n + 2)%nat)]].

(** The world after a call created the objects [created]. *)
Definition extended (h : list object) (fs : store) (created : list object)
  : world :=
  {| objects := (h ++ created)%list; files := fs |}.

(** The world while [generate_recommendations] runs. *)
Definition recommendation_world (h : list object) (fs : store)
  (r : recommendations) : world :=
  extended h fs (recommendation_objects (List.length h) r).

(** The entries of the dictionary stored under a keyword. *)
Definition keyword_data_items (d : keyword_data) : dict value :=
  [("count", VNum (PyInt (count d)));
   ("density", VNum (density d));
   ("in_title", VBool (in_title d));
   ("in_meta", VBool (in_meta d));
   ("in_headings", VBool (in_headings d))].

(** The loop over the keywords on the heap: [kitems] is the dictionary
    [keyword_analysis], [ds] are the dictionaries created so far, the
    first of them at the address [n]. *)
Fixpoint keyword_objects (n : nat) (c : snapshot) (kws : list string)
  (kitems : dict value) (ds : list object) : dict value * list object :=
  match kws with
  | [] => (kitems, ds)
  | kw :: rest =>
      keyword_objects n c rest
        (dict_set kw (VRef (n + List.length ds)%nat) kitems)
        (ds ++ [ODict (keyword_data_items (analyze_keyword c kw))])
  end.

(** The entries of the dictionaries of an analysis. *)
Definition title_items (t : title_analysis) : dict value :=
  [("length", VNum (PyInt (title_length t)));
   ("has_title", VBool (has_title t));
   ("optimal_length", VBool (title_optimal_length t))].

Definition meta_items (t : meta_analysis) : dict value :=
  [("length", VNum (PyInt (meta_length t)));
   ("has_meta", VBool (has_meta t));
   ("optimal_length", VBool (meta_optimal_length t))].

Definition headings_items (t : headings_analysis) : dict value :=
  [("h1_count", VNum (PyInt (h1_count t)));
   ("h2_count", VNum (PyInt (h2_count t)));
   ("h3_count", VNum (PyInt (h3_count t)));
   ("has_proper_structure", VBool (has_proper_structure t))].

Definition content_items (t : content_analysis) : dict value :=
  [("word_count", VNum (PyInt (word_count t)));
   ("has_sufficient_content", VBool (has_sufficient_content t))].

Definition links_items (t : links_analysis) : dict value :=
  [("internal_count", VNum (PyInt (internal_count t)));
   ("external_count", VNum (PyInt (external_count t)));
   ("total_count", VNum (PyInt (links_total_count t)))].

Definition images_items (t : images_analysis) : dict value :=
  [("total_count", VNum (PyInt (images_total_count t)));
   ("missing_alt_count", VNum (PyInt (missing_alt_count t)))].

(** The entries of [keyword_analysis] point to the dictionaries of their
    keywords among [ds], the first of which has the address [n]. *)
Definition keyword_entries_in (n : nat) (ds : list object)
  (kitems : dict value) (entries : dict keyword_data) : Prop :=
  Forall2 (fun (kv : string * value) (e : string * keyword_data) =>
             fst kv = fst e
             /\ exists j, snd kv = VRef (n + j)%nat
                          /\ nth_error ds j
                             = Some (ODict (keyword_data_items (snd e))))
          kitems entries.

(** The objects a call of [analyze_content] creates, when the heap had
    [n] objects: the dictionary [analysis], the dictionaries of the title,
    the meta description, the headings and the content, with keywords the
    dictionary [keyword_analysis] and one dictionary for each keyword of
    the list, then the dictionaries of the links and of the images. *)
Definition analysis_objects (n : nat) (c : snapshot)
  (keywords : option (list string)) : list object :=
  let front :=
    [ODict (title_items (analyze_title (page_title c)));
     ODict (meta_items (analyze_meta (page_meta_description c)));
     ODict (headings_items (analyze_headings (page_headings c)));
     ODict (content_items (analyze_text (page_content c)))] in
  let back :=
    [ODict (links_items (analyze_links (page_url c) (page_links c)));
     ODict (images_items (analyze_images (page_images c)))] in
  let entries :=
    [("title", VRef (n + 1)%nat);
     ("meta_description", VRef (n + 2)%nat);
     ("headings", VRef (n + 3)%nat);
     ("content", VRef (n + 4)%nat)] in
  match keywords with
  | Some (k :: ks) =>
      let kd := keyword_objects (n + 6) c (k :: ks) [] [] in
      let m := List.length (snd kd) in
      (ODict (entries ++ [("keywords", VRef (n + 5)%nat);
                          ("links", VRef (n + 6 + m)%nat);
                          ("images", VRef (n + 7 + m)%nat)])
         :: front ++ ODict (fst kd) :: snd kd ++ back)%list
  | _ =>
      (ODict (entries ++ [("links", VRef (n + 5)%nat);
                          ("images", VRef (n + 6)%nat)])
         :: front ++ back)%list
  end.

(** ** Worked worlds *)

(** A heap with the page [mixed_case_page] at the address 2, the keyword
    list [['sEo']] at 3 and an audit with every score at 100 at 4; the
    empty list at 0 serves as every list of the page.  The dictionary at 5
    is the page with [None] as title, the one at 6 a page with the title
    only, and the list at 7 a keyword list that holds a number. *)
Definition example_heap : list object :=
  [OList [];
   ODict [("h1", VRef 0); ("h2", VRef 0); ("h3", VRef 0)];
   ODict [("url", VStr "https://x.com");
          ("title", VStr "");
          ("meta_description", VStr "");
          ("headings", VRef 1);
          ("content", VStr "Seo SEO seo");
          ("links", VRef 0);
          ("images", VRef 0)];
   OList [VStr "sEo"];
   ODict [("performance", VNum (PyInt 100));
          ("seo", VNum (PyInt 100));
          ("accessibility", VNum (PyInt 100));
          ("best_practices", VNum (PyInt 100))];
   ODict [("url", VStr "https://x.com");
          ("title", VNone);
          ("meta_description", VStr "");
          ("headings", VRef 1);
          ("content", VStr "Seo SEO seo");
          ("links", VRef 0);
          ("images", VRef 0)];
   ODict [("title", VStr "")];
   OList [VNum (PyInt 7)]].

Definition example_world : world :=
  {| objects := example_heap; files := no_files |}.

(** A heap with the analysis [crowded n] at the address 0 and an audit
    with every score at 100 at 7. *)
Definition crowded_heap (n : Z) : list object :=
  [ODict [("title", VRef 1);
          ("meta_description", VRef 2);
          ("headings", VRef 3);
          ("content", VRef 4);
          ("links", VRef 5);
          ("images", VRef 6)];
   ODict (title_items (a_title (crowded n)));
   ODict (meta_items (a_meta_description (crowded n)));
   ODict (headings_items (a_headings (crowded n)));
   ODict (content_items (a_content (crowded n)));
   ODict (links_items (a_links (crowded n)));
   ODict (images_items (a_images (crowded n)));
   ODict [("performance", VNum (PyInt 100));
          ("seo", VNum (PyInt 100));
          ("accessibility", VNum (PyInt 100));
          ("best_practices", VNum (PyInt 100))]].

Definition crowded_world (n : Z) : world :=
  {| objects := crowded_heap n; files := no_files |}.

(* ===================================================================== *)
(** * Facts and theorems *)
(* ===================================================================== *)

(** ** Facts about the string primitives *)

Lemma startswith_spec s p : startswith s p = true <-> starts_with p s.
Proof.
  unfold starts_with. revert s.
  induction p as [|a p IH]; intros s; simpl.
  - split; [intros _; exists s; reflexivity | reflexivity].
  - destruct s as [|b s]; simpl.
    + split; [discriminate | intros [rest H]; discriminate].
    + rewrite andb_true_iff, Ascii.eqb_eq, IH.
      split.
      * intros [-> [rest ->]]. exists rest. reflexivity.
      * intros [rest H]. inversion H. split; [reflexivity|]. exists rest. reflexivity.
Qed.

Lemma truthy_spec s : truthy s = true <-> s <> "".
Proof. destruct s; simpl; split; congruence. Qed.

Lemma len_replicate n c : len (replicate n c) = Z.of_nat n.
Proof. unfold len. f_equal. induction n; simpl; congruence. Qed.

Lemma is_internal_spec url l : is_internal url l = true <-> internal_spec url l.
Proof.
  unfold is_internal, internal_spec, startswith_any. cbn [existsb].
  rewrite orb_false_r, orb_true_iff, !startswith_spec. reflexivity.
Qed.

Lemma is_external_spec l : is_external l = true <-> external_spec l.
Proof.
  unfold is_external, external_spec, startswith_any. cbn [existsb].
  rewrite orb_false_r, orb_true_iff, !startswith_spec. reflexivity.
Qed.

Lemma list_len_filter_le {A} (p : A -> bool) l : 0 <= list_len (filter p l) <= list_len l.
Proof.
  unfold list_len. pose proof (filter_length_le p l). lia.
Qed.

(** Claim C1.  On the page at "https://x.com" that has an empty title, an
    empty meta description, no headings, no text, no links and no images,
    analysed without keywords, [analyze_content] reports no title, no meta
    description, no H1 heading, zero words and insufficient content.  With
    every audit score equal to 50, [generate_recommendations] returns on
    that analysis exactly: the four critical messages about the title, the
    meta description, the H1 heading and the performance score; the three
    important messages about thin content, technical SEO and
    accessibility; and the two minor messages about internal and external
    links. *)
Theorem empty_page_example :
  let a := analyze_content empty_page None in
  has_title (a_title a) = false
  /\ has_meta (a_meta_description a) = false
  /\ h1_count (a_headings a) = 0
  /\ word_count (a_content a) = 0
  /\ has_sufficient_content (a_content a) = false
  /\ generate_recommendations a (flat_audit 50)
     = Ok {| critical :=
               ["Add a title tag to your page";
                "Add a meta description to your page";
                "Add an H1 heading to your page";
                "Improve page performance (current score: 50/100)"];
             important :=
               ["Add more content to your page (aim for at least 300 words)";
                "Address technical SEO issues (current score: 50/100)";
                "Improve accessibility (current score: 50/100)"];
             minor :=
               ["Add internal links to improve site navigation";
                "Consider adding relevant external links"] |}.
Proof. vm_compute. repeat split. Qed.

(** Claim C9.  For every page, analysing with the empty keyword list gives
    the same result as analysing without a keyword list: the empty list is
    falsy in [if keywords:], and in both cases the analysis has no
    [keywords] entry. *)
Theorem empty_keyword_list_is_no_keywords (c : snapshot) :
  analyze_content c (Some []) = analyze_content c None
  /\ a_keywords (analyze_content c (Some [])) = None
  /\ a_keywords (analyze_content c None) = None.
Proof. repeat split. Qed.

(** Claim C4.  For every page and keyword argument, the title is reported
    of optimal length exactly when it is non-empty and its length lies
    between 50 and 60 inclusive, and the meta description exactly when it
    is non-empty and its length lies between 150 and 160 inclusive.  At the
    boundaries: titles of 50 and 60 characters are optimal, titles of 49
    and 61 characters and the empty title are not; meta descriptions of 150
    and 160 characters are optimal, those of 149 and 161 characters and the
    empty one are not. *)
Theorem optimal_length_ranges (c : snapshot) (keywords : option (list string)) :
  let a := analyze_content c keywords in
  (title_optimal_length (a_title a) = true
   <-> page_title c <> "" /\ 50 <= len (page_title c) <= 60)
  /\ (meta_optimal_length (a_meta_description a) = true
      <-> page_meta_description c <> "" /\ 150 <= len (page_meta_description c) <= 160)
  /\ title_optimal_length (a_title (analyze_content (with_title (replicate 50 "a") c) keywords)) = true
  /\ title_optimal_length (a_title (analyze_content (with_title (replicate 60 "a") c) keywords)) = true
  /\ title_optimal_length (a_title (analyze_content (with_title (replicate 49 "a") c) keywords)) = false
  /\ title_optimal_length (a_title (analyze_content (with_title (replicate 61 "a") c) keywords)) = false
  /\ title_optimal_length (a_title (analyze_content (with_title "" c) keywords)) = false
  /\ meta_optimal_length (a_meta_description (analyze_content (with_meta (replicate 150 "a") c) keywords)) = true
  /\ meta_optimal_length (a_meta_description (analyze_content (with_meta (replicate 160 "a") c) keywords)) = true
  /\ meta_optimal_length (a_meta_description (analyze_content (with_meta (replicate 149 "a") c) keywords)) = false
  /\ meta_optimal_length (a_meta_description (analyze_content (with_meta (replicate 161 "a") c) keywords)) = false
  /\ meta_optimal_length (a_meta_description (analyze_content (with_meta "" c) keywords)) = false.
Proof.
  cbv zeta. split; [|split].
  - simpl. destruct (truthy (page_title c)) eqn:E.
    + apply truthy_spec in E. rewrite andb_true_iff, Z.leb_le, Z.leb_le. tauto.
    + split; [discriminate|]. intros [H _]. apply truthy_spec in H. congruence.
  - simpl. destruct (truthy (page_meta_description c)) eqn:E.
    + apply truthy_spec in E. rewrite andb_true_iff, Z.leb_le, Z.leb_le. tauto.
    + split; [discriminate|]. intros [H _]. apply truthy_spec in H. congruence.
  - repeat split; vm_compute; reflexivity.
Qed.

(** Claim C10.  For every page and keyword argument, the analysis counts
    satisfy: the internal and the external link counts lie between 0 and
    the total link count, which is the length of the page's list of links;
    the count of images without alt text lies between 0 and the total
    image count, which is the length of the page's list of images; all six
    counts are non-negative. *)
Theorem count_invariants (c : snapshot) (keywords : option (list string)) :
  let a := analyze_content c keywords in
  0 <= internal_count (a_links a) <= links_total_count (a_links a)
  /\ 0 <= external_count (a_links a) <= links_total_count (a_links a)
  /\ links_total_count (a_links a) = Z.of_nat (List.length (page_links c))
  /\ 0 <= missing_alt_count (a_images a) <= images_total_count (a_images a)
  /\ images_total_count (a_images a) = Z.of_nat (List.length (page_images c))
  /\ 0 <= links_total_count (a_links a)
  /\ 0 <= images_total_count (a_images a).
Proof.
  cbv zeta. simpl.
  pose proof (list_len_filter_le (is_internal (page_url c)) (page_links c)).
  pose proof (list_len_filter_le is_external (page_links c)).
  pose proof (list_len_filter_le (fun img => negb (truthy (alt img))) (page_images c)).
  unfold list_len in *. repeat split; lia.
Qed.

Lemma starts_with_trans p q s : starts_with p q -> starts_with q s -> starts_with p s.
Proof.
  intros [r1 ->] [r2 ->]. exists (r1 ++ r2).
  induction p; simpl; congruence.
Qed.

(** Claim C3.  For every page, the internal count is the number of links
    that satisfy [is_internal] and the external count the number of links
    that satisfy [is_external]; a link is internal exactly when its href
    starts with "/" or with the page's url, and external exactly when its
    href starts with "http" or "https".  A link whose href starts with the
    page's url, where that url starts with "http", satisfies both
    predicates.  On the worked pages, a "mailto:" link is counted by
    neither predicate and the link "https://x.com/about" of the page
    "https://x.com" is counted once as internal and once as external. *)
Theorem link_classification (c : snapshot) (keywords : option (list string)) :
  let a := analyze_content c keywords in
  internal_count (a_links a) = count_if (is_internal (page_url c)) (page_links c)
  /\ external_count (a_links a) = count_if is_external (page_links c)
  /\ (forall l, is_internal (page_url c) l = true <-> internal_spec (page_url c) l)
  /\ (forall l, is_external l = true <-> external_spec l)
  /\ (forall l, starts_with (page_url c) (href l) ->
                starts_with "http" (page_url c) ->
                is_internal (page_url c) l = true /\ is_external l = true)
  /\ a_links (analyze_content (with_links [mail_link] empty_page) keywords)
     = {| internal_count := 0; external_count := 0; links_total_count := 1 |}
  /\ a_links (analyze_content (with_links [about_link] empty_page) keywords)
     = {| internal_count := 1; external_count := 1; links_total_count := 1 |}.
Proof.
  cbv zeta. split; [reflexivity|]. split; [reflexivity|].
  split; [intros l; apply is_internal_spec|].
  split; [intros l; apply is_external_spec|].
  split; [|split; reflexivity].
  intros l Hurl Hhttp. split.
  - apply is_internal_spec. right. exact Hurl.
  - apply is_external_spec. left. exact (starts_with_trans _ _ _ Hhttp Hurl).
Qed.

(** ** The regular expression finds the maximal runs *)

Lemma match_word_none s : match_word s = None -> starts_nonword s.
Proof.
  induction s as [|c s IH]; simpl; [trivial|].
  destruct (is_word c) eqn:Hc; [|trivial].
  destruct (match_word s) as [[t r]|]; [discriminate|].
  specialize (IH eq_refl).
  unfold at_boundary. simpl. rewrite Hc.
  destruct s as [|d s]; simpl in *; [discriminate|].
  rewrite IH. discriminate.
Qed.

Lemma match_word_some s tok rest :
  match_word s = Some (tok, rest) ->
  s = tok ++ rest /\ all_word tok /\ tok <> "" /\ starts_nonword rest
  /\ word_before (last_char None tok) = true.
Proof.
  revert tok rest. induction s as [|c s IH]; simpl; intros tok rest H; [discriminate|].
  destruct (is_word c) eqn:Hc; [|discriminate].
  destruct (match_word s) as [[t r]|] eqn:E.
  - inversion H; subst. destruct (IH _ _ eq_refl) as (-> & Hall & Hne & Hrest & Hlast).
    repeat split; auto; try discriminate.
    simpl. destruct t; [congruence|]. exact Hlast.
  - apply match_word_none in E.
    destruct (at_boundary (Some c) s); [|discriminate].
    inversion H; subst. simpl. repeat split; auto; discriminate.
Qed.

Lemma last_char_nonempty prev tok :
  tok <> "" -> last_char prev tok = last_char None tok.
Proof. destruct tok; [congruence|reflexivity]. Qed.

Lemma append_assoc (a b c : string) : (a ++ b) ++ c = a ++ (b ++ c).
Proof. induction a; simpl; congruence. Qed.

Lemma word_runs_acc_run cur tok rest :
  all_word tok -> word_runs_acc cur (tok ++ rest) = word_runs_acc (cur ++ tok) rest.
Proof.
  revert cur. induction tok as [|c tok IH]; simpl; intros cur H.
  - f_equal. induction cur; simpl; congruence.
  - destruct H as [Hc H]. rewrite Hc, IH by assumption.
    f_equal. rewrite append_assoc. reflexivity.
Qed.

Lemma word_runs_acc_gap cur rest :
  starts_nonword rest -> word_runs_acc cur rest = (flush cur ++ word_runs_acc "" rest)%list.
Proof.
  destruct rest as [|c r]; simpl; intros H.
  - now rewrite app_nil_r.
  - rewrite H. reflexivity.
Qed.

Lemma findall_from_runs prev s :
  word_before prev = false \/ starts_nonword s ->
  findall_from prev s = word_runs s.
Proof.
  unfold word_runs.
  funelim (findall_from prev s); intros Hpre.
  - reflexivity.
  - clear Heqcall.
    destruct (at_boundary prev (String c s')) eqn:Hb; [|discriminate].
    destruct (match_word_some _ _ _ Heq) as (Hs & Hall & Hne & Hrest & Hlast).
    rewrite H by (right; exact Hrest).
    rewrite Hs, word_runs_acc_run by assumption. simpl.
    rewrite (word_runs_acc_gap tok rest) by assumption.
    destruct tok; [congruence|reflexivity].
  - clear Heqcall. simpl.
    destruct (is_word c) eqn:Hc.
    + exfalso. destruct Hpre as [Hp|Hn]; [|simpl in Hn; congruence].
      pose proof e as e'. clear - e' Hc Hp. rename e' into e.
      unfold at_boundary in e. rewrite Hc in e.
      replace (match prev with Some c0 => is_word c0 | None => false end)
        with false in e by (destruct prev; simpl in Hp; auto).
      pose proof (match_word_none (String c s') e) as Hn. simpl in Hn. congruence.
    + apply H. left. exact Hc.
Qed.

(** ** Facts about dictionaries *)

Lemma dict_get_set_same {V} k (v : V) d : dict_get k (dict_set k v d) = Some v.
Proof.
  induction d as [|[k' v'] d IH]; simpl.
  - now rewrite String.eqb_refl.
  - destruct (String.eqb k' k) eqn:E; simpl; rewrite E; auto.
Qed.

Lemma dict_get_set_other {V} k k' (v : V) d :
  k' <> k -> dict_get k (dict_set k' v d) = dict_get k d.
Proof.
  intros Hne. induction d as [|[k0 v0] d IH]; simpl.
  - destruct (String.eqb k' k) eqn:E; [apply String.eqb_eq in E; congruence|reflexivity].
  - destruct (String.eqb k0 k') eqn:E; simpl.
    + apply String.eqb_eq in E; subst k0.
      destruct (String.eqb k' k) eqn:E'; [apply String.eqb_eq in E'; congruence|reflexivity].
    + destruct (String.eqb k0 k); auto.
Qed.

(** Every entry of the keyword dictionary is the analysis of its key. *)
Lemma analyze_keywords_entry c keywords d0 kw data :
  dict_get kw (fold_left (fun d keyword => dict_set keyword (analyze_keyword c keyword) d)
                         keywords d0) = Some data ->
  data = analyze_keyword c kw \/ dict_get kw d0 = Some data.
Proof.
  revert d0. induction keywords as [|k ks IH]; simpl; intros d0 H; [auto|].
  apply IH in H. destruct H as [H|H]; [auto|].
  destruct (string_dec k kw) as [->|Hne].
  - rewrite dict_get_set_same in H. left. congruence.
  - rewrite dict_get_set_other in H by assumption. auto.
Qed.

(** Every supplied keyword has an entry. *)
Lemma analyze_keywords_present c keywords d0 kw :
  In kw keywords \/ dict_get kw d0 = Some (analyze_keyword c kw) ->
  dict_get kw (fold_left (fun d keyword => dict_set keyword (analyze_keyword c keyword) d)
                         keywords d0) = Some (analyze_keyword c kw).
Proof.
  revert d0. induction keywords as [|k ks IH]; simpl; intros d0 H.
  - destruct H as [[]|H]; exact H.
  - apply IH. destruct H as [[->|H]|H]; auto.
    + right. apply dict_get_set_same.
    + destruct (string_dec k kw) as [->|Hne].
      * right. apply dict_get_set_same.
      * right. rewrite dict_get_set_other by assumption. exact H.
Qed.

Lemma analyze_content_keywords c keywords items :
  a_keywords (analyze_content c keywords) = Some items ->
  exists kws, keywords = Some kws /\ kws <> [] /\ items = analyze_keywords c kws.
Proof.
  simpl. destruct keywords as [[|k ks]|]; try discriminate.
  intros H. inversion H. exists (k :: ks). repeat split. discriminate.
Qed.


(** ** [str.count] counts a largest set of occurrences *)

Lemma drop_drop a b s : drop a (drop b s) = drop (b + a) s.
Proof.
  revert s. induction b as [|b IH]; intros s; simpl; [reflexivity|].
  destruct s as [|c s]; [destruct a; reflexivity|apply IH].
Qed.

Lemma startswith_length s sub :
  startswith s sub = true -> (String.length sub <= String.length s)%nat.
Proof.
  revert s. induction sub as [|a sub IH]; intros s; simpl; [lia|].
  destruct s as [|b s]; [discriminate|]. rewrite andb_true_iff. intros [_ H].
  apply IH in H. simpl. lia.
Qed.

Lemma spaced_map_add w k ps : spaced w ps -> spaced w (map (fun q => (q + k)%nat) ps).
Proof.
  induction ps as [|p ps IH]; simpl; [trivial|]. intros [Hp Hs]. split; [|auto].
  intros q Hq. apply in_map_iff in Hq. destruct Hq as (q' & <- & Hq').
  specialize (Hp q' Hq'). lia.
Qed.

Lemma spaced_map_sub w k ps :
  (forall q, In q ps -> (k <= q)%nat) ->
  spaced w ps -> spaced w (map (fun q => (q - k)%nat) ps).
Proof.
  induction ps as [|p ps IH]; simpl; [trivial|]. intros Hk [Hp Hs]. split.
  - intros q Hq. apply in_map_iff in Hq. destruct Hq as (q' & <- & Hq').
    specialize (Hp q' Hq'). pose proof (Hk p (or_introl eq_refl)). lia.
  - apply IH; auto.
Qed.

Lemma occurs_at_shift s sub k q :
  (k <= String.length s)%nat ->
  occurs_at (drop k s) sub q <-> occurs_at s sub (q + k).
Proof.
  intros Hk. unfold occurs_at. rewrite drop_drop, drop_length.
  replace (k + q)%nat with (q + k)%nat by lia.
  split; intros [H1 H2]; (split; [lia|exact H2]).
Qed.

Lemma spaced_cons w p ps :
  spaced w (p :: ps) <-> (forall q, In q ps -> (p + w <= q)%nat) /\ spaced w ps.
Proof. reflexivity. Qed.

(** The scan of [str.count] finds a largest set of occurrences. *)
Lemma count_nonempty_max s sub :
  sub <> "" -> max_occurrences s sub (count_nonempty s sub).
Proof.
  intros Hsub.
  assert (Hw : Nat.max 1 (String.length sub) = String.length sub).
  { destruct sub; [congruence|simpl; lia]. }
  unfold max_occurrences, occurrences. rewrite Hw. clear Hw.
  funelim (count_nonempty s sub).
  - split.
    + exists []. split; [split; [constructor|exact I]|reflexivity].
    + intros [|p ps] [Hocc _]; [simpl; lia|]. exfalso.
      inversion Hocc as [|? ? [_ H] _]; subst.
      destruct p, sub; simpl in H; congruence.
  - clear Heqcall. rename e into Hstart.
    specialize (H Hsub).
    assert (Hlen := startswith_length _ _ Hstart).
    assert (Hdrop : drop (String.length sub - 1) s' = drop (String.length sub) (String c s')).
    { destruct sub; [congruence|]. simpl. now rewrite Nat.sub_0_r. }
    rewrite Hdrop in *. destruct H as [(ps & [Hocc Hsp] & Hn) Hmax].
    split.
    + exists (0%nat :: map (fun q => (q + String.length sub)%nat) ps). split; [split|].
      * constructor.
        -- split; [lia|exact Hstart].
        -- apply Forall_map. eapply Forall_impl; [|exact Hocc].
           intros q Hq. apply occurs_at_shift; assumption.
      * apply spaced_cons. split.
        -- intros q Hq. apply in_map_iff in Hq. destruct Hq as (q' & <- & _). lia.
        -- apply spaced_map_add. exact Hsp.
      * cbn [List.length]. rewrite length_map. lia.
    + intros [|p ps'] [Hocc' Hsp'].
      { cbn [List.length]. lia. }
      apply spaced_cons in Hsp'. destruct Hsp' as [Hp Hsp'].
      inversion Hocc' as [|? ? _ Hrest]; subst.
      assert (Hge : forall q, In q ps' -> (String.length sub <= q)%nat).
      { intros q Hq. specialize (Hp q Hq). lia. }
      specialize (Hmax (map (fun q => (q - String.length sub)%nat) ps')).
      rewrite length_map in Hmax. cbn [List.length].
      assert (Z.of_nat (List.length ps')
              <= count_nonempty (drop (String.length sub) (String c s')) sub); [|lia].
      apply Hmax. split.
      * apply Forall_map. rewrite Forall_forall in *. intros q Hq.
        apply occurs_at_shift; [assumption|].
        replace (q - String.length sub + String.length sub)%nat with q
          by (specialize (Hge q Hq); lia).
        apply Hrest. exact Hq.
      * apply spaced_map_sub; assumption.
  - clear Heqcall. rename e into Hstart.
    specialize (H Hsub). destruct H as [(ps & [Hocc Hsp] & Hn) Hmax].
    split.
    + exists (map (fun q => (q + 1)%nat) ps). split; [split|].
      * apply Forall_map. eapply Forall_impl; [|exact Hocc].
        intros q Hq. apply (occurs_at_shift (String c s') sub 1 q); [simpl; lia|exact Hq].
      * apply spaced_map_add. exact Hsp.
      * rewrite length_map. exact Hn.
    + intros ps' [Hocc' Hsp'].
      assert (Hge : forall q, In q ps' -> (1 <= q)%nat).
      { intros q Hq. rewrite Forall_forall in Hocc'. destruct (Hocc' q Hq) as [_ Hq'].
        destruct q; [simpl in Hq'; congruence|lia]. }
      specialize (Hmax (map (fun q => (q - 1)%nat) ps')).
      rewrite length_map in Hmax. apply Hmax. split.
      * apply Forall_map. rewrite Forall_forall in *. intros q Hq.
        apply (occurs_at_shift (String c s') sub 1); [simpl; lia|].
        replace (q - 1 + 1)%nat with q by (specialize (Hge q Hq); lia).
        apply Hocc'. exact Hq.
      * apply spaced_map_sub; assumption.
Qed.

Lemma spaced_seq a n : spaced 1 (seq a n).
Proof.
  revert a. induction n as [|n IH]; intros a; simpl; [exact I|]. split; [|apply IH].
  intros q Hq. apply in_seq in Hq. lia.
Qed.

Lemma spaced_bounded a L ps :
  spaced 1 ps -> (forall q, In q ps -> (a <= q <= L)%nat) ->
  (List.length ps <= L + 1 - a)%nat.
Proof.
  revert a. induction ps as [|p ps IH]; intros a Hsp Hb; simpl; [lia|].
  destruct Hsp as [Hp Hsp].
  assert (Hpa := Hb p (or_introl eq_refl)).
  assert (H := IH (p + 1)%nat Hsp).
  assert (List.length ps <= L + 1 - (p + 1))%nat; [|lia].
  apply H. intros q Hq. split; [apply Hp; exact Hq|].
  apply (Hb q). right. exact Hq.
Qed.

(** [str.count] returns the largest number of non-overlapping
    occurrences. *)
Lemma str_count_max s sub : max_occurrences s sub (str_count s sub).
Proof.
  destruct sub as [|a sub]; [|apply count_nonempty_max; discriminate].
  unfold str_count, max_occurrences, occurrences, len. simpl Nat.max. split.
  - exists (seq 0 (String.length s + 1)). split; [split|].
    + apply Forall_forall. intros q Hq. apply in_seq in Hq. split; [lia|reflexivity].
    + apply spaced_seq.
    + rewrite length_seq. lia.
  - intros ps [Hocc Hsp].
    pose proof (spaced_bounded 0 (String.length s) ps Hsp) as H.
    assert (List.length ps <= String.length s + 1 - 0)%nat; [|lia].
    apply H. intros q Hq. rewrite Forall_forall in Hocc.
    destruct (Hocc q Hq) as [Hq' _]. lia.
Qed.

(** ** The generator computes the rule table *)

Lemma combine_assoc r d e : combine (combine r d) e = combine r (combine d e).
Proof. unfold combine; simpl. now rewrite !app_assoc. Qed.

Lemma combine_nil_r r : combine r no_recommendations = r.
Proof. destruct r; unfold combine; simpl. now rewrite !app_nil_r. Qed.

Lemma combine_nil_l r : combine no_recommendations r = r.
Proof. destruct r; reflexivity. Qed.

Lemma fold_combine ds r :
  fold_left combine ds r = combine r (combine_all ds).
Proof.
  unfold combine_all. revert r.
  induction ds as [|d ds IH]; simpl; intros r.
  - now rewrite combine_nil_r.
  - rewrite IH, (IH (combine _ d)), combine_nil_l, combine_assoc. reflexivity.
Qed.

Lemma combine_all_cons d ds : combine_all (d :: ds) = combine d (combine_all ds).
Proof.
  unfold combine_all at 1. simpl. rewrite fold_combine, combine_nil_l. reflexivity.
Qed.

Lemma combine_all_app ds es :
  combine_all (ds ++ es) = combine (combine_all ds) (combine_all es).
Proof.
  induction ds as [|d ds IH]; simpl.
  - now rewrite combine_nil_l.
  - now rewrite !combine_all_cons, IH, combine_assoc.
Qed.

Ltac bool_atom b :=
  lazymatch b with
  | negb ?x => bool_atom x
  | ?x && _ => bool_atom x
  | ?x || _ => bool_atom x
  | _ => destruct b eqn:?
  end.

Ltac rule_cases :=
  repeat (match goal with
          | |- context [if ?b then _ else _] => bool_atom b
          end; simpl).

Ltac solve_delta r :=
  destruct r; unfold combine, append_critical, append_important, append_minor, when;
  simpl; rule_cases; simpl; rewrite <- ?app_assoc, ?app_nil_r; simpl;
  try reflexivity; try discriminate.

Lemma title_rule_delta a r : title_rule a r = combine r (title_delta a).
Proof. unfold title_rule, title_delta. solve_delta r. Qed.

Lemma meta_rule_delta a r : meta_rule a r = combine r (meta_delta a).
Proof. unfold meta_rule, meta_delta. solve_delta r. Qed.

Lemma heading_rule_delta a r : heading_rule a r = combine r (heading_delta a).
Proof. unfold heading_rule, heading_delta. solve_delta r. Qed.

Lemma content_rule_delta a r : content_rule a r = combine r (content_delta a).
Proof. unfold content_rule, content_delta. solve_delta r. Qed.

Lemma image_rule_delta a r : image_rule a r = combine r (image_delta a).
Proof. unfold image_rule, image_delta. solve_delta r. Qed.

Lemma link_rule_delta a r : link_rule a r = combine r (link_delta a).
Proof. unfold link_rule, link_delta. solve_delta r. Qed.

Lemma keyword_item_delta kw data r :
  keyword_item kw data r = combine r (keyword_delta (kw, data)).
Proof.
  unfold keyword_item, keyword_delta, over_used, under_used, absent_everywhere.
  solve_delta r.
Qed.

Lemma keyword_rule_delta a r :
  keyword_rule a r = combine r (combine_all (map keyword_delta (keyword_items a))).
Proof.
  unfold keyword_rule, keyword_items.
  destruct (a_keywords a) as [items|]; [|now rewrite combine_nil_r].
  rewrite <- fold_combine. revert r.
  induction items as [|[kw data] items IH]; simpl; intros r; [reflexivity|].
  rewrite keyword_item_delta. apply IH.
Qed.

(** Formatting a score between 0 and 100 does not raise. *)
Lemma format_0f_small_int z :
  0 <= z <= 100 -> format_0f (PyInt z) = Ok (str_of_int z).
Proof.
  intros Hz.
  assert (Hall : forallb (fun n => match format_0f (PyInt (Z.of_nat n)) with
                                   | Ok s => String.eqb s (str_of_int (Z.of_nat n))
                                   | Raise _ => false
                                   end) (seq 0 101) = true) by (vm_compute; reflexivity).
  rewrite forallb_forall in Hall.
  specialize (Hall (Z.to_nat z)).
  rewrite Z2Nat.id in Hall by lia.
  assert (Hin : In (Z.to_nat z) (seq 0 101)) by (apply in_seq; lia).
  specialize (Hall Hin).
  destruct (format_0f (PyInt z)) as [s|e]; [|discriminate].
  apply String.eqb_eq in Hall. now subst.
Qed.

Lemma format_0f_in_range x :
  score_in_range x = true -> format_0f x = Ok (score_text x).
Proof.
  destruct x as [z|f]; [|reflexivity].
  intros H. unfold score_in_range, num_le in H. cbn [num_compare] in H.
  apply andb_true_iff in H. destruct H as [H0 H100].
  assert (Hz : 0 <= z <= 100).
  { split.
    - destruct (Z.compare_spec 0 z); try discriminate; lia.
    - destruct (Z.compare_spec z 100); try discriminate; lia. }
  unfold score_text. rewrite format_0f_small_int by exact Hz. reflexivity.
Qed.

Lemma format_0f_ok x s : format_0f x = Ok s -> s = score_text x.
Proof. unfold score_text. intros ->. reflexivity. Qed.

Ltac solve_exc_delta r :=
  destruct r; unfold combine, append_critical, append_important, append_minor, when, bind;
  simpl; rule_cases; simpl; rewrite <- ?app_assoc, ?app_nil_r; simpl.

Lemma performance_rule_delta l r r' :
  performance_rule l r = Ok r' -> r' = combine r (performance_delta l).
Proof.
  unfold performance_rule, performance_delta, bind.
  destruct (format_0f (performance l)) as [s|e] eqn:E.
  - apply format_0f_ok in E. subst s.
    destruct (num_lt (performance l) (PyInt 90));
      [|destruct (num_lt (performance l) (PyInt 95))];
      intros H; injection H as <-; destruct r; unfold combine, append_critical, append_important, when;
      simpl; rewrite ?app_nil_r; reflexivity.
  - destruct (num_lt (performance l) (PyInt 90)); [discriminate|].
    destruct (num_lt (performance l) (PyInt 95)); [discriminate|].
    intros H; injection H as <-; destruct r; unfold combine, when; simpl;
      rewrite ?app_nil_r; reflexivity.
Qed.

Lemma performance_rule_total l r :
  score_in_range (performance l) = true ->
  performance_rule l r = Ok (combine r (performance_delta l)).
Proof.
  intros H. apply format_0f_in_range in H.
  unfold performance_rule, performance_delta, bind. rewrite H.
  destruct (num_lt (performance l) (PyInt 90));
    [|destruct (num_lt (performance l) (PyInt 95))];
    destruct r; unfold combine, append_critical, append_important, when;
    simpl; rewrite ?app_nil_r; reflexivity.
Qed.

Lemma seo_rule_delta l r r' :
  seo_rule l r = Ok r' -> r' = combine r (seo_delta l).
Proof.
  unfold seo_rule, seo_delta, bind.
  destruct (format_0f (seo l)) as [s|e] eqn:E.
  - apply format_0f_ok in E. subst s.
    destruct (num_lt (seo l) (PyInt 90));
      intros H; injection H as <-; destruct r; unfold combine, append_important, when;
      simpl; rewrite ?app_nil_r; reflexivity.
  - destruct (num_lt (seo l) (PyInt 90)); [discriminate|].
    intros H; injection H as <-; destruct r; unfold combine, when; simpl;
      rewrite ?app_nil_r; reflexivity.
Qed.

Lemma seo_rule_total l r :
  score_in_range (seo l) = true -> seo_rule l r = Ok (combine r (seo_delta l)).
Proof.
  intros H. apply format_0f_in_range in H.
  unfold seo_rule, seo_delta, bind. rewrite H.
  destruct (num_lt (seo l) (PyInt 90));
    destruct r; unfold combine, append_important, when;
    simpl; rewrite ?app_nil_r; reflexivity.
Qed.

Lemma accessibility_rule_delta l r r' :
  accessibility_rule l r = Ok r' -> r' = combine r (accessibility_delta l).
Proof.
  unfold accessibility_rule, accessibility_delta, bind.
  destruct (format_0f (accessibility l)) as [s|e] eqn:E.
  - apply format_0f_ok in E. subst s.
    destruct (num_lt (accessibility l) (PyInt 90));
      intros H; injection H as <-; destruct r; unfold combine, append_important, when;
      simpl; rewrite ?app_nil_r; reflexivity.
  - destruct (num_lt (accessibility l) (PyInt 90)); [discriminate|].
    intros H; injection H as <-; destruct r; unfold combine, when; simpl;
      rewrite ?app_nil_r; reflexivity.
Qed.

Lemma accessibility_rule_total l r :
  score_in_range (accessibility l) = true ->
  accessibility_rule l r = Ok (combine r (accessibility_delta l)).
Proof.
  intros H. apply format_0f_in_range in H.
  unfold accessibility_rule, accessibility_delta, bind. rewrite H.
  destruct (num_lt (accessibility l) (PyInt 90));
    destruct r; unfold combine, append_important, when;
    simpl; rewrite ?app_nil_r; reflexivity.
Qed.

Lemma combine_all_nil : combine_all [] = no_recommendations.
Proof. reflexivity. Qed.

Ltac normalize_combine :=
  rewrite ?combine_all_app, ?combine_all_cons, ?combine_all_nil,
    ?combine_nil_l, ?combine_nil_r, ?combine_assoc.

Lemma pure_rules_table a :
  link_rule a (image_rule a (keyword_rule a (content_rule a
    (heading_rule a (meta_rule a (title_rule a no_recommendations))))))
  = combine_all ([title_delta a; meta_delta a; heading_delta a; content_delta a]
                 ++ map keyword_delta (keyword_items a)
                 ++ [image_delta a; link_delta a]).
Proof.
  rewrite link_rule_delta, image_rule_delta, keyword_rule_delta, content_rule_delta,
    heading_rule_delta, meta_rule_delta, title_rule_delta.
  normalize_combine. reflexivity.
Qed.

(** Whenever the generator returns, it returns the rule table. *)
Lemma generate_recommendations_table a l r :
  generate_recommendations a l = Ok r -> r = combine_all (rule_table a l).
Proof.
  unfold generate_recommendations. rewrite pure_rules_table.
  unfold bind.
  destruct (performance_rule l _) as [r1|] eqn:E1; [|discriminate].
  destruct (seo_rule l r1) as [r2|] eqn:E2; [|discriminate].
  intros E3.
  apply performance_rule_delta in E1. apply seo_rule_delta in E2.
  apply accessibility_rule_delta in E3. subst.
  unfold rule_table.
  normalize_combine. reflexivity.
Qed.

(** On audit scores between 0 and 100 the generator returns. *)
Lemma generate_recommendations_total a l :
  audit_in_range l = true ->
  generate_recommendations a l = Ok (combine_all (rule_table a l)).
Proof.
  unfold audit_in_range. rewrite !andb_true_iff. intros [[[Hp Hs] Ha] _].
  unfold generate_recommendations. rewrite pure_rules_table.
  unfold bind.
  rewrite performance_rule_total, seo_rule_total, accessibility_rule_total by assumption.
  f_equal. unfold rule_table.
  normalize_combine. reflexivity.
Qed.

(** The formatting of a score raises nothing but [OverflowError], and so
    does the generator. *)
Lemma format_0f_cases x :
  (exists s, format_0f x = Ok s) \/ format_0f x = Raise OverflowError.
Proof.
  destruct x as [z|f]; simpl; [|eauto].
  destruct (float_of_int z); eauto.
Qed.

Lemma generate_recommendations_raise_kind a l e :
  generate_recommendations a l = Raise e -> e = OverflowError.
Proof.
  unfold generate_recommendations. rewrite pure_rules_table.
  set (r0 := combine_all _). clearbody r0.
  unfold performance_rule, seo_rule, accessibility_rule, bind.
  destruct (format_0f_cases (performance l)) as [[s1 E1]|E1]; rewrite E1;
    destruct (format_0f_cases (seo l)) as [[s2 E2]|E2]; rewrite E2;
    destruct (format_0f_cases (accessibility l)) as [[s3 E3]|E3]; rewrite E3;
    destruct (num_lt (performance l) (PyInt 90));
    destruct (num_lt (performance l) (PyInt 95));
    destruct (num_lt (seo l) (PyInt 90));
    destruct (num_lt (accessibility l) (PyInt 90));
    intros H; try discriminate; now inversion H.
Qed.

(** ** Counting the messages of the rule table *)

Lemma count_msgs_app p l1 l2 :
  count_msgs p (l1 ++ l2) = (count_msgs p l1 + count_msgs p l2)%nat.
Proof. unfold count_msgs. now rewrite filter_app, length_app. Qed.

Lemma count_all_combine p r d :
  count_all p (combine r d) = (count_all p r + count_all p d)%nat.
Proof. unfold count_all, combine; simpl. rewrite !count_msgs_app. lia. Qed.

Lemma count_critical_combine p r d :
  count_msgs p (critical (combine r d))
  = (count_msgs p (critical r) + count_msgs p (critical d))%nat.
Proof. apply count_msgs_app. Qed.

Lemma count_important_combine p r d :
  count_msgs p (important (combine r d))
  = (count_msgs p (important r) + count_msgs p (important d))%nat.
Proof. apply count_msgs_app. Qed.

Lemma count_minor_combine p r d :
  count_msgs p (minor (combine r d))
  = (count_msgs p (minor r) + count_msgs p (minor d))%nat.
Proof. apply count_msgs_app. Qed.

(** A bucket of the combined table holds what its rows hold. *)
Lemma count_bucket_combine_all (bucket : recommendations -> list string) p ds :
  (forall r d, count_msgs p (bucket (combine r d))
               = (count_msgs p (bucket r) + count_msgs p (bucket d))%nat) ->
  count_msgs p (bucket no_recommendations) = 0%nat ->
  count_msgs p (bucket (combine_all ds))
  = list_sum (map (fun d => count_msgs p (bucket d)) ds).
Proof.
  intros Hc Hn. induction ds as [|d ds IH]; simpl; [exact Hn|].
  rewrite combine_all_cons, Hc, IH. reflexivity.
Qed.

Lemma list_sum_zero {A} (f : A -> nat) l :
  (forall x, f x = 0%nat) -> list_sum (map f l) = 0%nat.
Proof. intros H. induction l; simpl; [reflexivity|]. rewrite H, IHl. reflexivity. Qed.

Lemma list_sum_indicator {A} (f : A -> nat) (g : A -> bool) l :
  (forall x, f x = if g x then 1%nat else 0%nat) ->
  list_sum (map f l) = List.length (filter g l).
Proof.
  intros H. induction l as [|x l IH]; simpl; [reflexivity|].
  rewrite H, IH. destruct (g x); reflexivity.
Qed.

Lemma list_sum_app l1 l2 : list_sum (l1 ++ l2) = (list_sum l1 + list_sum l2)%nat.
Proof. induction l1; simpl; lia. Qed.

(** The messages of one bucket of the table, rule by rule. *)
Lemma count_bucket_table (bucket : recommendations -> list string) p a l :
  (forall r d, count_msgs p (bucket (combine r d))
               = (count_msgs p (bucket r) + count_msgs p (bucket d))%nat) ->
  count_msgs p (bucket no_recommendations) = 0%nat ->
  count_msgs p (bucket (combine_all (rule_table a l)))
  = (count_msgs p (bucket (title_delta a))
     + count_msgs p (bucket (meta_delta a))
     + count_msgs p (bucket (heading_delta a))
     + count_msgs p (bucket (content_delta a))
     + list_sum (map (fun item => count_msgs p (bucket (keyword_delta item)))
                     (keyword_items a))
     + count_msgs p (bucket (image_delta a))
     + count_msgs p (bucket (link_delta a))
     + count_msgs p (bucket (performance_delta l))
     + count_msgs p (bucket (seo_delta l))
     + count_msgs p (bucket (accessibility_delta l)))%nat.
Proof.
  intros Hc Hn. rewrite count_bucket_combine_all by assumption.
  unfold rule_table. rewrite !map_app, !list_sum_app, map_map. simpl. lia.
Qed.

Lemma count_critical_table p a l :
  count_msgs p (critical (combine_all (rule_table a l)))
  = (count_msgs p (critical (title_delta a))
     + count_msgs p (critical (meta_delta a))
     + count_msgs p (critical (heading_delta a))
     + count_msgs p (critical (content_delta a))
     + list_sum (map (fun item => count_msgs p (critical (keyword_delta item)))
                     (keyword_items a))
     + count_msgs p (critical (image_delta a))
     + count_msgs p (critical (link_delta a))
     + count_msgs p (critical (performance_delta l))
     + count_msgs p (critical (seo_delta l))
     + count_msgs p (critical (accessibility_delta l)))%nat.
Proof. apply (count_bucket_table critical); [apply count_critical_combine|reflexivity]. Qed.

Lemma count_important_table p a l :
  count_msgs p (important (combine_all (rule_table a l)))
  = (count_msgs p (important (title_delta a))
     + count_msgs p (important (meta_delta a))
     + count_msgs p (important (heading_delta a))
     + count_msgs p (important (content_delta a))
     + list_sum (map (fun item => count_msgs p (important (keyword_delta item)))
                     (keyword_items a))
     + count_msgs p (important (image_delta a))
     + count_msgs p (important (link_delta a))
     + count_msgs p (important (performance_delta l))
     + count_msgs p (important (seo_delta l))
     + count_msgs p (important (accessibility_delta l)))%nat.
Proof. apply (count_bucket_table important); [apply count_important_combine|reflexivity]. Qed.

Lemma count_minor_table p a l :
  count_msgs p (minor (combine_all (rule_table a l)))
  = (count_msgs p (minor (title_delta a))
     + count_msgs p (minor (meta_delta a))
     + count_msgs p (minor (heading_delta a))
     + count_msgs p (minor (content_delta a))
     + list_sum (map (fun item => count_msgs p (minor (keyword_delta item)))
                     (keyword_items a))
     + count_msgs p (minor (image_delta a))
     + count_msgs p (minor (link_delta a))
     + count_msgs p (minor (performance_delta l))
     + count_msgs p (minor (seo_delta l))
     + count_msgs p (minor (accessibility_delta l)))%nat.
Proof. apply (count_bucket_table minor); [apply count_minor_combine|reflexivity]. Qed.

(** Evaluate a message predicate on the rows of the table; the number
    formatting stays folded. *)
Ltac eval_rows :=
  unfold title_delta, meta_delta, heading_delta, content_delta, keyword_delta,
    image_delta, link_delta, performance_delta, seo_delta, accessibility_delta,
    over_used, under_used, absent_everywhere, when;
  cbn [critical important minor fst snd];
  rule_cases;
  cbv - [str_of_int score_text str_of_num Nat.add Nat.le Nat.lt];
  try reflexivity; try lia; try congruence.

(** Drop the rows that contribute no message satisfying the predicate. *)
Ltac drop_rows :=
  repeat match goal with
         | |- context [count_msgs ?p (?b (?d ?x))] =>
             let H := fresh in
             assert (H : count_msgs p (b (d x)) = 0%nat) by (solve [eval_rows]);
             rewrite H; clear H
         end.


(** ** Comparison on scores in range *)

Lemma num_compare_int_flip x n :
  num_compare (PyInt n) x = option_map CompOpp (num_compare x (PyInt n)).
Proof.
  destruct x as [z|f]; simpl; [|reflexivity].
  now rewrite Z.compare_antisym.
Qed.

(** Away from NaN, [not (x < n)] is [n <= x]. *)
Lemma num_lt_false_le x n :
  score_in_range x = true ->
  num_lt x (PyInt n) = negb (num_le (PyInt n) x).
Proof.
  unfold score_in_range, num_lt, num_le. intros H.
  apply andb_true_iff in H. destruct H as [_ H].
  rewrite num_compare_int_flip.
  destruct (num_compare x (PyInt 100)) as [c100|] eqn:E100; [|discriminate].
  assert (exists c, num_compare x (PyInt n) = Some c) as [c Hc].
  { destruct x as [z|f]; simpl in *; [eauto|].
    destruct f; simpl in *; try discriminate; eauto. }
  rewrite Hc. destruct c; reflexivity.
Qed.

(** ** The claims on the recommendation generator *)

Lemma analyze_content_consistent c keywords :
  headings_consistent (analyze_content c keywords).
Proof. reflexivity. Qed.

Lemma title_counts a l :
  let r := combine_all (rule_table a l) in
  count_msgs (is_msg msg_add_title) (critical r) = b2n (negb (has_title (a_title a)))
  /\ count_msgs (is_msg msg_adjust_title) (important r)
     = b2n (has_title (a_title a) && negb (title_optimal_length (a_title a)))
  /\ (count_all is_title_msg r <= 1)%nat.
Proof.
  cbv zeta. unfold count_all, b2n.
  rewrite !count_critical_table, !count_important_table, !count_minor_table.
  rewrite !list_sum_zero by (intros item; solve [eval_rows]).
  drop_rows. repeat split; eval_rows.
Qed.

Lemma meta_counts a l :
  let r := combine_all (rule_table a l) in
  count_msgs (is_msg msg_add_meta) (critical r)
  = b2n (negb (has_meta (a_meta_description a)))
  /\ count_msgs (is_msg msg_adjust_meta) (important r)
     = b2n (has_meta (a_meta_description a)
            && negb (meta_optimal_length (a_meta_description a)))
  /\ (count_all is_meta_msg r <= 1)%nat.
Proof.
  cbv zeta. unfold count_all, b2n.
  rewrite !count_critical_table, !count_important_table, !count_minor_table.
  rewrite !list_sum_zero by (intros item; solve [eval_rows]).
  drop_rows. repeat split; eval_rows.
Qed.

Lemma h1_counts a l :
  let r := combine_all (rule_table a l) in
  count_msgs (is_msg msg_add_h1) (critical r)
  = b2n (negb (has_proper_structure (a_headings a)) && (h1_count (a_headings a) =? 0))
  /\ count_msgs (is_msg msg_one_h1) (important r)
     = b2n (negb (has_proper_structure (a_headings a))
            && negb (h1_count (a_headings a) =? 0)
            && (1 <? h1_count (a_headings a)))
  /\ (count_all is_h1_msg r <= 1)%nat
  /\ count_all is_h1_msg r
     = (count_msgs (is_msg msg_add_h1) (critical r)
        + count_msgs (is_msg msg_one_h1) (important r))%nat.
Proof.
  cbv zeta. unfold count_all, b2n.
  rewrite !count_critical_table, !count_important_table, !count_minor_table.
  rewrite !list_sum_zero by (intros item; solve [eval_rows]).
  drop_rows. repeat split; eval_rows.
Qed.

Lemma performance_counts a l :
  let r := combine_all (rule_table a l) in
  count_msgs is_improve_performance_msg (critical r)
  = b2n (num_lt (performance l) (PyInt 90))
  /\ count_msgs is_optimize_performance_msg (important r)
     = b2n (negb (num_lt (performance l) (PyInt 90))
            && num_lt (performance l) (PyInt 95))
  /\ (count_all is_performance_msg r <= 1)%nat
  /\ count_all is_performance_msg r
     = (count_msgs is_improve_performance_msg (critical r)
        + count_msgs is_optimize_performance_msg (important r))%nat.
Proof.
  cbv zeta. unfold count_all, b2n.
  rewrite !count_critical_table, !count_important_table, !count_minor_table.
  rewrite !list_sum_zero by (intros item; solve [eval_rows]).
  drop_rows. repeat split; eval_rows.
Qed.

Lemma float_compare_int_mono f m n :
  m <= n -> float_compare_int f m = Some Lt -> float_compare_int f n = Some Lt.
Proof.
  intros Hmn. destruct f as [s|s| |s p e];
    cbv beta iota zeta delta [float_compare_int]; try discriminate.
  - intros H. injection H as H. f_equal.
    apply (proj1 (Z.compare_lt_iff 0 m)) in H.
    apply (proj2 (Z.compare_lt_iff 0 n)). lia.
  - destruct s; [reflexivity|discriminate].
  - set (v := if s then Z.neg p else Z.pos p). clearbody v.
    set (w := 2 ^ e). clearbody w.
    assert (0 < 2 ^ (- e) \/ 0 <= e) as Hpow.
    { destruct (Z.le_gt_cases 0 e); [right; assumption|left].
      apply Z.pow_pos_nonneg; lia. }
    destruct (0 <=? e) eqn:He; intros H; injection H as H; f_equal;
      apply -> Z.compare_lt_iff in H; apply <- Z.compare_lt_iff.
    + lia.
    + apply Z.leb_gt in He. destruct Hpow as [Hpow|Hpow]; [nia|lia].
Qed.

Lemma num_lt_int_mono x m n :
  m <= n -> num_lt x (PyInt m) = true -> num_lt x (PyInt n) = true.
Proof.
  intros Hmn. unfold num_lt. destruct x as [z|f]; simpl.
  - destruct (z ?= m) eqn:E; try discriminate. intros _.
    apply -> Z.compare_lt_iff in E.
    assert (H : (z ?= n) = Lt) by (apply <- Z.compare_lt_iff; lia).
    now rewrite H.
  - destruct (float_compare_int f m) as [[| |]|] eqn:E; try discriminate.
    intros _. now rewrite (float_compare_int_mono f m n Hmn E).
Qed.

(** Claim C6.  For every analysis and every audit whose scores lie between
    0 and 100, [generate_recommendations] returns a result in which:
    the message to add a title is in the critical list exactly when there
    is no title, the message to adjust the title's length is in the
    important list exactly when there is a title of non-optimal length,
    and at most one title message is present in all; the same holds for
    the meta description; at most one H1 message is present, and when
    [has_proper_structure] is the test [h1_count = 1] (as in every
    analysis [analyze_content] makes), the critical H1 message is present
    exactly when there is no H1 heading, the important one exactly when
    there are several, and none when there is exactly one; the critical
    performance message is present exactly when the performance score is
    below 90, the important one exactly when it is at least 90 and below
    95, none when it is at least 95, and never more than one.  Some input
    fills the critical, the important and the minor list at once. *)
Theorem one_message_per_rule (a : analysis) (l : audit) :
  audit_in_range l = true ->
  exists r,
    generate_recommendations a l = Ok r
    /\ (count_msgs (is_msg msg_add_title) (critical r)
        = b2n (negb (has_title (a_title a)))
        /\ count_msgs (is_msg msg_adjust_title) (important r)
           = b2n (has_title (a_title a) && negb (title_optimal_length (a_title a)))
        /\ (count_all is_title_msg r <= 1)%nat)
    /\ (count_msgs (is_msg msg_add_meta) (critical r)
        = b2n (negb (has_meta (a_meta_description a)))
        /\ count_msgs (is_msg msg_adjust_meta) (important r)
           = b2n (has_meta (a_meta_description a)
                  && negb (meta_optimal_length (a_meta_description a)))
        /\ (count_all is_meta_msg r <= 1)%nat)
    /\ ((count_all is_h1_msg r <= 1)%nat
        /\ (headings_consistent a ->
            count_msgs (is_msg msg_add_h1) (critical r)
            = b2n (h1_count (a_headings a) =? 0)
            /\ count_msgs (is_msg msg_one_h1) (important r)
               = b2n (1 <? h1_count (a_headings a))
            /\ (h1_count (a_headings a) = 1 -> count_all is_h1_msg r = 0%nat)))
    /\ (count_msgs is_improve_performance_msg (critical r)
        = b2n (num_lt (performance l) (PyInt 90))
        /\ count_msgs is_optimize_performance_msg (important r)
           = b2n (num_le (PyInt 90) (performance l)
                  && num_lt (performance l) (PyInt 95))
        /\ (num_le (PyInt 95) (performance l) = true ->
            count_all is_performance_msg r = 0%nat)
        /\ (count_all is_performance_msg r <= 1)%nat)
    /\ (exists a' l' r',
          generate_recommendations a' l' = Ok r'
          /\ critical r' <> [] /\ important r' <> [] /\ minor r' <> []).
Proof.
  intros Hl. exists (combine_all (rule_table a l)).
  split; [apply generate_recommendations_total; exact Hl|].
  assert (Hperf : score_in_range (performance l) = true).
  { unfold audit_in_range in Hl. rewrite !andb_true_iff in Hl. tauto. }
  split; [apply title_counts|].
  split; [apply meta_counts|].
  split; [|split].
  - destruct (h1_counts a l) as (Hc & Hi & Hle & Hsum).
    split; [exact Hle|]. intros Hcons. unfold headings_consistent in Hcons.
    rewrite Hsum, Hc, Hi, Hcons.
    destruct (Z.eqb_spec (h1_count (a_headings a)) 1) as [E|E];
      destruct (Z.eqb_spec (h1_count (a_headings a)) 0) as [E0|E0];
      destruct (Z.ltb_spec 1 (h1_count (a_headings a))); simpl;
      repeat split; try reflexivity; try lia.
  - destruct (performance_counts a l) as (Hc & Hi & Hle & Hsum).
    split; [exact Hc|]. split; [|split; [|exact Hle]].
    + rewrite Hi. rewrite (num_lt_false_le _ 90 Hperf), negb_involutive. reflexivity.
    + intros H95. rewrite Hsum, Hc, Hi.
      pose proof (num_lt_false_le _ 95 Hperf) as E95. rewrite H95 in E95. simpl in E95.
      destruct (num_lt (performance l) (PyInt 90)) eqn:E90.
      * apply (num_lt_int_mono _ 90 95) in E90; [congruence|lia].
      * rewrite E95. reflexivity.
  - exists (analyze_content empty_page None), (flat_audit 50).
    eexists. split; [vm_compute; reflexivity|]. simpl. repeat split; discriminate.
Qed.

Lemma one_message_per_rule_witness :
  exists r,
    generate_recommendations (analyze_content empty_page None) (flat_audit 92) = Ok r
    /\ critical r = [msg_add_title; msg_add_meta; msg_add_h1]
    /\ count_msgs is_optimize_performance_msg (important r) = 1%nat.
Proof.
  destruct (one_message_per_rule (analyze_content empty_page None) (flat_audit 92))
    as (r & Hr & _ & _ & _ & (_ & Hopt & _) & _); [vm_compute; reflexivity|].
  exists r. split; [exact Hr|]. split; [|exact Hopt].
  vm_compute in Hr. injection Hr as <-. reflexivity.
Defined.

(** ** Where a message comes from *)

Lemma in_all_messages_combine m r d :
  In m (all_messages (combine r d)) <->
  In m (all_messages r) \/ In m (all_messages d).
Proof.
  unfold all_messages, combine; simpl. rewrite !in_app_iff. tauto.
Qed.

Lemma in_all_messages_table m ds :
  In m (all_messages (combine_all ds)) ->
  exists d, In d ds /\ In m (all_messages d).
Proof.
  induction ds as [|d ds IH]; simpl.
  - intros [].
  - rewrite combine_all_cons, in_all_messages_combine. intros [H|H].
    + exists d. auto.
    + destruct (IH H) as (d' & Hin & Hm). exists d'. auto.
Qed.

(** Only the keyword rows produce keyword messages. *)
Ltac not_keyword_row :=
  unfold all_messages, title_delta, meta_delta, heading_delta, content_delta,
    image_delta, link_delta, performance_delta, seo_delta, accessibility_delta, when;
  cbn [critical important minor];
  rule_cases; cbn [app In];
  intros Hin Hkw;
  repeat match type of Hin with
         | _ \/ _ => destruct Hin as [Hin|Hin]
         | False => contradiction
         | _ = _ => subst; cbv - [str_of_int score_text str_of_num] in Hkw; discriminate
         end.

Lemma keyword_message_origin a l m :
  In m (all_messages (combine_all (rule_table a l))) ->
  is_keyword_msg m = true ->
  exists kw data,
    In (kw, data) (keyword_items a)
    /\ (m = msg_include_keyword kw
        \/ m = msg_increase_keyword kw (density data)
        \/ m = msg_reduce_keyword kw (density data)).
Proof.
  intros Hin. apply in_all_messages_table in Hin. destruct Hin as (d & Hd & Hin).
  revert Hin. unfold rule_table in Hd.
  rewrite !in_app_iff in Hd. simpl in Hd. rewrite in_map_iff in Hd.
  destruct Hd as [[<-|[<-|[<-|[<-|[]]]]]|[(item & <- & Hitem)|[<-|[<-|[<-|[<-|[<-|[]]]]]]]].
  1-4, 6-10: not_keyword_row.
  destruct item as [kw data]. intros Hin _. exists kw, data. split; [exact Hitem|].
  unfold all_messages, keyword_delta, when in Hin. cbn [critical important minor fst snd] in Hin.
  destruct (absent_everywhere data), (over_used data), (under_used data);
    cbn [app In] in Hin; intuition auto.
Qed.

(** Evaluate the keyword rows: each contributes nothing, or one message
    exactly when [g] holds of the entry. *)
Ltac keyword_rows g :=
  repeat first
    [ rewrite list_sum_zero by (intros; solve [eval_rows])
    | rewrite (list_sum_indicator _ g) by (intros; solve [eval_rows]) ].

Lemma keyword_counts a l :
  let r := combine_all (rule_table a l) in
  count_all is_include_keyword_msg r
  = List.length (filter (fun item => absent_everywhere (snd item)) (keyword_items a))
  /\ count_msgs is_increase_keyword_msg (minor r)
     = List.length (filter (fun item => under_used (snd item)) (keyword_items a))
  /\ count_all is_increase_keyword_msg r
     = List.length (filter (fun item => under_used (snd item)) (keyword_items a))
  /\ count_msgs is_reduce_keyword_msg (important r)
     = List.length (filter (fun item => over_used (snd item)) (keyword_items a))
  /\ count_all is_reduce_keyword_msg r
     = List.length (filter (fun item => over_used (snd item)) (keyword_items a)).
Proof.
  cbv zeta. unfold count_all.
  split; [|split; [|split; [|split]]];
    rewrite ?count_critical_table, ?count_important_table, ?count_minor_table.
  - keyword_rows (fun item : string * keyword_data => absent_everywhere (snd item)).
    drop_rows. lia.
  - keyword_rows (fun item : string * keyword_data => under_used (snd item)).
    drop_rows. lia.
  - keyword_rows (fun item : string * keyword_data => under_used (snd item)).
    drop_rows. lia.
  - keyword_rows (fun item : string * keyword_data => over_used (snd item)).
    drop_rows. lia.
  - keyword_rows (fun item : string * keyword_data => over_used (snd item)).
    drop_rows. lia.
Qed.

(** Claim C7.  For every analysis and every audit whose scores lie between
    0 and 100, [generate_recommendations] returns a result in which no
    list holds a keyword message when the analysis has no [keywords]
    entry, and in which every keyword message is one of the three messages
    built from a keyword and its data stored in the analysis's [keywords]
    entry.  An analysis made without a keyword list has no [keywords]
    entry. *)
Theorem keyword_messages_need_keywords (a : analysis) (l : audit) :
  audit_in_range l = true ->
  exists r,
    generate_recommendations a l = Ok r
    /\ (a_keywords a = None -> count_all is_keyword_msg r = 0%nat)
    /\ (forall m,
          In m (all_messages r) -> is_keyword_msg m = true ->
          exists items kw data,
            a_keywords a = Some items
            /\ In (kw, data) items
            /\ (m = msg_include_keyword kw
                \/ m = msg_increase_keyword kw (density data)
                \/ m = msg_reduce_keyword kw (density data)))
    /\ (forall c, a_keywords (analyze_content c None) = None).
Proof.
  intros Hl. exists (combine_all (rule_table a l)).
  split; [apply generate_recommendations_total; exact Hl|].
  assert (Horigin : forall m,
             In m (all_messages (combine_all (rule_table a l))) ->
             is_keyword_msg m = true ->
             exists items kw data,
               a_keywords a = Some items
               /\ In (kw, data) items
               /\ (m = msg_include_keyword kw
                   \/ m = msg_increase_keyword kw (density data)
                   \/ m = msg_reduce_keyword kw (density data))).
  { intros m Hin Hkw.
    destruct (keyword_message_origin a l m Hin Hkw) as (kw & data & Hitem & Hm).
    unfold keyword_items in Hitem.
    destruct (a_keywords a) as [items|]; [|contradiction].
    exists items, kw, data. auto. }
  split; [|split; [exact Horigin|reflexivity]].
  intros Hnone.
  unfold count_all, count_msgs.
  assert (Hnil : forall msgs,
             (forall m, In m msgs -> In m (all_messages (combine_all (rule_table a l)))) ->
             filter is_keyword_msg msgs = []).
  { intros msgs Hsub. induction msgs as [|m msgs IH]; [reflexivity|]. simpl.
    destruct (is_keyword_msg m) eqn:Hm.
    - destruct (Horigin m (Hsub m (or_introl eq_refl)) Hm) as (items & _ & _ & Hitems & _).
      congruence.
    - apply IH. intros m' Hm'. apply Hsub. right. exact Hm'. }
  rewrite !Hnil; [reflexivity| | |];
    intros m Hm; unfold all_messages; rewrite !in_app_iff; auto.
Qed.

Lemma keyword_messages_need_keywords_witness :
  exists r,
    generate_recommendations (analyze_content empty_page None) (flat_audit 50) = Ok r
    /\ count_all is_keyword_msg r = 0%nat.
Proof.
  destruct (keyword_messages_need_keywords (analyze_content empty_page None) (flat_audit 50))
    as (r & Hr & Hnone & _); [vm_compute; reflexivity|].
  exists r. split; [exact Hr|]. apply Hnone. reflexivity.
Defined.

(** ** The density *)

Lemma range_forallb (f : Z -> bool) n :
  forallb f (range n) = true -> forall z, 0 <= z < Z.of_nat n -> f z = true.
Proof.
  intros H z Hz. rewrite forallb_forall in H. apply H.
  unfold range. apply in_map_iff. exists (Z.to_nat z). split; [lia|].
  apply in_seq. lia.
Qed.

(** On pages of up to 100 words the density is a hundredth nearest to the
    exact quotient. *)
Lemma density_nearest_hundredth c w :
  0 <= c <= 200 -> 1 <= w <= 100 ->
  nearest_hundredth c w (round2 (raw_density c w)) = true.
Proof.
  intros Hc Hw.
  assert (H : forallb (fun w' =>
                forallb (fun c' => nearest_hundredth c' (w' + 1)
                                     (round2 (raw_density c' (w' + 1))))
                        (range (Z.to_nat 201))) (range (Z.to_nat 100)) = true)
    by (vm_compute; reflexivity).
  pose proof (range_forallb _ _ H (w - 1) ltac:(lia)) as Hw'. cbv beta in Hw'.
  replace (w - 1 + 1) with w in Hw' by lia.
  exact (range_forallb _ _ Hw' c ltac:(lia)).
Qed.

(** Up to 200 percent, the comparisons on the [float] agree with the
    comparisons on the hundredths. *)
Lemma thresholds_on_hundredths h :
  0 <= h <= 10000 ->
  num_lt (PyFloat (float_of_decimal h 2)) (PyFloat float_0_5) = (h <? 50)
  /\ num_gt (PyFloat (float_of_decimal h 2)) (PyInt 3) = (300 <? h).
Proof.
  intros Hh.
  assert (H : forallb (fun h' =>
                Bool.eqb (num_lt (PyFloat (float_of_decimal h' 2)) (PyFloat float_0_5))
                         (h' <? 50)
                && Bool.eqb (num_gt (PyFloat (float_of_decimal h' 2)) (PyInt 3))
                            (300 <? h')) (range (Z.to_nat 10001)) = true)
    by (vm_compute; reflexivity).
  pose proof (range_forallb _ _ H h ltac:(lia)) as Hh'. cbv beta in Hh'.
  apply andb_true_iff in Hh'. destruct Hh' as [H1 H2].
  apply Bool.eqb_prop in H1, H2. auto.
Qed.

(** Claim C2.  Let the audit scores lie between 0 and 100.
    - For every page and every keyword of a supplied list, the analysis
      has an entry for the keyword whose count is [str.count] of the
      lower-cased keyword in the lower-cased text, which is the largest
      number of non-overlapping occurrences, and whose density is
      [round(count / word_count * 100, 2)] in binary64 arithmetic when the
      word count is positive and the integer 0 when it is zero.
    - For counts up to 200 on pages of up to 100 words that density is a
      hundredth nearest to the exact value of [100 * count / word_count].
    - The number of messages about an under-used keyword, all in the minor
      list, is the number of keyword entries whose density is below 0.5;
      the number of messages about an over-used keyword, all in the
      important list, is the number of entries whose density is not below
      0.5 and above 3.
    - Both comparisons are strict: for a density of [h] hundredths, up to
      100 percent, the keyword is under-used exactly when [h < 50] and
      over-used exactly when [300 < h]; the densities of 1 occurrence in
      200 words and of 3 occurrences in 100 words are exactly 0.5 and 3.
    - For the text "seo seo seo" and the keyword "seo" the count is 3, the
      word count is 3 and the density is 100.0; the result holds the
      message about the over-used keyword and none about an under-used
      one.
    - The count ignores letter case: the text "Seo SEO seo" holds "seo"
      once as written, and for the keyword "sEo" the count is 3 and the
      density 100.0, with the message about the over-used keyword; on the
      text of 100 words that holds "SEO" 99 times and "seo" once, the
      keyword "seo" has the count 100 and the density 100.0. *)
Theorem keyword_density_thresholds (a : analysis) (l : audit) :
  audit_in_range l = true ->
  (forall c kws kw,
     In kw kws ->
     exists items data,
       a_keywords (analyze_content c (Some kws)) = Some items
       /\ dict_get kw items = Some data
       /\ count data = str_count (lower (page_content c)) (lower kw)
       /\ max_occurrences (lower (page_content c)) (lower kw) (count data)
       /\ density data
          = round2 (raw_density (count data) (word_count (a_content (analyze_content c (Some kws)))))
       /\ (word_count (a_content (analyze_content c (Some kws))) = 0 ->
           density data = PyInt 0))
  /\ (forall c w,
        0 <= c <= 200 -> 1 <= w <= 100 ->
        nearest_hundredth c w (round2 (raw_density c w)) = true)
  /\ (exists r,
        generate_recommendations a l = Ok r
        /\ count_msgs is_increase_keyword_msg (minor r)
           = List.length (filter (fun item => under_used (snd item)) (keyword_items a))
        /\ count_all is_increase_keyword_msg r
           = List.length (filter (fun item => under_used (snd item)) (keyword_items a))
        /\ count_msgs is_reduce_keyword_msg (important r)
           = List.length (filter (fun item => over_used (snd item)) (keyword_items a))
        /\ count_all is_reduce_keyword_msg r
           = List.length (filter (fun item => over_used (snd item)) (keyword_items a)))
  /\ (forall data h,
        0 <= h <= 10000 -> density data = PyFloat (float_of_decimal h 2) ->
        under_used data = (h <? 50) /\ over_used data = (300 <? h))
  /\ (round2 (raw_density 1 200) = PyFloat float_0_5
      /\ float_0_5 = float_of_decimal 50 2
      /\ round2 (raw_density 3 100) = PyFloat (float_of_decimal 300 2)
      /\ num_gt (PyInt 3) (PyInt 3) = false)
  /\ (a_keywords (analyze_content seo_page (Some ["seo"]))
      = Some [("seo", {| count := 3;
                         density := PyFloat float_100;
                         in_title := false;
                         in_meta := false;
                         in_headings := false |})]
      /\ word_count (a_content (analyze_content seo_page (Some ["seo"]))) = 3
      /\ str_of_num (PyFloat float_100) = "100.0"
      /\ exists r,
           generate_recommendations (analyze_content seo_page (Some ["seo"]))
                                    (flat_audit 100) = Ok r
           /\ In "Reduce the usage of keyword 'seo' to avoid keyword stuffing (current density: 100.0%)"
                 (important r)
           /\ count_all is_reduce_keyword_msg r = 1%nat
           /\ count_all is_increase_keyword_msg r = 0%nat)
  /\ (lower "Seo SEO seo" = "seo seo seo"
      /\ str_count "Seo SEO seo" "seo" = 1
      /\ a_keywords (analyze_content mixed_case_page (Some ["sEo"]))
         = Some [("sEo", {| count := 3;
                            density := PyFloat float_100;
                            in_title := false;
                            in_meta := false;
                            in_headings := false |})]
      /\ (exists r,
            generate_recommendations (analyze_content mixed_case_page (Some ["sEo"]))
                                     (flat_audit 100) = Ok r
            /\ In "Reduce the usage of keyword 'sEo' to avoid keyword stuffing (current density: 100.0%)"
                  (important r))
      /\ a_keywords (analyze_content shouting_page (Some ["seo"]))
         = Some [("seo", {| count := 100;
                            density := PyFloat float_100;
                            in_title := false;
                            in_meta := false;
                            in_headings := false |})]
      /\ str_count (page_content shouting_page) "seo" = 1).
Proof.
  intros Hl. split; [|split; [|split; [|split; [|split; [|split]]]]].
  - intros c kws kw Hin.
    exists (analyze_keywords c kws), (analyze_keyword c kw).
    split; [destruct kws; [destruct Hin|reflexivity]|].
    split; [apply analyze_keywords_present; left; exact Hin|].
    split; [reflexivity|]. split; [apply str_count_max|].
    split; [reflexivity|].
    cbn [analyze_content a_content analyze_text word_count analyze_keyword density].
    intros ->. reflexivity.
  - apply density_nearest_hundredth.
  - exists (combine_all (rule_table a l)).
    split; [apply generate_recommendations_total; exact Hl|].
    pose proof (keyword_counts a l) as H. cbv zeta in H. tauto.
  - intros data h Hh Hd.
    destruct (thresholds_on_hundredths h Hh) as [H1 H2].
    unfold over_used, under_used. rewrite Hd, H1, H2.
    split; [reflexivity|].
    destruct (Z.ltb_spec h 50), (Z.ltb_spec 300 h); try reflexivity; lia.
  - vm_compute. repeat split; reflexivity.
  - split; [vm_compute; reflexivity|]. split; [vm_compute; reflexivity|].
    split; [vm_compute; reflexivity|].
    eexists. split; [vm_compute; reflexivity|].
    split; [vm_compute; tauto|]. split; vm_compute; reflexivity.
  - split; [vm_compute; reflexivity|]. split; [vm_compute; reflexivity|].
    split; [vm_compute; reflexivity|].
    split; [|split; vm_compute; reflexivity].
    eexists. split; [vm_compute; reflexivity|]. vm_compute. tauto.
Qed.

Lemma keyword_density_thresholds_witness :
  exists r,
    generate_recommendations (analyze_content shouting_page (Some ["seo"]))
                             (flat_audit 100)
    = Ok r
    /\ count_all is_reduce_keyword_msg r = 1%nat
    /\ count_all is_increase_keyword_msg r = 0%nat.
Proof.
  destruct (keyword_density_thresholds (analyze_content shouting_page (Some ["seo"]))
                                       (flat_audit 100))
    as (_ & _ & (r & Hr & _ & Hinc & _ & Hred) & _); [vm_compute; reflexivity|].
  exists r. split; [exact Hr|].
  rewrite Hred, Hinc. vm_compute. split; reflexivity.
Defined.

(* ===================================================================== *)
(** * Further properties of the code *)
(* ===================================================================== *)

Lemma bucket_combine_all (bucket : recommendations -> list string) ds :
  (forall r d, bucket (combine r d) = (bucket r ++ bucket d)%list) ->
  bucket no_recommendations = [] ->
  bucket (combine_all ds) = flat_map bucket ds.
Proof.
  intros Hc Hn. induction ds as [|d ds IH]; simpl; [exact Hn|].
  rewrite combine_all_cons, Hc, IH. reflexivity.
Qed.

Lemma flat_map_nil {A B} (f : A -> list B) l :
  (forall x, f x = []) -> flat_map f l = [].
Proof. intros H. induction l; simpl; [reflexivity|]. now rewrite H, IHl. Qed.

Lemma flat_map_map {A B C} (f : A -> B) (g : B -> list C) l :
  flat_map g (map f l) = flat_map (fun x => g (f x)) l.
Proof. induction l; simpl; congruence. Qed.

Lemma table_closed_form a l :
  combine_all (rule_table a l)
  = {| critical := critical_messages a l;
       important := important_messages a l;
       minor := minor_messages a |}.
Proof.
  assert (Hc := bucket_combine_all critical (rule_table a l) (fun _ _ => eq_refl) eq_refl).
  assert (Hi := bucket_combine_all important (rule_table a l) (fun _ _ => eq_refl) eq_refl).
  assert (Hm := bucket_combine_all minor (rule_table a l) (fun _ _ => eq_refl) eq_refl).
  destruct (combine_all (rule_table a l)) as [cr im mi]. simpl in Hc, Hi, Hm.
  subst cr im mi. unfold rule_table.
  rewrite !flat_map_app, !flat_map_map. cbn [flat_map].
  rewrite (flat_map_nil (fun x => critical (keyword_delta x))) by reflexivity.
  unfold critical_messages, important_messages, minor_messages.
  cbn [critical important minor title_delta meta_delta heading_delta content_delta
       image_delta link_delta performance_delta seo_delta accessibility_delta].
  rewrite ?app_nil_r, ?app_nil_l. cbn [app].
  f_equal.
Qed.

Lemma length_when b m : (List.length (when b m) <= 1)%nat.
Proof. destruct b; simpl; lia. Qed.

Lemma length_flat_map_le {A B} (f : A -> list B) n l :
  (forall x, (List.length (f x) <= n)%nat) ->
  (List.length (flat_map f l) <= n * List.length l)%nat.
Proof.
  intros H. induction l as [|x l IH]; simpl; [lia|].
  rewrite length_app. specialize (H x). lia.
Qed.

Lemma keyword_item_at_most_two item :
  (List.length (keyword_important item) + List.length (keyword_minor item) <= 2)%nat
  /\ (List.length (keyword_important item) <= 2)%nat
  /\ (List.length (keyword_minor item) <= 1)%nat.
Proof.
  unfold keyword_important, keyword_minor, over_used.
  destruct (absent_everywhere (snd item)), (under_used (snd item)),
    (num_gt (density (snd item)) (PyInt 3)); simpl; lia.
Qed.

Lemma length_flat_map_sum {A B} (f g : A -> list B) n l :
  (forall x, (List.length (f x) + List.length (g x) <= n)%nat) ->
  (List.length (flat_map f l) + List.length (flat_map g l) <= n * List.length l)%nat.
Proof.
  intros H. induction l as [|x l IH]; simpl; [lia|].
  rewrite !length_app. specialize (H x). lia.
Qed.

(** Extra X8.  Whenever [generate_recommendations] returns, each list holds
    its messages in the order of the rules.  Critical: title, meta
    description, H1, performance.  Important: title length, meta
    description length, several H1, thin content, then for every keyword
    entry in dictionary order the message to include it followed by the
    message to reduce it, then alt text, performance, technical SEO,
    accessibility.  Minor: for every keyword entry in dictionary order the
    message to use it more, then internal links, external links. *)
Theorem recommendation_lists (a : analysis) (l : audit) (r : recommendations) :
  generate_recommendations a l = Ok r ->
  critical r = critical_messages a l
  /\ important r = important_messages a l
  /\ minor r = minor_messages a.
Proof.
  intros H. apply generate_recommendations_table in H. subst r.
  rewrite table_closed_form. repeat split.
Qed.

Lemma recommendation_lists_witness :
  critical_messages (analyze_content seo_page (Some ["seo"])) (flat_audit 92)
  = [msg_add_title; msg_add_meta; msg_add_h1]
  /\ minor_messages (analyze_content seo_page (Some ["seo"]))
     = [msg_internal_links; msg_external_links].
Proof.
  destruct (recommendation_lists
              (analyze_content seo_page (Some ["seo"])) (flat_audit 92)
              {| critical := [msg_add_title; msg_add_meta; msg_add_h1];
                 important :=
                   [msg_more_content;
                    msg_include_keyword "seo";
                    msg_reduce_keyword "seo" (PyFloat float_100);
                    msg_optimize_performance "92"];
                 minor := [msg_internal_links; msg_external_links] |})
    as (Hc & _ & Hm); [vm_compute; reflexivity|].
  split; [rewrite <- Hc|rewrite <- Hm]; reflexivity.
Defined.

Lemma length_when_excl b c m1 m2 :
  (List.length (when (negb b) m1) + List.length (when (b && c) m2) <= 1)%nat.
Proof. destruct b, c; simpl; lia. Qed.

Lemma length_when_h1 p (z : Z) m1 m2 :
  (List.length (when (negb p && (z =? 0)%Z) m1)
   + List.length (when (negb p && negb (z =? 0)%Z && (1 <? z)%Z) m2) <= 1)%nat.
Proof. destruct p, (z =? 0), (1 <? z); simpl; lia. Qed.

Lemma length_when_perf b c m1 m2 :
  (List.length (when b m1) + List.length (when (negb b && c) m2) <= 1)%nat.
Proof. destruct b, c; simpl; lia. Qed.

(** Extra X9.  Whenever [generate_recommendations] returns, with [k] the
    number of keyword entries of the analysis, the critical list has at
    most 4 messages, the important list at most [8 + 2 * k], the minor
    list at most [2 + k], and the three lists together at most
    [10 + 2 * k]. *)
Theorem recommendation_sizes (a : analysis) (l : audit) (r : recommendations) :
  generate_recommendations a l = Ok r ->
  let k := List.length (keyword_items a) in
  (List.length (critical r) <= 4)%nat
  /\ (List.length (important r) <= 8 + 2 * k)%nat
  /\ (List.length (minor r) <= 2 + k)%nat
  /\ (List.length (all_messages r) <= 10 + 2 * k)%nat.
Proof.
  intros H k. apply generate_recommendations_table in H. subst r.
  rewrite table_closed_form. unfold all_messages. cbn [critical important minor].
  unfold critical_messages, important_messages, minor_messages.
  rewrite !length_app.
  pose proof (length_flat_map_sum keyword_important keyword_minor 2 (keyword_items a)
                (fun x => proj1 (keyword_item_at_most_two x))) as Hsum.
  pose proof (length_flat_map_le keyword_important 2 (keyword_items a)
                (fun x => proj1 (proj2 (keyword_item_at_most_two x)))) as Hi.
  pose proof (length_flat_map_le keyword_minor 1 (keyword_items a)
                (fun x => proj2 (proj2 (keyword_item_at_most_two x)))) as Hm.
  fold k in Hsum, Hi, Hm.
  pose proof (length_when_excl (has_title (a_title a))
                (negb (title_optimal_length (a_title a))) msg_add_title msg_adjust_title).
  pose proof (length_when_excl (has_meta (a_meta_description a))
                (negb (meta_optimal_length (a_meta_description a)))
                msg_add_meta msg_adjust_meta).
  pose proof (length_when_h1 (has_proper_structure (a_headings a))
                (h1_count (a_headings a)) msg_add_h1 msg_one_h1).
  pose proof (length_when_perf (num_lt (performance l) (PyInt 90))
                (num_lt (performance l) (PyInt 95))
                (msg_improve_performance (score_text (performance l)))
                (msg_optimize_performance (score_text (performance l)))).
  repeat match goal with
         | |- context [List.length (when ?b ?m)] =>
             let n := fresh "n" in
             pose proof (length_when b m);
             set (n := List.length (when b m)) in *; clearbody n
         end.
  set (fi := List.length (flat_map keyword_important (keyword_items a))) in *.
  set (fm := List.length (flat_map keyword_minor (keyword_items a))) in *.
  clearbody fi fm k. lia.
Qed.

Lemma recommendation_sizes_witness :
  (List.length [msg_add_title; msg_add_meta; msg_add_h1] <= 4)%nat.
Proof.
  exact (proj1 (recommendation_sizes
                  (analyze_content seo_page (Some ["seo"])) (flat_audit 92)
                  {| critical := [msg_add_title; msg_add_meta; msg_add_h1];
                     important :=
                       [msg_more_content;
                        msg_include_keyword "seo";
                        msg_reduce_keyword "seo" (PyFloat float_100);
                        msg_optimize_performance "92"];
                     minor := [msg_internal_links; msg_external_links] |}
                  ltac:(vm_compute; reflexivity))).
Defined.

Lemma mem_In k ks : mem k ks = true <-> In k ks.
Proof.
  unfold mem. rewrite existsb_exists. split.
  - intros (x & Hx & E). apply String.eqb_eq in E. now subst.
  - intros H. exists k. split; [exact H|apply String.eqb_refl].
Qed.

Lemma dict_set_entry c k ks :
  dict_set k (analyze_keyword c k) (map (keyword_entry c) ks)
  = map (keyword_entry c) (if mem k ks then ks else (ks ++ [k])%list).
Proof.
  induction ks as [|k' ks IH]; simpl; [reflexivity|].
  rewrite (String.eqb_sym k k').
  destruct (String.eqb_spec k' k) as [->|Hne]; simpl; [reflexivity|].
  rewrite IH. fold (mem k ks). destruct (mem k ks); reflexivity.
Qed.

Lemma filter_filter_mem k ks l :
  mem k ks = true ->
  filter (fun x => negb (mem x ks)) (filter (fun x => negb (String.eqb x k)) l)
  = filter (fun x => negb (mem x ks)) l.
Proof.
  intros Hk. induction l as [|x l IH]; simpl; [reflexivity|].
  destruct (String.eqb_spec x k) as [->|Hne]; simpl.
  - rewrite Hk. simpl. exact IH.
  - destruct (mem x ks); simpl; rewrite IH; reflexivity.
Qed.

Lemma mem_app k ks1 ks2 : mem k (ks1 ++ ks2) = mem k ks1 || mem k ks2.
Proof. unfold mem. apply existsb_app. Qed.

Lemma filter_mem_snoc k ks l :
  filter (fun x => negb (mem x (ks ++ [k]))) l
  = filter (fun x => negb (mem x ks)) (filter (fun x => negb (String.eqb x k)) l).
Proof.
  induction l as [|x l IH]; simpl; [reflexivity|].
  rewrite mem_app. unfold mem at 2. simpl. rewrite orb_false_r.
  destruct (String.eqb x k); simpl.
  - rewrite orb_true_r. simpl. exact IH.
  - rewrite orb_false_r. destruct (mem x ks); simpl; rewrite IH; reflexivity.
Qed.

Lemma analyze_keywords_from c kws ks :
  fold_left (fun d keyword => dict_set keyword (analyze_keyword c keyword) d)
            kws (map (keyword_entry c) ks)
  = map (keyword_entry c)
        (ks ++ filter (fun x => negb (mem x ks)) (first_occurrences kws)).
Proof.
  revert ks. induction kws as [|k kws IH]; intros ks; simpl.
  - now rewrite app_nil_r.
  - rewrite dict_set_entry. rewrite IH.
    destruct (mem k ks) eqn:Hk; simpl.
    + now rewrite filter_filter_mem.
    + rewrite <- app_assoc. simpl. now rewrite filter_mem_snoc.
Qed.

Lemma filter_true {A} (l : list A) : filter (fun _ => true) l = l.
Proof. induction l; simpl; congruence. Qed.

Lemma analyze_keywords_first_occurrences c kws :
  analyze_keywords c kws = map (keyword_entry c) (first_occurrences kws).
Proof.
  unfold analyze_keywords.
  change (@nil (string * keyword_data)) with (map (keyword_entry c) []).
  rewrite analyze_keywords_from. cbn [app]. f_equal.
  rewrite (filter_ext _ (fun _ => true)) by reflexivity.
  apply filter_true.
Qed.

Lemma first_occurrences_In k l : In k (first_occurrences l) <-> In k l.
Proof.
  induction l as [|x l IH]; simpl; [tauto|].
  rewrite filter_In, IH.
  destruct (String.eqb_spec k x) as [->|Hne]; simpl; [tauto|].
  split; [tauto|]. intros [H|H]; [congruence|tauto].
Qed.

Lemma NoDup_filter {A} (p : A -> bool) l : NoDup l -> NoDup (filter p l).
Proof.
  induction 1 as [|x l Hx Hl IH]; simpl; [constructor|].
  destruct (p x); [constructor|]; auto.
  rewrite filter_In. tauto.
Qed.

Lemma first_occurrences_NoDup l : NoDup (first_occurrences l).
Proof.
  induction l as [|x l IH]; simpl; constructor.
  - rewrite filter_In. intros [_ H]. now rewrite String.eqb_refl in H.
  - now apply NoDup_filter.
Qed.

Lemma first_occurrences_length l :
  (List.length (first_occurrences l) <= List.length l)%nat.
Proof.
  induction l as [|x l IH]; simpl; [lia|].
  pose proof (filter_length_le (fun y => negb (String.eqb y x)) (first_occurrences l)).
  lia.
Qed.

(** ** Substrings *)

Lemma contains_spec s sub : contains s sub = true <-> substring_of sub s.
Proof.
  unfold substring_of. induction s as [|c s IH].
  - simpl. rewrite orb_false_r, startswith_spec. unfold starts_with. split.
    + intros [rest H]. exists "", rest. exact H.
    + intros (pre & post & H). destruct pre; simpl in H.
      * exists post. exact H.
      * discriminate.
  - cbn [contains]. rewrite orb_true_iff, startswith_spec, IH. unfold starts_with.
    split.
    + intros [[rest H]|(pre & post & H)].
      * exists "", rest. exact H.
      * exists (String c pre), post. simpl. now rewrite H.
    + intros (pre & post & H). destruct pre as [|a pre]; simpl in H.
      * left. exists post. exact H.
      * right. inversion H; subst. exists pre, post. reflexivity.
Qed.

Lemma contains_occurs s sub :
  contains s sub = true <-> exists p, occurs_at s sub p.
Proof.
  unfold occurs_at. induction s as [|c s IH].
  - simpl. rewrite orb_false_r. split.
    + intros H. exists 0%nat. split; [simpl; lia|exact H].
    + intros (p & Hp & H). destruct p; simpl in *; [exact H|lia].
  - cbn [contains]. rewrite orb_true_iff, IH. split.
    + intros [H|(p & Hp & H)].
      * exists 0%nat. split; [lia|exact H].
      * exists (S p). split; [simpl; lia|exact H].
    + intros (p & Hp & H). destruct p as [|p].
      * left. exact H.
      * right. exists p. split; [simpl in Hp; lia|exact H].
Qed.

Lemma spaced_room w a L ps :
  spaced w ps -> (forall q, In q ps -> (a <= q /\ q + w <= L)%nat) ->
  (List.length ps * w <= L - a)%nat.
Proof.
  revert a. induction ps as [|p ps IH]; intros a Hsp Hb; simpl; [lia|].
  destruct Hsp as [Hp Hsp].
  assert (Hpa := Hb p (or_introl eq_refl)).
  assert (H : (List.length ps * w <= L - (p + w))%nat).
  { apply IH; [exact Hsp|]. intros q Hq. split; [apply Hp; exact Hq|].
    apply (Hb q). right. exact Hq. }
  lia.
Qed.

Lemma str_count_positive s sub : 0 < str_count s sub <-> contains s sub = true.
Proof.
  destruct (str_count_max s sub) as [(ps & [Hocc Hsp] & Hlen) Hmax].
  rewrite contains_occurs. split.
  - intros Hpos. destruct ps as [|p ps]; [simpl in Hlen; lia|].
    exists p. now inversion Hocc.
  - intros [p Hp].
    assert (H : occurrences s sub [p]).
    { split; [constructor; [exact Hp|constructor]|]. simpl. split; [|exact I].
      intros q []. }
    apply Hmax in H. simpl in H. lia.
Qed.

Lemma str_count_room s sub :
  0 <= str_count s sub /\ str_count s sub * len sub <= len s.
Proof.
  destruct (str_count_max s sub) as [(ps & [Hocc Hsp] & Hlen) _].
  split; [lia|]. unfold len. rewrite <- Hlen.
  destruct sub as [|a sub]; [simpl; lia|].
  assert (H : (List.length ps * String.length (String a sub)
               <= String.length s - 0)%nat).
  { apply spaced_room.
    - replace (Nat.max 1 (String.length (String a sub)))
        with (String.length (String a sub)) in Hsp by (simpl; lia).
      exact Hsp.
    - intros q Hq. rewrite Forall_forall in Hocc.
      destruct (Hocc q Hq) as [Hq1 Hq2]. apply startswith_length in Hq2.
      rewrite drop_length in Hq2. simpl in *. lia. }
  lia.
Qed.

(** ** Lower case *)

Lemma lower_char_idempotent c : lower_char (lower_char c) = lower_char c.
Proof.
  unfold lower_char. destruct (is_upper c) eqn:E; [|now rewrite E].
  unfold is_upper in *.
  apply andb_true_iff in E. destruct E as [E1 E2].
  apply Nat.leb_le in E1, E2.
  rewrite nat_ascii_embedding by lia.
  replace ((65 <=? nat_of_ascii c + 32)%nat && (nat_of_ascii c + 32 <=? 90)%nat)
    with false; [reflexivity|].
  symmetry. apply andb_false_iff. right. apply Nat.leb_gt. lia.
Qed.

Lemma lower_idempotent s : lower (lower s) = lower s.
Proof. induction s as [|c s IH]; simpl; [reflexivity|]. now rewrite lower_char_idempotent, IH. Qed.

(** ** The number of words *)

Lemma word_runs_acc_room cur s :
  (2 * List.length (word_runs_acc cur s)
   <= String.length s + 1 + (match cur with EmptyString => 0 | _ => 1 end))%nat.
Proof.
  revert cur. induction s as [|c s IH]; intros cur; simpl.
  - destruct cur; simpl; lia.
  - destruct (is_word c).
    + specialize (IH (cur ++ String c "")).
      destruct cur; simpl in *; lia.
    + rewrite length_app. specialize (IH "").
      destruct cur; simpl in *; lia.
Qed.

Lemma count_words_runs text : count_words text = list_len (word_runs (lower text)).
Proof.
  unfold count_words, findall_words.
  rewrite findall_from_runs by (left; reflexivity). reflexivity.
Qed.

Lemma count_words_room text : 0 <= 2 * count_words text <= len (lower text) + 1.
Proof.
  rewrite count_words_runs. unfold list_len, word_runs, len.
  pose proof (word_runs_acc_room "" (lower text)) as H.
  simpl in H. lia.
Qed.

(** An entry of the keyword dictionary holds the data of its key. *)
Lemma keyword_entry_data c keywords items kw data :
  a_keywords (analyze_content c keywords) = Some items ->
  dict_get kw items = Some data ->
  data = analyze_keyword c kw.
Proof.
  intros Hitems Hget.
  apply analyze_content_keywords in Hitems. destruct Hitems as (kws & _ & _ & ->).
  apply analyze_keywords_entry in Hget. destruct Hget as [->|H]; [reflexivity|discriminate].
Qed.

Lemma existsb_contains_headings c kw :
  existsb (fun h => contains (lower h) kw) (all_headings c) = true
  <-> exists h, In h (all_headings c) /\ substring_of kw (lower h).
Proof.
  rewrite existsb_exists. split; intros (h & Hh & H); exists h; (split; [exact Hh|]);
    apply contains_spec; exact H.
Qed.

(** Extra X1.  For a non-empty keyword list, the keys of the keyword
    dictionary are the distinct keywords of the list in the order of
    their first occurrence: a keyword given twice has one entry, there are
    at most as many entries as keywords, every entry holds the data
    computed for its key, and every keyword of the list can be looked
    up. *)
Theorem keyword_dictionary_keys (c : snapshot) (kws : list string) :
  kws <> [] ->
  exists items,
    a_keywords (analyze_content c (Some kws)) = Some items
    /\ map fst items = first_occurrences kws
    /\ NoDup (map fst items)
    /\ (forall kw, In kw (map fst items) <-> In kw kws)
    /\ (List.length items <= List.length kws)%nat
    /\ (forall kw data, In (kw, data) items -> data = analyze_keyword c kw)
    /\ (forall kw, In kw kws -> dict_get kw items = Some (analyze_keyword c kw)).
Proof.
  intros Hne. exists (analyze_keywords c kws).
  split; [destruct kws; [congruence|reflexivity]|].
  assert (Hkeys : map fst (analyze_keywords c kws) = first_occurrences kws).
  { rewrite analyze_keywords_first_occurrences, map_map. simpl. apply map_id. }
  split; [exact Hkeys|]. rewrite Hkeys.
  split; [apply first_occurrences_NoDup|].
  split; [intros kw; apply first_occurrences_In|].
  split.
  { rewrite <- (length_map fst), Hkeys. apply first_occurrences_length. }
  split.
  { intros kw data. rewrite analyze_keywords_first_occurrences, in_map_iff.
    intros (k & E & _). unfold keyword_entry in E. now inversion E. }
  intros kw Hin. apply analyze_keywords_present. now left.
Qed.

Lemma keyword_dictionary_keys_witness :
  exists items,
    a_keywords (analyze_content guide_page (Some ["seo"; "Guide"; "seo"])) = Some items
    /\ map fst items = ["seo"; "Guide"].
Proof.
  destruct (keyword_dictionary_keys guide_page ["seo"; "Guide"; "seo"])
    as (items & H & Hk & _); [discriminate|].
  exists items. split; [exact H|exact Hk].
Defined.

(** Extra X2.  For every entry of the keyword dictionary, [in_title] holds
    exactly when the lower-cased keyword is a substring of the lower-cased
    title, [in_meta] exactly when it is a substring of the lower-cased meta
    description, and [in_headings] exactly when it is a substring of some
    lower-cased heading of level 1, 2 or 3. *)
Theorem keyword_flags_are_substring_tests
  (c : snapshot) (keywords : option (list string)) (items : dict keyword_data)
  (kw : string) (data : keyword_data) :
  a_keywords (analyze_content c keywords) = Some items ->
  dict_get kw items = Some data ->
  (in_title data = true <-> substring_of (lower kw) (lower (page_title c)))
  /\ (in_meta data = true
      <-> substring_of (lower kw) (lower (page_meta_description c)))
  /\ (in_headings data = true
      <-> exists h, In h (all_headings c) /\ substring_of (lower kw) (lower h)).
Proof.
  intros Hitems Hget. rewrite (keyword_entry_data _ _ _ _ _ Hitems Hget).
  cbn [analyze_keyword in_title in_meta in_headings].
  split; [apply contains_spec|]. split; [apply contains_spec|].
  apply existsb_contains_headings.
Qed.

Lemma keyword_flags_are_substring_tests_witness :
  substring_of (lower "SEO") (lower (page_title guide_page))
  /\ ~ substring_of (lower "SEO") (lower (page_meta_description guide_page)).
Proof.
  destruct (keyword_flags_are_substring_tests guide_page (Some ["SEO"])
              [("SEO", analyze_keyword guide_page "SEO")] "SEO"
              (analyze_keyword guide_page "SEO") eq_refl eq_refl) as (Ht & Hm & _).
  split.
  - apply Ht. vm_compute. reflexivity.
  - intros H. apply Hm in H. vm_compute in H. discriminate.
Defined.

(** Extra X3.  For every entry of the keyword dictionary, with the keyword
    and the text in lower case as the code counts them: the count is not
    negative, the counted occurrences fit into the lower-cased text
    without overlap
    ([count * len(keyword.lower()) <= len(content.lower())]), the count is
    positive exactly when the lower-cased keyword is a substring of the
    lower-cased text, and a keyword that is empty is counted
    [len(content.lower()) + 1] times. *)
Theorem keyword_count_bounds
  (c : snapshot) (keywords : option (list string)) (items : dict keyword_data)
  (kw : string) (data : keyword_data) :
  a_keywords (analyze_content c keywords) = Some items ->
  dict_get kw items = Some data ->
  0 <= count data
  /\ count data * len (lower kw) <= len (lower (page_content c))
  /\ (0 < count data <-> substring_of (lower kw) (lower (page_content c)))
  /\ (lower kw = "" -> count data = len (lower (page_content c)) + 1).
Proof.
  intros Hitems Hget. rewrite (keyword_entry_data _ _ _ _ _ Hitems Hget).
  cbn [analyze_keyword count].
  pose proof (str_count_room (lower (page_content c)) (lower kw)) as [H0 H1].
  split; [exact H0|]. split; [exact H1|].
  split; [rewrite str_count_positive; apply contains_spec|].
  intros ->. reflexivity.
Qed.

Lemma keyword_count_bounds_witness :
  3 * len (lower "Seo") <= len (lower (page_content guide_page)).
Proof.
  exact (proj1 (proj2 (keyword_count_bounds guide_page (Some ["Seo"])
                         [("Seo", analyze_keyword guide_page "Seo")] "Seo"
                         (analyze_keyword guide_page "Seo") eq_refl eq_refl))).
Defined.

(** Extra X5.  For every page, the word count is not negative and
    [2 * word_count <= len(content.lower()) + 1], since two words of the
    lower-cased text are separated by at least one other character; so a
    text reported sufficient has at least 599 characters once it is in
    lower case, and the empty text has no word. *)
Theorem word_count_needs_room (c : snapshot) (keywords : option (list string)) :
  let a := analyze_content c keywords in
  0 <= word_count (a_content a)
  /\ 2 * word_count (a_content a) <= len (lower (page_content c)) + 1
  /\ (has_sufficient_content (a_content a) = true ->
      599 <= len (lower (page_content c)))
  /\ (page_content c = "" -> word_count (a_content a) = 0).
Proof.
  cbv zeta. cbn [analyze_content a_content analyze_text word_count has_sufficient_content].
  pose proof (count_words_room (page_content c)) as H.
  split; [lia|]. split; [lia|]. split.
  - intros Hs. apply Z.leb_le in Hs. lia.
  - intros ->. reflexivity.
Qed.

(** Extra X6.  When the url of the page is the empty string, every link is
    counted as internal, whatever its href: every string starts with the
    empty string. *)
Theorem empty_url_makes_every_link_internal
  (c : snapshot) (keywords : option (list string)) :
  page_url c = "" ->
  internal_count (a_links (analyze_content c keywords))
  = links_total_count (a_links (analyze_content c keywords)).
Proof.
  intros Hurl.
  cbn [analyze_content a_links analyze_links internal_count links_total_count].
  rewrite Hurl. f_equal.
  induction (page_links c) as [|l ls IH]; simpl; [reflexivity|].
  unfold is_internal at 1, startswith_any. cbn [existsb startswith].
  rewrite orb_true_r. f_equal. exact IH.
Qed.

Lemma empty_url_makes_every_link_internal_witness :
  internal_count (a_links (analyze_content (with_url "" guide_page) None)) = 2.
Proof.
  rewrite (empty_url_makes_every_link_internal (with_url "" guide_page) None eq_refl).
  reflexivity.
Defined.

Lemma startswith_https_http s : startswith s "https" = true -> startswith s "http" = true.
Proof.
  rewrite !startswith_spec. intros [rest ->]. exists ("s" ++ rest). reflexivity.
Qed.

Lemma is_external_http l : is_external l = startswith (href l) "http".
Proof.
  unfold is_external, startswith_any. cbn [existsb]. rewrite orb_false_r.
  destruct (startswith (href l) "http") eqn:E; [reflexivity|].
  destruct (startswith (href l) "https") eqn:E'; [|reflexivity].
  apply startswith_https_http in E'. congruence.
Qed.

(** Extra X7.  The external count is the number of links whose href starts
    with "http": the second prefix of the test, "https", never changes the
    result.  A link whose href starts with "/" is internal and is not
    external. *)
Theorem external_links_start_with_http
  (c : snapshot) (keywords : option (list string)) :
  external_count (a_links (analyze_content c keywords))
  = count_if (fun l => startswith (href l) "http") (page_links c)
  /\ (forall l, startswith (href l) "/" = true -> is_external l = false)
  /\ (forall l, startswith (href l) "/" = true -> is_internal (page_url c) l = true).
Proof.
  split; [|split].
  - cbn [analyze_content a_links analyze_links external_count]. unfold count_if.
    f_equal. apply filter_ext. intros l. apply is_external_http.
  - intros l H. rewrite is_external_http.
    apply startswith_spec in H. destruct H as [rest ->]. reflexivity.
  - intros l H. unfold is_internal, startswith_any. cbn [existsb]. now rewrite H.
Qed.

Lemma lower_page_headings c :
  all_headings (lower_page c) = map lower (all_headings c).
Proof.
  unfold all_headings, headings_values. simpl.
  rewrite !app_nil_r, !map_app. reflexivity.
Qed.

Lemma existsb_map {A B} (f : A -> B) (p : B -> bool) l :
  existsb p (map f l) = existsb (fun x => p (f x)) l.
Proof. induction l; simpl; congruence. Qed.

Lemma existsb_pointwise {A} (p q : A -> bool) l :
  (forall x, p x = q x) -> existsb p l = existsb q l.
Proof. intros H. induction l; simpl; [reflexivity|]. now rewrite H, IHl. Qed.

Lemma count_words_lower t : count_words (lower t) = count_words t.
Proof. unfold count_words. now rewrite lower_idempotent. Qed.

(** Extra X4.  The data of a keyword do not depend on letter case: the
    lower-cased keyword gets the same data as the keyword, two keywords
    that agree in lower case get the same data, and the page with its
    title, meta description, headings and text in lower case gives the
    same keyword data and the same word count. *)
Theorem keyword_analysis_ignores_case (c : snapshot) (kw : string) :
  analyze_keyword c (lower kw) = analyze_keyword c kw
  /\ analyze_keyword (lower_page c) kw = analyze_keyword c kw
  /\ a_content (analyze_content (lower_page c) None)
     = a_content (analyze_content c None)
  /\ (forall k1 k2, lower k1 = lower k2 -> analyze_keyword c k1 = analyze_keyword c k2).
Proof.
  split; [|split; [|split]].
  - unfold analyze_keyword. now rewrite lower_idempotent.
  - unfold analyze_keyword. fold (all_headings (lower_page c)) (all_headings c).
    rewrite lower_page_headings, existsb_map.
    cbn [lower_page page_content page_title page_meta_description].
    rewrite !lower_idempotent, count_words_lower.
    f_equal. apply existsb_pointwise. intros h. now rewrite lower_idempotent.
  - cbn [analyze_content a_content lower_page page_content]. unfold analyze_text.
    now rewrite count_words_lower.
  - intros k1 k2 H. unfold analyze_keyword. now rewrite H.
Qed.

Lemma generate_recommendations_raises a l :
  generate_recommendations a l = Raise OverflowError
  <-> (formatted_below 95 (performance l) && unformattable (performance l)
       || formatted_below 90 (seo l) && unformattable (seo l)
       || formatted_below 90 (accessibility l) && unformattable (accessibility l))
      = true.
Proof.
  unfold generate_recommendations. rewrite pure_rules_table.
  set (r0 := combine_all _). clearbody r0.
  unfold performance_rule, seo_rule, accessibility_rule, unformattable,
    formatted_below, bind.
  pose proof (num_lt_int_mono (performance l) 90 95 ltac:(lia)) as Hmono.
  destruct (num_lt (performance l) (PyInt 90)) eqn:E90;
    destruct (num_lt (performance l) (PyInt 95)) eqn:E95;
    try (specialize (Hmono eq_refl); discriminate);
    (destruct (format_0f_cases (performance l)) as [[s1 E1]|E1]; rewrite E1);
    destruct (num_lt (seo l) (PyInt 90));
    (destruct (format_0f_cases (seo l)) as [[s2 E2]|E2]; rewrite E2);
    destruct (num_lt (accessibility l) (PyInt 90));
    (destruct (format_0f_cases (accessibility l)) as [[s3 E3]|E3]; rewrite E3);
    simpl; split; intros H; try reflexivity; discriminate.
Qed.

Lemma generate_recommendations_returns a l :
  (formatted_below 95 (performance l) && unformattable (performance l)
   || formatted_below 90 (seo l) && unformattable (seo l)
   || formatted_below 90 (accessibility l) && unformattable (accessibility l))
  = false ->
  generate_recommendations a l = Ok (combine_all (rule_table a l)).
Proof.
  intros H.
  destruct (generate_recommendations a l) as [r|e] eqn:E.
  - f_equal. now apply generate_recommendations_table.
  - pose proof (generate_recommendations_raise_kind a l e E). subst e.
    apply generate_recommendations_raises in E. congruence.
Qed.

Lemma unformattable_float f : unformattable (PyFloat f) = false.
Proof. reflexivity. Qed.

Lemma In_when m b x : In m (when b x) <-> b = true /\ m = x.
Proof. destruct b; simpl; intuition congruence. Qed.

Lemma in_important_messages a l m :
  In m (important_messages a l) <->
  (has_title (a_title a) && negb (title_optimal_length (a_title a)) = true
   /\ m = msg_adjust_title)
  \/ (has_meta (a_meta_description a)
      && negb (meta_optimal_length (a_meta_description a)) = true
      /\ m = msg_adjust_meta)
  \/ (negb (has_proper_structure (a_headings a))
      && negb (h1_count (a_headings a) =? 0)
      && (1 <? h1_count (a_headings a)) = true /\ m = msg_one_h1)
  \/ (negb (has_sufficient_content (a_content a)) = true /\ m = msg_more_content)
  \/ (exists item, In item (keyword_items a)
        /\ ((absent_everywhere (snd item) = true
             /\ m = msg_include_keyword (fst item))
            \/ (over_used (snd item) = true
                /\ m = msg_reduce_keyword (fst item) (density (snd item)))))
  \/ ((0 <? missing_alt_count (a_images a)) = true
      /\ m = msg_alt_text (missing_alt_count (a_images a)))
  \/ (negb (num_lt (performance l) (PyInt 90))
      && num_lt (performance l) (PyInt 95) = true
      /\ m = msg_optimize_performance (score_text (performance l)))
  \/ (num_lt (seo l) (PyInt 90) = true
      /\ m = msg_technical_seo (score_text (seo l)))
  \/ (num_lt (accessibility l) (PyInt 90) = true
      /\ m = msg_accessibility (score_text (accessibility l))).
Proof.
  unfold important_messages. rewrite !in_app_iff, !In_when, in_flat_map.
  unfold keyword_important.
  assert (Hk : (exists x, In x (keyword_items a)
                  /\ In m (when (absent_everywhere (snd x)) (msg_include_keyword (fst x))
                           ++ when (over_used (snd x))
                                (msg_reduce_keyword (fst x) (density (snd x))))%list)
               <-> (exists item, In item (keyword_items a)
                      /\ ((absent_everywhere (snd item) = true
                           /\ m = msg_include_keyword (fst item))
                          \/ (over_used (snd item) = true
                              /\ m = msg_reduce_keyword (fst item) (density (snd item)))))).
  { split; intros (x & Hx & H); exists x; (split; [exact Hx|]);
      rewrite in_app_iff, !In_when in *; exact H. }
  rewrite Hk. tauto.
Qed.

Lemma in_critical_messages a l m :
  In m (critical_messages a l) <->
  (negb (has_title (a_title a)) = true /\ m = msg_add_title)
  \/ (negb (has_meta (a_meta_description a)) = true /\ m = msg_add_meta)
  \/ (negb (has_proper_structure (a_headings a)) && (h1_count (a_headings a) =? 0)
      = true /\ m = msg_add_h1)
  \/ (num_lt (performance l) (PyInt 90) = true
      /\ m = msg_improve_performance (score_text (performance l))).
Proof.
  unfold critical_messages. rewrite !in_app_iff, !In_when. tauto.
Qed.

Lemma in_minor_messages a m :
  In m (minor_messages a) <->
  (exists item, In item (keyword_items a)
     /\ under_used (snd item) = true
     /\ m = msg_increase_keyword (fst item) (density (snd item)))
  \/ ((internal_count (a_links a) =? 0) = true /\ m = msg_internal_links)
  \/ ((external_count (a_links a) =? 0) = true /\ m = msg_external_links).
Proof.
  unfold minor_messages. rewrite !in_app_iff, !In_when, in_flat_map.
  unfold keyword_minor.
  assert (Hk : (exists x, In x (keyword_items a)
                  /\ In m (when (under_used (snd x))
                             (msg_increase_keyword (fst x) (density (snd x)))))
               <-> (exists item, In item (keyword_items a)
                      /\ under_used (snd item) = true
                      /\ m = msg_increase_keyword (fst item) (density (snd item)))).
  { split; intros (x & Hx & H); exists x; (split; [exact Hx|]);
      rewrite In_when in *; exact H. }
  rewrite Hk. tauto.
Qed.

(** Two different message templates never give the same message. *)
Ltac clash :=
  match goal with
  | H : ?x = ?y |- _ =>
      unfold msg_add_title, msg_adjust_title, msg_add_meta, msg_adjust_meta,
        msg_add_h1, msg_one_h1, msg_more_content, msg_include_keyword,
        msg_increase_keyword, msg_reduce_keyword, msg_alt_text,
        msg_internal_links, msg_external_links, msg_improve_performance,
        msg_optimize_performance, msg_technical_seo, msg_accessibility in H;
      cbn [append] in H; discriminate H
  end.

Lemma length_append (a b : string) :
  String.length (a ++ b) = (String.length a + String.length b)%nat.
Proof. induction a; simpl; congruence. Qed.

Lemma append_inv_tail (a b s : string) : a ++ s = b ++ s -> a = b.
Proof.
  intros H.
  assert (Hlen : String.length a = String.length b).
  { apply (f_equal String.length) in H. rewrite !length_append in H. lia. }
  revert b H Hlen. induction a as [|x a IH]; intros [|y b] H Hlen;
    simpl in *; try discriminate; [reflexivity|].
  inversion H. f_equal. apply IH; [assumption|lia].
Qed.

Lemma append_inv_head (p a b : string) : p ++ a = p ++ b -> a = b.
Proof. induction p as [|c p IH]; simpl; [trivial|]. intros H. inversion H. auto. Qed.

Lemma msg_include_keyword_inj k1 k2 :
  msg_include_keyword k1 = msg_include_keyword k2 -> k1 = k2.
Proof.
  unfold msg_include_keyword. intros H.
  apply append_inv_head in H. now apply append_inv_tail in H.
Qed.

Lemma in_all_messages a l m :
  In m (all_messages (combine_all (rule_table a l)))
  <-> In m (critical_messages a l) \/ In m (important_messages a l)
      \/ In m (minor_messages a).
Proof.
  rewrite table_closed_form. unfold all_messages. cbn [critical important minor].
  rewrite !in_app_iff. tauto.
Qed.

Lemma keyword_items_of_page c keywords :
  keyword_items (analyze_content c keywords)
  = map (keyword_entry c) (first_occurrences (supplied keywords)).
Proof.
  unfold keyword_items. cbn [analyze_content a_keywords].
  destruct keywords as [[|k ks]|]; try reflexivity.
  apply analyze_keywords_first_occurrences.
Qed.

Lemma in_keyword_items c keywords item :
  In item (keyword_items (analyze_content c keywords))
  <-> In (fst item) (supplied keywords) /\ snd item = analyze_keyword c (fst item).
Proof.
  rewrite keyword_items_of_page, in_map_iff. split.
  - intros (k & <- & Hk). apply (proj1 (first_occurrences_In _ _)) in Hk.
    unfold keyword_entry. cbn [fst snd]. split; [exact Hk|reflexivity].
  - intros [Hk Hd]. exists (fst item). split.
    + unfold keyword_entry. rewrite <- Hd. now destruct item.
    + exact (proj2 (first_occurrences_In _ _) Hk).
Qed.

Lemma absent_everywhere_spec c kw :
  absent_everywhere (analyze_keyword c kw) = true
  <-> ~ substring_of (lower kw) (lower (page_title c))
      /\ ~ substring_of (lower kw) (lower (page_meta_description c))
      /\ (forall h, In h (all_headings c) -> ~ substring_of (lower kw) (lower h)).
Proof.
  unfold absent_everywhere. cbn [analyze_keyword in_title in_meta in_headings].
  fold (all_headings c).
  rewrite !andb_true_iff, !negb_true_iff, <- !not_true_iff_false.
  rewrite !contains_spec, existsb_contains_headings.
  split.
  - intros [[Ht Hm] Hh]. repeat split; try assumption.
    intros h Hin Hs. apply Hh. exists h. auto.
  - intros (Ht & Hm & Hh). repeat split; try assumption.
    intros (h & Hin & Hs). exact (Hh h Hin Hs).
Qed.

(** Extra X11.  Whenever [generate_recommendations] returns on the analysis
    of a page, the message to include the keyword [kw] is among the
    recommendations exactly when [kw] is one of the supplied keywords and
    its lower-cased form is a substring neither of the lower-cased title,
    nor of the lower-cased meta description, nor of any lower-cased
    heading; the message is then in the important list. *)
Theorem include_message_iff_keyword_absent
  (c : snapshot) (keywords : option (list string)) (l : audit)
  (r : recommendations) (kw : string) :
  generate_recommendations (analyze_content c keywords) l = Ok r ->
  (In (msg_include_keyword kw) (all_messages r)
   <-> In kw (supplied keywords)
       /\ ~ substring_of (lower kw) (lower (page_title c))
       /\ ~ substring_of (lower kw) (lower (page_meta_description c))
       /\ (forall h, In h (all_headings c) ->
                     ~ substring_of (lower kw) (lower h)))
  /\ (In (msg_include_keyword kw) (all_messages r)
      -> In (msg_include_keyword kw) (important r)).
Proof.
  intros H. apply generate_recommendations_table in H. subst r.
  set (a := analyze_content c keywords).
  assert (Himp : In (msg_include_keyword kw) (all_messages (combine_all (rule_table a l)))
                 -> In kw (supplied keywords)
                    /\ absent_everywhere (analyze_keyword c kw) = true).
  { rewrite in_all_messages, in_critical_messages, in_important_messages,
      in_minor_messages.
    intros [Hc|[Hi|Hm]].
    - destruct Hc as [[_ E]|[[_ E]|[[_ E]|[_ E]]]]; clash.
    - destruct Hi as [[_ E]|[[_ E]|[[_ E]|[[_ E]|[Hk|[[_ E]|[[_ E]|[[_ E]|[_ E]]]]]]]]];
        try clash.
      destruct Hk as (item & Hitem & [[Habs E]|[_ E]]); [|clash].
      apply msg_include_keyword_inj in E. subst kw.
      apply in_keyword_items in Hitem. destruct Hitem as [Hin Hd].
      rewrite <- Hd. auto.
    - destruct Hm as [(item & _ & _ & E)|[[_ E]|[_ E]]]; clash. }
  assert (Hconv : In kw (supplied keywords)
                  /\ absent_everywhere (analyze_keyword c kw) = true
                  -> In (msg_include_keyword kw) (important_messages a l)).
  { intros [Hin Habs]. apply in_important_messages.
    do 4 right. left. exists (keyword_entry c kw). split.
    - apply in_keyword_items. simpl. auto.
    - left. simpl. auto. }
  split.
  - rewrite <- absent_everywhere_spec. split; [exact Himp|].
    intros Hk. apply in_all_messages. right. left. auto.
  - intros Hin. rewrite table_closed_form. cbn [important]. auto.
Qed.

Lemma include_message_iff_keyword_absent_witness :
  In (msg_include_keyword "links")
     [msg_add_meta; msg_adjust_title; msg_more_content; msg_include_keyword "links";
      msg_increase_keyword "links" (PyFloat (S754_zero false))]
  <-> In "links" ["links"]
      /\ ~ substring_of (lower "links") (lower (page_title guide_page))
      /\ ~ substring_of (lower "links") (lower (page_meta_description guide_page))
      /\ (forall h, In h (all_headings guide_page) ->
                    ~ substring_of (lower "links") (lower h)).
Proof.
  exact (proj1 (include_message_iff_keyword_absent guide_page (Some ["links"])
                  (flat_audit 100)
                  {| critical := [msg_add_meta];
                     important :=
                       [msg_adjust_title; msg_more_content; msg_include_keyword "links"];
                     minor := [msg_increase_keyword "links" (PyFloat (S754_zero false))] |}
                  "links" ltac:(vm_compute; reflexivity))).
Defined.

Lemma list_len_filter_zero {A} (p : A -> bool) l :
  (list_len (filter p l) =? 0) = true <-> forall x, In x l -> p x = false.
Proof.
  unfold list_len. rewrite Z.eqb_eq. split.
  - intros H x Hx. destruct (p x) eqn:E; [|reflexivity].
    assert (Hin : In x (filter p l)) by (apply filter_In; auto).
    destruct (filter p l); [destruct Hin|simpl in H; lia].
  - intros H. replace (filter p l) with (@nil A); [reflexivity|].
    symmetry. induction l as [|x l IH]; simpl; [reflexivity|].
    rewrite (H x (or_introl eq_refl)). apply IH. intros y Hy. apply H. now right.
Qed.

Lemma list_len_pos_nonempty {A} (l : list A) : (0 <? list_len l) = true <-> l <> [].
Proof.
  unfold list_len. rewrite Z.ltb_lt. destruct l; simpl; split; try congruence; lia.
Qed.

Lemma more_content_message_iff c keywords l :
  In msg_more_content
     (all_messages (combine_all (rule_table (analyze_content c keywords) l)))
  <-> count_words (page_content c) < 300.
Proof.
  set (a := analyze_content c keywords).
  rewrite in_all_messages, in_critical_messages, in_important_messages,
    in_minor_messages.
  split.
  - intros [Hc|[Hi|Hm]].
    + destruct Hc as [[_ E]|[[_ E]|[[_ E]|[_ E]]]]; clash.
    + destruct Hi as [[_ E]|[[_ E]|[[_ E]|[[Hs _]|[Hk|[[_ E]|[[_ E]|[[_ E]|[_ E]]]]]]]]];
        try clash.
      * apply negb_true_iff in Hs. subst a. simpl in Hs. apply Z.leb_gt in Hs. exact Hs.
      * destruct Hk as (item & _ & [[_ E]|[_ E]]); clash.
    + destruct Hm as [(item & _ & _ & E)|[[_ E]|[_ E]]]; clash.
  - intros Hlt. right. left. do 3 right. left. split; [|reflexivity].
    apply negb_true_iff. subst a. simpl. apply Z.leb_gt. exact Hlt.
Qed.

(** Extra X12.  Whenever [generate_recommendations] returns on the analysis
    of a page: the message about thin content is present exactly when the
    text has fewer than 300 words; the message about internal links
    exactly when no link of the page is internal, the message about
    external links exactly when no link is external; when some image has
    no alt text the important list holds the message with the number of
    such images, and when every image has one no message about alt text
    is present. *)
Theorem page_rules_read_the_page
  (c : snapshot) (keywords : option (list string)) (l : audit)
  (r : recommendations) :
  generate_recommendations (analyze_content c keywords) l = Ok r ->
  (In msg_more_content (all_messages r) <-> count_words (page_content c) < 300)
  /\ (In msg_internal_links (all_messages r)
      <-> forall lk, In lk (page_links c) -> is_internal (page_url c) lk = false)
  /\ (In msg_external_links (all_messages r)
      <-> forall lk, In lk (page_links c) -> is_external lk = false)
  /\ (images_without_alt c <> [] ->
      In (msg_alt_text (list_len (images_without_alt c))) (important r))
  /\ (images_without_alt c = [] ->
      forall m, In m (all_messages r) -> is_alt_text_msg m = false).
Proof.
  intros H. apply generate_recommendations_table in H. subst r.
  set (a := analyze_content c keywords).
  split; [|split; [|split; [|split]]].
  - apply more_content_message_iff.
  - rewrite in_all_messages, in_critical_messages, in_important_messages,
      in_minor_messages.
    rewrite <- list_len_filter_zero. split.
    + intros [Hc|[Hi|Hm]].
      * destruct Hc as [[_ E]|[[_ E]|[[_ E]|[_ E]]]]; clash.
      * destruct Hi as [[_ E]|[[_ E]|[[_ E]|[[_ E]|[Hk|[[_ E]|[[_ E]|[[_ E]|[_ E]]]]]]]]];
          try clash.
        destruct Hk as (item & _ & [[_ E]|[_ E]]); clash.
      * destruct Hm as [(item & _ & _ & E)|[[Hz _]|[_ E]]]; try clash. exact Hz.
    + intros Hz. do 2 right. right. left. split; [exact Hz|reflexivity].
  - rewrite in_all_messages, in_critical_messages, in_important_messages,
      in_minor_messages.
    rewrite <- list_len_filter_zero. split.
    + intros [Hc|[Hi|Hm]].
      * destruct Hc as [[_ E]|[[_ E]|[[_ E]|[_ E]]]]; clash.
      * destruct Hi as [[_ E]|[[_ E]|[[_ E]|[[_ E]|[Hk|[[_ E]|[[_ E]|[[_ E]|[_ E]]]]]]]]];
          try clash.
        destruct Hk as (item & _ & [[_ E]|[_ E]]); clash.
      * destruct Hm as [(item & _ & _ & E)|[[_ E]|[Hz _]]]; try clash. exact Hz.
    + intros Hz. do 2 right. right. right. split; [exact Hz|reflexivity].
  - intros Hne. rewrite table_closed_form. cbn [important].
    apply in_important_messages. do 5 right. left.
    split; [|reflexivity]. apply list_len_pos_nonempty. exact Hne.
  - intros Hnil m.
    rewrite in_all_messages, in_critical_messages, in_important_messages,
      in_minor_messages.
    intros [Hc|[Hi|Hm]].
    + destruct Hc as [[_ ->]|[[_ ->]|[[_ ->]|[_ ->]]]]; reflexivity.
    + destruct Hi as [[_ ->]|[[_ ->]|[[_ ->]|[[_ ->]|[Hk|[[Hp _]|[[_ ->]|[[_ ->]|[_ ->]]]]]]]]];
        try reflexivity.
      * destruct Hk as (item & _ & [[_ ->]|[_ ->]]); reflexivity.
      * exfalso. subst a. simpl in Hp. apply list_len_pos_nonempty in Hp.
        apply Hp. exact Hnil.
    + destruct Hm as [(item & _ & _ & ->)|[[_ ->]|[_ ->]]]; reflexivity.
Qed.

Lemma page_rules_read_the_page_witness :
  In msg_more_content
     [msg_add_meta; msg_adjust_title; msg_more_content; msg_include_keyword "links";
      msg_increase_keyword "links" (PyFloat (S754_zero false))]
  <-> count_words (page_content guide_page) < 300.
Proof.
  exact (proj1 (page_rules_read_the_page guide_page (Some ["links"])
                  (flat_audit 100)
                  {| critical := [msg_add_meta];
                     important :=
                       [msg_adjust_title; msg_more_content; msg_include_keyword "links"];
                     minor := [msg_increase_keyword "links" (PyFloat (S754_zero false))] |}
                  ltac:(vm_compute; reflexivity))).
Defined.

Lemma msg_technical_seo_inj s1 s2 :
  msg_technical_seo s1 = msg_technical_seo s2 -> s1 = s2.
Proof.
  unfold msg_technical_seo. intros H.
  apply append_inv_head in H. now apply append_inv_tail in H.
Qed.

Lemma msg_accessibility_inj s1 s2 :
  msg_accessibility s1 = msg_accessibility s2 -> s1 = s2.
Proof.
  unfold msg_accessibility. intros H.
  apply append_inv_head in H. now apply append_inv_tail in H.
Qed.

(** Extra X13.  Whenever [generate_recommendations] returns, a message about
    technical SEO is present exactly when the SEO score is below 90, and
    the only such message shows that score as ['{:.0f}'.format] prints it;
    the same holds for the accessibility score.  Both messages are in the
    important list.  An integer score between 0 and 100 is shown as its
    decimal numeral. *)
Theorem score_rules_report_the_score
  (a : analysis) (l : audit) (r : recommendations) :
  generate_recommendations a l = Ok r ->
  (forall s, In (msg_technical_seo s) (all_messages r)
             <-> num_lt (seo l) (PyInt 90) = true /\ s = score_text (seo l))
  /\ (forall s, In (msg_accessibility s) (all_messages r)
                <-> num_lt (accessibility l) (PyInt 90) = true
                    /\ s = score_text (accessibility l))
  /\ (forall s, In (msg_technical_seo s) (all_messages r)
                -> In (msg_technical_seo s) (important r))
  /\ (forall s, In (msg_accessibility s) (all_messages r)
                -> In (msg_accessibility s) (important r))
  /\ (forall z, 0 <= z <= 100 -> score_text (PyInt z) = str_of_int z).
Proof.
  intros H. apply generate_recommendations_table in H. subst r.
  assert (Hseo : forall s,
             In (msg_technical_seo s) (all_messages (combine_all (rule_table a l)))
             -> num_lt (seo l) (PyInt 90) = true /\ s = score_text (seo l)).
  { intros s.
    rewrite in_all_messages, in_critical_messages, in_important_messages,
      in_minor_messages.
    intros [Hc|[Hi|Hm]].
    - destruct Hc as [[_ E]|[[_ E]|[[_ E]|[_ E]]]]; clash.
    - destruct Hi as [[_ E]|[[_ E]|[[_ E]|[[_ E]|[Hk|[[_ E]|[[_ E]|[[Hs E]|[_ E]]]]]]]]];
        try clash.
      + destruct Hk as (item & _ & [[_ E]|[_ E]]); clash.
      + apply msg_technical_seo_inj in E. auto.
    - destruct Hm as [(item & _ & _ & E)|[[_ E]|[_ E]]]; clash. }
  assert (Hacc : forall s,
             In (msg_accessibility s) (all_messages (combine_all (rule_table a l)))
             -> num_lt (accessibility l) (PyInt 90) = true
                /\ s = score_text (accessibility l)).
  { intros s.
    rewrite in_all_messages, in_critical_messages, in_important_messages,
      in_minor_messages.
    intros [Hc|[Hi|Hm]].
    - destruct Hc as [[_ E]|[[_ E]|[[_ E]|[_ E]]]]; clash.
    - destruct Hi as [[_ E]|[[_ E]|[[_ E]|[[_ E]|[Hk|[[_ E]|[[_ E]|[[_ E]|[Hs E]]]]]]]]];
        try clash.
      + destruct Hk as (item & _ & [[_ E]|[_ E]]); clash.
      + apply msg_accessibility_inj in E. auto.
    - destruct Hm as [(item & _ & _ & E)|[[_ E]|[_ E]]]; clash. }
  assert (Hseo' : forall s,
             num_lt (seo l) (PyInt 90) = true /\ s = score_text (seo l)
             -> In (msg_technical_seo s) (important_messages a l)).
  { intros s [Hs ->]. apply in_important_messages. do 7 right. left. auto. }
  assert (Hacc' : forall s,
             num_lt (accessibility l) (PyInt 90) = true
             /\ s = score_text (accessibility l)
             -> In (msg_accessibility s) (important_messages a l)).
  { intros s [Hs ->]. apply in_important_messages. do 8 right. auto. }
  split; [|split; [|split; [|split]]].
  - intros s. split; [apply Hseo|]. intros Hs. apply in_all_messages. right. left. auto.
  - intros s. split; [apply Hacc|]. intros Hs. apply in_all_messages. right. left. auto.
  - intros s Hin. rewrite table_closed_form. cbn [important]. auto.
  - intros s Hin. rewrite table_closed_form. cbn [important]. auto.
  - intros z Hz. unfold score_text. now rewrite format_0f_small_int.
Qed.

Lemma score_rules_report_the_score_witness :
  In (msg_technical_seo "50") (all_messages
        {| critical :=
             ["Add a title tag to your page";
              "Add a meta description to your page";
              "Add an H1 heading to your page";
              "Improve page performance (current score: 50/100)"];
           important :=
             ["Add more content to your page (aim for at least 300 words)";
              "Address technical SEO issues (current score: 50/100)";
              "Improve accessibility (current score: 50/100)"];
           minor :=
             ["Add internal links to improve site navigation";
              "Consider adding relevant external links"] |})
  <-> num_lt (PyInt 50) (PyInt 90) = true /\ "50" = score_text (PyInt 50).
Proof.
  exact (proj1 (score_rules_report_the_score
                  (analyze_content empty_page None) (flat_audit 50) _
                  ltac:(vm_compute; reflexivity)) "50").
Defined.

Lemma when_nil b m : when b m = [] <-> b = false.
Proof. destruct b; simpl; split; congruence. Qed.

Lemma flat_map_nil_iff {A B} (f : A -> list B) l :
  flat_map f l = [] <-> forall x, In x l -> f x = [].
Proof.
  induction l as [|x l IH]; simpl; [tauto|].
  split.
  - intros H. apply app_eq_nil in H. destruct H as [Hx Hl].
    intros y [<-|Hy]; [exact Hx|]. now apply IH.
  - intros H. rewrite (H x (or_introl eq_refl)). simpl. apply IH.
    intros y Hy. apply H. now right.
Qed.

Lemma app_nil_iff {A} (l1 l2 : list A) : (l1 ++ l2)%list = [] <-> l1 = [] /\ l2 = [].
Proof. split; [apply app_eq_nil|intros [-> ->]; reflexivity]. Qed.

Lemma table_empty_iff a l :
  combine_all (rule_table a l) = no_recommendations <-> silent a l = true.
Proof.
  rewrite table_closed_form. unfold no_recommendations, silent.
  unfold critical_messages, important_messages, minor_messages.
  rewrite !andb_true_iff, forallb_forall.
  split.
  - intros H. injection H as Hc Hi Hm.
    repeat first [rewrite app_nil_iff in Hc | rewrite when_nil in Hc].
    repeat first [rewrite app_nil_iff in Hi | rewrite when_nil in Hi].
    repeat first [rewrite app_nil_iff in Hm | rewrite when_nil in Hm].
    rewrite flat_map_nil_iff in Hi, Hm.
    destruct Hc as (H1 & H2 & H3 & H4).
    destruct Hi as (H5 & H6 & H7 & H8 & H9 & H10 & H11 & H12 & H13).
    destruct Hm as (H14 & H15 & H16).
    rewrite H3, H7, H10, H15, H16, H4, H12, H13.
    apply negb_false_iff in H1, H2, H8. rewrite H1, H2, H8 in *. simpl in H5, H6.
    apply negb_false_iff in H5, H6. rewrite H5, H6.
    rewrite H4 in H11. simpl in H11. rewrite H11.
    repeat split; try reflexivity.
    intros item Hitem. specialize (H9 item Hitem). specialize (H14 item Hitem).
    unfold keyword_important in H9. unfold keyword_minor in H14.
    rewrite app_nil_iff, !when_nil in H9. rewrite when_nil in H14.
    destruct H9 as [Ha Ho]. now rewrite Ha, Ho, H14.
  - intros H.
    repeat match goal with H : _ /\ _ |- _ => destruct H end.
    repeat match goal with
           | H : negb _ = true |- _ => apply negb_true_iff in H
           end.
    repeat match goal with
           | H : ?b = _ |- _ =>
               lazymatch b with
               | context [keyword_items] => fail
               | _ => rewrite H
               end
           end.
    simpl.
    match goal with
    | H : forall x, In x (keyword_items a) -> _ |- _ => rename H into Hk
    end.
    rewrite (proj2 (flat_map_nil_iff keyword_important (keyword_items a))).
    + rewrite (proj2 (flat_map_nil_iff keyword_minor (keyword_items a))); [reflexivity|].
      intros item Hitem. specialize (Hk item Hitem).
      rewrite !andb_true_iff, !negb_true_iff in Hk. unfold keyword_minor.
      destruct Hk as [[_ Hu] _]. now rewrite Hu.
    + intros item Hitem. specialize (Hk item Hitem).
      rewrite !andb_true_iff, !negb_true_iff in Hk. unfold keyword_important.
      destruct Hk as [[Ha _] Ho]. now rewrite Ha, Ho.
Qed.

Lemma forallb_first_occurrences p l :
  forallb p (first_occurrences l) = forallb p l.
Proof.
  apply eq_true_iff_eq. rewrite !forallb_forall.
  split; intros H x Hx; apply H; now apply first_occurrences_In.
Qed.

Lemma forallb_map {A B} (f : A -> B) (p : B -> bool) l :
  forallb p (map f l) = forallb (fun x => p (f x)) l.
Proof. induction l; simpl; congruence. Qed.

Lemma forallb_pointwise {A} (p q : A -> bool) l :
  (forall x, p x = q x) -> forallb p l = forallb q l.
Proof. intros H. induction l; simpl; [reflexivity|]. now rewrite H, IHl. Qed.

Lemma no_missing_alt images :
  negb (0 <? list_len (filter (fun img => negb (truthy (alt img))) images))
  = forallb (fun img => truthy (alt img)) images.
Proof.
  induction images as [|img images IH]; [reflexivity|].
  cbn [filter forallb]. destruct (truthy (alt img)); cbn [negb andb]; [exact IH|].
  unfold list_len. simpl List.length.
  apply negb_false_iff, Z.ltb_lt. lia.
Qed.

Lemma some_link (p : link -> bool) links :
  negb (list_len (filter p links) =? 0) = existsb p links.
Proof.
  induction links as [|lk links IH]; [reflexivity|].
  cbn [filter existsb]. destruct (p lk); cbn [orb]; [|exact IH].
  unfold list_len. simpl List.length.
  apply negb_true_iff, Z.eqb_neq. lia.
Qed.

Lemma optimal_title_bounds t lo hi :
  0 < lo ->
  truthy t && (if truthy t then (lo <=? len t) && (len t <=? hi) else false)
  = (lo <=? len t) && (len t <=? hi).
Proof.
  intros Hlo. destruct t as [|ch t]; [|reflexivity].
  simpl. symmetry. apply andb_false_iff. left. apply Z.leb_gt. exact Hlo.
Qed.

Lemma one_h1 n :
  0 <= n ->
  negb (negb (n =? 1) && (n =? 0)) && negb (negb (n =? 1) && negb (n =? 0) && (1 <? n))
  = (n =? 1).
Proof.
  intros Hn.
  destruct (Z.eqb_spec n 1), (Z.eqb_spec n 0), (Z.ltb_spec 1 n); simpl;
    try reflexivity; lia.
Qed.

Lemma keyword_item_silent c kw :
  negb (absent_everywhere (analyze_keyword c kw))
  && negb (under_used (analyze_keyword c kw))
  && negb (over_used (analyze_keyword c kw))
  = keyword_in_place c kw.
Proof.
  unfold keyword_in_place, absent_everywhere, over_used, under_used. cbv zeta.
  destruct (in_title _), (in_meta _), (in_headings _),
    (num_lt (density _) _), (num_gt (density _) _); reflexivity.
Qed.

Lemma not_below_95 x :
  negb (num_lt x (PyInt 90)) && negb (num_lt x (PyInt 95)) = negb (num_lt x (PyInt 95)).
Proof.
  pose proof (num_lt_int_mono x 90 95 ltac:(lia)) as H.
  destruct (num_lt x (PyInt 90)), (num_lt x (PyInt 95)); try reflexivity.
  specialize (H eq_refl). discriminate.
Qed.

Lemma silent_on_page c keywords l :
  silent (analyze_content c keywords) l = nothing_to_recommend c keywords l.
Proof.
  unfold silent, nothing_to_recommend.
  rewrite keyword_items_of_page, forallb_map, forallb_first_occurrences.
  rewrite (forallb_pointwise _ (keyword_in_place c))
    by (intros kw; apply keyword_item_silent).
  cbn [analyze_content a_title a_meta_description a_headings a_content a_links a_images
       analyze_title analyze_meta analyze_headings analyze_text analyze_links
       analyze_images has_title title_optimal_length has_meta meta_optimal_length
       h1_count has_proper_structure has_sufficient_content missing_alt_count
       internal_count external_count].
  rewrite (optimal_title_bounds (page_title c) 50 60) by lia.
  rewrite (optimal_title_bounds (page_meta_description c) 150 160) by lia.
  rewrite no_missing_alt, !some_link.
  rewrite one_h1 by (unfold list_len; lia).
  rewrite not_below_95.
  reflexivity.
Qed.

(** Extra X14.  [generate_recommendations] returns three empty lists on the
    analysis of a page exactly when: the title has 50 to 60 characters,
    the meta description 150 to 160, there is exactly one H1 heading, the
    text has at least 300 words, every supplied keyword is in the title,
    the meta description or a heading and has a density neither below 0.5
    nor above 3, every image has alt text, some link is internal and some
    link is external, the performance score is not below 95 and the SEO
    and accessibility scores are not below 90.  The worked page
    [perfect_page] with the keyword "SEO" and every score at 95 is such a
    case. *)
Theorem empty_result_iff_nothing_to_recommend
  (c : snapshot) (keywords : option (list string)) (l : audit) :
  (generate_recommendations (analyze_content c keywords) l = Ok no_recommendations
   <-> nothing_to_recommend c keywords l = true)
  /\ generate_recommendations (analyze_content perfect_page (Some ["SEO"]))
                              (flat_audit 95)
     = Ok no_recommendations.
Proof.
  split; [|vm_compute; reflexivity].
  rewrite <- silent_on_page, <- table_empty_iff. split.
  - intros H. symmetry. now apply generate_recommendations_table.
  - intros H. rewrite <- H. apply generate_recommendations_returns.
    apply table_empty_iff in H. unfold silent in H.
    rewrite !andb_true_iff, !negb_true_iff in H.
    destruct H as [[[_ [Hp Hp']] Hs] Ha].
    unfold formatted_below. now rewrite Hp', Hs, Ha.
Qed.

(** ** Stripping *)

Lemma lstrip_no_leading_space s : no_leading_space (lstrip s).
Proof.
  induction s as [|c s IH]; simpl; [exact I|].
  destruct (is_space c) eqn:E; [exact IH|exact E].
Qed.

Lemma lstrip_id s : no_leading_space s -> lstrip s = s.
Proof. destruct s as [|c s]; simpl; [reflexivity|]. now intros ->. Qed.

Lemma rstrip_no_leading_space s : no_leading_space s -> no_leading_space (rstrip s).
Proof.
  destruct s as [|c s]; simpl; [trivial|]. intros E.
  destruct (rstrip s); [rewrite E|]; exact E.
Qed.

Lemma rstrip_cons c s :
  rstrip (String c s)
  = match rstrip s with
    | EmptyString => if is_space c then EmptyString else String c EmptyString
    | r => String c r
    end.
Proof. reflexivity. Qed.

Lemma rstrip_idempotent s : rstrip (rstrip s) = rstrip s.
Proof.
  induction s as [|c s IH]; [reflexivity|].
  rewrite rstrip_cons.
  destruct (rstrip s) as [|d r] eqn:E.
  - destruct (is_space c) eqn:Ec; [reflexivity|].
    rewrite rstrip_cons. simpl. now rewrite Ec.
  - rewrite rstrip_cons, IH. reflexivity.
Qed.

Lemma strip_idempotent s : strip (strip s) = strip s.
Proof.
  unfold strip.
  rewrite (lstrip_id (rstrip (lstrip s))).
  - apply rstrip_idempotent.
  - apply rstrip_no_leading_space, lstrip_no_leading_space.
Qed.

Lemma has_char_lstrip ch s : has_char ch (lstrip s) = true -> has_char ch s = true.
Proof.
  induction s as [|c s IH]; simpl; [trivial|].
  destruct (is_space c); [|trivial]. intros H. rewrite (IH H). apply orb_true_r.
Qed.

Lemma has_char_rstrip ch s : has_char ch (rstrip s) = true -> has_char ch s = true.
Proof.
  induction s as [|c s IH]; simpl; [trivial|].
  destruct (rstrip s) as [|d r].
  - destruct (is_space c); simpl; [discriminate|].
    rewrite orb_false_r. intros ->. reflexivity.
  - cbn [has_char] in *. intros H. apply orb_true_iff in H. destruct H as [H|H].
    + now rewrite H.
    + rewrite (IH H). apply orb_true_r.
Qed.

Lemma has_char_strip ch s : has_char ch (strip s) = true -> has_char ch s = true.
Proof. intros H. now apply has_char_lstrip, has_char_rstrip. Qed.

(** ** Splitting *)

Lemma split_comma_nonempty s : split_comma s <> [].
Proof.
  destruct s as [|c s]; simpl; [discriminate|].
  destruct (Ascii.eqb c ","); [discriminate|].
  destruct (split_comma s); discriminate.
Qed.

Lemma split_comma_no_comma s piece :
  In piece (split_comma s) -> has_char "," piece = false.
Proof.
  revert piece. induction s as [|c s IH]; simpl; intros piece.
  - intros [<-|[]]. reflexivity.
  - destruct (Ascii.eqb c ",") eqn:E.
    + intros [<-|H]; [reflexivity|now apply IH].
    + destruct (split_comma s) as [|p ps].
      * intros [<-|[]]. simpl. now rewrite E.
      * intros [<-|H].
        -- simpl. rewrite E. simpl. apply IH. now left.
        -- apply IH. now right.
Qed.

(** ** What the front end sends *)

(** Extra X15.  Every keyword the front end makes from the keyword field is
    not empty, has no white space at either end and holds no comma; there
    are at most as many keywords as pieces between the commas of the
    field. *)
Theorem parsed_keywords_are_clean (field : string) (ks : list string) :
  parse_keywords field = Some ks ->
  Forall (fun k => clean_keyword k = true) ks
  /\ (List.length ks <= List.length (split_comma field))%nat.
Proof.
  unfold parse_keywords. destruct (truthy field); [|discriminate].
  intros H. injection H as <-. split.
  - apply Forall_forall. intros k Hk.
    apply in_map_iff in Hk. destruct Hk as (p & <- & Hp).
    apply filter_In in Hp. destruct Hp as [Hp Ht].
    unfold clean_keyword. rewrite Ht, strip_idempotent, String.eqb_refl. simpl.
    apply negb_true_iff.
    destruct (has_char "," (strip p)) eqn:E; [|reflexivity].
    apply has_char_strip in E. rewrite (split_comma_no_comma _ _ Hp) in E. discriminate.
  - rewrite length_map. apply filter_length_le.
Qed.

Lemma parsed_keywords_are_clean_witness :
  Forall (fun k => clean_keyword k = true) ["seo"; "page speed"].
Proof.
  exact (proj1 (parsed_keywords_are_clean " seo ,, page speed,  "
                  ["seo"; "page speed"] eq_refl)).
Defined.

(** *** Joining and parsing again *)

Lemma length_lstrip s : (String.length (lstrip s) <= String.length s)%nat.
Proof. induction s as [|c s IH]; simpl; [lia|]. destruct (is_space c); simpl; lia. Qed.

Lemma length_rstrip s : (String.length (rstrip s) <= String.length s)%nat.
Proof.
  induction s as [|c s IH]; simpl; [lia|].
  destruct (rstrip s); [destruct (is_space c)|]; simpl in *; lia.
Qed.

Lemma strip_fixed_no_leading_space k : strip k = k -> no_leading_space k.
Proof.
  destruct k as [|c k]; [intros _; exact I|]. unfold strip. simpl.
  destruct (is_space c) eqn:E; [|intros _; reflexivity]. intros H.
  apply (f_equal String.length) in H. simpl in H.
  pose proof (length_rstrip (lstrip k)). pose proof (length_lstrip k). lia.
Qed.

Lemma strip_after_space k : strip k = k -> strip (String " " k) = k.
Proof. intros H. unfold strip. simpl. exact H. Qed.

Lemma split_comma_single a : has_char "," a = false -> split_comma a = [a].
Proof.
  induction a as [|c a IH]; simpl; [reflexivity|].
  intros H. apply orb_false_iff in H. destruct H as [Hc Ha].
  rewrite Hc, (IH Ha). reflexivity.
Qed.

Lemma split_comma_app a b :
  has_char "," a = false -> split_comma (a ++ String "," b) = a :: split_comma b.
Proof.
  induction a as [|c a IH]; simpl; [reflexivity|].
  intros H. apply orb_false_iff in H. destruct H as [Hc Ha].
  rewrite Hc, (IH Ha). reflexivity.
Qed.

Lemma split_comma_join k ks :
  Forall (fun k => has_char "," k = false) (k :: ks) ->
  split_comma (join_keywords (k :: ks)) = k :: map (String " ") ks.
Proof.
  revert k. induction ks as [|k2 ks IH]; intros k H.
  - simpl. apply split_comma_single. now inversion H.
  - inversion H as [|? ? Hk Hks]; subst.
    change (join_keywords (k :: k2 :: ks))
      with (k ++ String "," (String " " (join_keywords (k2 :: ks)))).
    rewrite (split_comma_app _ _ Hk).
    cbn [split_comma]. change (Ascii.eqb " " ",") with false. cbv iota.
    rewrite (IH k2 Hks). reflexivity.
Qed.

Lemma clean_keyword_spec k :
  clean_keyword k = true
  <-> k <> "" /\ strip k = k /\ has_char "," k = false.
Proof.
  unfold clean_keyword. rewrite !andb_true_iff, negb_true_iff, String.eqb_eq, truthy_spec.
  tauto.
Qed.

Lemma strip_pieces ps ks :
  Forall2 (fun p k => strip p = k /\ truthy k = true) ps ks ->
  map strip (filter (fun p => truthy (strip p)) ps) = ks.
Proof.
  induction 1 as [|p k ps ks [Hs Ht] _ IH]; simpl; [reflexivity|].
  rewrite Hs, Ht. simpl. now rewrite Hs, IH.
Qed.

(** Extra X16.  Joining a non-empty list of keywords with ", " and parsing
    the field again gives the list back, provided every keyword is not
    empty, has no white space at either end and holds no comma. *)
Theorem parse_keywords_after_join (ks : list string) :
  ks <> [] ->
  Forall (fun k => clean_keyword k = true) ks ->
  parse_keywords (join_keywords ks) = Some ks.
Proof.
  intros Hne Hclean. destruct ks as [|k ks]; [congruence|].
  assert (Hcomma : Forall (fun k => has_char "," k = false) (k :: ks)).
  { eapply Forall_impl; [|exact Hclean]. intros x Hx.
    now apply clean_keyword_spec in Hx. }
  unfold parse_keywords. rewrite (split_comma_join k ks Hcomma).
  assert (Ht : truthy (join_keywords (k :: ks)) = true).
  { inversion Hclean as [|? ? Hk _]; subst. apply clean_keyword_spec in Hk.
    destruct Hk as (Hk & _ & _). destruct k as [|c k]; [congruence|].
    unfold join_keywords. destruct ks; reflexivity. }
  rewrite Ht. f_equal. apply strip_pieces.
  inversion Hclean as [|? ? Hk Hks]; subst. constructor.
  - apply clean_keyword_spec in Hk. destruct Hk as (Hk & Hs & _).
    split; [exact Hs|]. now apply truthy_spec.
  - clear - Hks. induction Hks as [|x xs Hx _ IH]; simpl; constructor; [|exact IH].
    apply clean_keyword_spec in Hx. destruct Hx as (Hx & Hs & _).
    split; [now apply strip_after_space|now apply truthy_spec].
Qed.

Lemma parse_keywords_after_join_witness :
  parse_keywords "seo, page speed" = Some ["seo"; "page speed"].
Proof.
  exact (parse_keywords_after_join ["seo"; "page speed"]
           ltac:(discriminate)
           ltac:(repeat constructor)).
Defined.

Lemma lstrip_empty s : lstrip s = "" <-> all_space s = true.
Proof.
  induction s as [|c s IH]; simpl; [tauto|].
  destruct (is_space c); simpl; [exact IH|]. split; discriminate.
Qed.

Lemma rstrip_empty s : rstrip s = "" <-> all_space s = true.
Proof.
  induction s as [|c s IH]; simpl; [tauto|].
  destruct (rstrip s) as [|d r].
  - destruct (is_space c); simpl; [tauto|]. split; discriminate.
  - rewrite andb_true_iff. split; [discriminate|].
    intros [_ H]. apply IH in H. discriminate.
Qed.

Lemma all_space_no_leading s : all_space s = true -> no_leading_space s -> s = "".
Proof.
  destruct s as [|c s]; simpl; [reflexivity|].
  intros H E. rewrite E in H. discriminate.
Qed.

Lemma strip_empty s : strip s = "" <-> all_space s = true.
Proof.
  unfold strip. rewrite rstrip_empty. split.
  - intros H. apply lstrip_empty.
    apply all_space_no_leading; [exact H|apply lstrip_no_leading_space].
  - intros H. apply lstrip_empty in H. now rewrite H.
Qed.

Lemma truthy_strip s : truthy (strip s) = negb (all_space s).
Proof.
  destruct (all_space s) eqn:E; simpl.
  - apply strip_empty in E. now rewrite E.
  - destruct (strip s) eqn:Es; [|reflexivity].
    apply strip_empty in Es. congruence.
Qed.

Lemma blank_field_pieces s :
  blank_field s = forallb all_space (split_comma s).
Proof.
  induction s as [|c s IH]; [reflexivity|].
  cbn [blank_field split_comma].
  destruct (Ascii.eqb c ",") eqn:E.
  - rewrite orb_true_r. simpl. exact IH.
  - rewrite orb_false_r, IH.
    pose proof (split_comma_nonempty s) as Hne.
    destruct (split_comma s) as [|p ps]; [congruence|].
    simpl. now rewrite andb_assoc.
Qed.

Lemma filter_nil_iff {A} (p : A -> bool) l :
  filter p l = [] <-> forallb (fun x => negb (p x)) l = true.
Proof.
  induction l as [|x l IH]; simpl; [tauto|].
  destruct (p x); simpl; [split; discriminate|exact IH].
Qed.

Lemma parsed_nothing field :
  supplied (parse_keywords field) = [] <-> blank_field field = true.
Proof.
  unfold parse_keywords. destruct (truthy field) eqn:Ht.
  - cbn [supplied]. rewrite blank_field_pieces. split.
    + intros H. apply map_eq_nil in H. apply filter_nil_iff in H.
      erewrite forallb_pointwise; [exact H|].
      intros p. cbv beta. now rewrite truthy_strip, negb_involutive.
    + intros H. replace (filter _ _) with (@nil string); [reflexivity|].
      symmetry. apply filter_nil_iff.
      erewrite forallb_pointwise; [exact H|].
      intros p. cbv beta. now rewrite truthy_strip, negb_involutive.
  - destruct field; [|discriminate]. simpl. tauto.
Qed.

(** Extra X17.  The front end makes no keyword exactly when the field holds
    only white space and commas, and exactly then the analysis of a page
    with the parsed keywords has no [keywords] entry; it is then the
    analysis without keywords.  The parsed value is [None] only for the
    empty field; the field " , ," gives the empty list. *)
Theorem blank_field_means_no_keywords (c : snapshot) (field : string) :
  (supplied (parse_keywords field) = [] <-> blank_field field = true)
  /\ (a_keywords (analyze_content c (parse_keywords field)) = None
      <-> blank_field field = true)
  /\ (blank_field field = true ->
      analyze_content c (parse_keywords field) = analyze_content c None)
  /\ (parse_keywords field = None <-> field = "")
  /\ parse_keywords " , ," = Some [].
Proof.
  split; [apply parsed_nothing|].
  split.
  { rewrite <- parsed_nothing. cbn [analyze_content a_keywords].
    destruct (parse_keywords field) as [[|k ks]|]; simpl; split;
      try reflexivity; discriminate. }
  split.
  { intros H. apply parsed_nothing in H.
    destruct (parse_keywords field) as [[|k ks]|]; simpl in H;
      try reflexivity; discriminate. }
  split; [|reflexivity].
  unfold parse_keywords. destruct field; simpl; split; congruence.
Qed.

Lemma last_cons {A} (x d : A) l : last (x :: l) d = last l x.
Proof.
  revert x d. induction l as [|y l IH]; intros x d; [reflexivity|].
  change (last (x :: y :: l) d) with (last (y :: l) d).
  now rewrite !IH.
Qed.

Lemma fold_link_step anchors text links :
  fold_left link_step anchors (text, links)
  = (last (map anchor_text anchors) text,
     (links ++ map link_of_anchor (filter anchor_kept anchors))%list).
Proof.
  revert text links. induction anchors as [|a anchors IH]; intros text links.
  - simpl. now rewrite app_nil_r.
  - cbn [fold_left]. unfold link_step at 2. cbn [snd].
    fold (anchor_kept a). fold (link_of_anchor a). rewrite IH.
    f_equal.
    + cbn [map]. now rewrite last_cons.
    + cbn [filter]. destruct (anchor_kept a); [|reflexivity].
      cbn [map]. now rewrite <- app_assoc.
Qed.

Lemma fold_image_step imgs images :
  fold_left image_step imgs images
  = (images ++ map image_of_img (filter img_kept imgs))%list.
Proof.
  revert images. induction imgs as [|i imgs IH]; intros images.
  - simpl. now rewrite app_nil_r.
  - cbn [fold_left]. unfold image_step at 2.
    fold (img_kept i). fold (image_of_img i). rewrite IH.
    cbn [filter]. destruct (img_kept i); [|reflexivity].
    cbn [map]. now rewrite <- app_assoc.
Qed.

Lemma scrape_result_fields url p :
  scrape_result url p
  = {| page_url := url;
       page_title := parsed_title p;
       page_meta_description := parsed_meta_description p;
       page_headings := parsed_headings p;
       page_content := last (map anchor_text (parsed_anchors p)) (parsed_text p);
       page_links := map link_of_anchor (filter anchor_kept (parsed_anchors p));
       page_images := map image_of_img (filter img_kept (parsed_imgs p)) |}.
Proof.
  unfold scrape_result. rewrite fold_link_step, fold_image_step. reflexivity.
Qed.

(** Extra X18.  The links of the scraped page are the [<a>] elements that
    have a non-empty href and a non-empty text, in document order: every
    link has a non-empty href and a non-empty text, an element without
    href or without text is left out, and the total link count of the
    analysis is the number of elements that are kept. *)
Theorem scraped_links_have_href_and_text (url : string) (p : parsed_page) :
  let c := scrape_result url p in
  page_links c = map link_of_anchor (filter anchor_kept (parsed_anchors p))
  /\ (forall lk, In lk (page_links c) -> href lk <> "" /\ link_text lk <> "")
  /\ (forall lk, In lk (page_links c)
                 <-> exists a, In a (parsed_anchors p)
                               /\ anchor_href a = Some (href lk)
                               /\ anchor_text a = link_text lk
                               /\ href lk <> "" /\ link_text lk <> "")
  /\ links_total_count (a_links (analyze_content c None))
     = count_if anchor_kept (parsed_anchors p).
Proof.
  cbv zeta. rewrite scrape_result_fields. cbn [page_links].
  assert (Hin : forall lk,
             In lk (map link_of_anchor (filter anchor_kept (parsed_anchors p)))
             <-> exists a, In a (parsed_anchors p)
                           /\ anchor_href a = Some (href lk)
                           /\ anchor_text a = link_text lk
                           /\ href lk <> "" /\ link_text lk <> "").
  { intros lk. rewrite in_map_iff. split.
    - intros (a & <- & Ha). apply filter_In in Ha. destruct Ha as [Ha Hk].
      exists a. unfold anchor_kept in Hk. apply andb_true_iff in Hk.
      destruct Hk as [Hh Ht]. unfold link_of_anchor. cbn [href link_text].
      destruct (anchor_href a) as [h|]; [|discriminate]. cbn [get_default truthy_opt] in *.
      apply truthy_spec in Hh, Ht. auto.
    - intros (a & Ha & Hh & Ht & Hh' & Ht'). exists a. split.
      + unfold link_of_anchor. rewrite Hh, Ht. now destruct lk.
      + apply filter_In. split; [exact Ha|]. unfold anchor_kept.
        rewrite Hh, Ht. cbn [truthy_opt].
        apply andb_true_iff. split; now apply truthy_spec. }
  split; [reflexivity|]. split; [|split; [exact Hin|]].
  - intros lk Hlk. apply Hin in Hlk. destruct Hlk as (a & _ & _ & _ & H). exact H.
  - cbn [analyze_content a_links analyze_links links_total_count page_links].
    unfold count_if, list_len. now rewrite length_map.
Qed.

(** Extra X19.  The images of the scraped page are the [<img>] elements with
    a non-empty src, in document order, with the empty string as alt text
    when the attribute is absent.  The total image count of the analysis
    is the number of these elements, and the count of images without alt
    text is the number of them whose alt attribute is absent or empty. *)
Theorem scraped_images_have_a_source (url : string) (p : parsed_page) :
  let c := scrape_result url p in
  page_images c = map image_of_img (filter img_kept (parsed_imgs p))
  /\ (forall im, In im (page_images c) -> src im <> "")
  /\ images_total_count (a_images (analyze_content c None))
     = count_if img_kept (parsed_imgs p)
  /\ missing_alt_count (a_images (analyze_content c None))
     = count_if img_lacks_alt (parsed_imgs p).
Proof.
  cbv zeta. rewrite scrape_result_fields. cbn [page_images].
  split; [reflexivity|]. split; [|split].
  - intros im Him. apply in_map_iff in Him. destruct Him as (i & <- & Hi).
    apply filter_In in Hi. destruct Hi as [_ Hk]. unfold img_kept in Hk.
    unfold image_of_img. cbn [src].
    destruct (img_src i) as [s|]; [|discriminate]. now apply truthy_spec.
  - cbn [analyze_content a_images analyze_images images_total_count page_images].
    unfold count_if, list_len. now rewrite length_map.
  - cbn [analyze_content a_images analyze_images missing_alt_count page_images].
    unfold count_if, list_len. f_equal.
    induction (parsed_imgs p) as [|i imgs IH]; [reflexivity|].
    cbn [filter]. unfold img_lacks_alt at 1.
    destruct (img_kept i); cbn [andb map filter]; [|exact IH].
    unfold image_of_img at 1. cbn [alt].
    destruct (img_alt i) as [s|]; cbn [get_default truthy_opt];
      destruct (negb _); cbn [List.length]; now rewrite IH.
Qed.

(** Extra X20.  The loop over the [<a>] elements assigns to the variable
    that held the text of the page, so the content of the scraped page is
    the text of the last [<a>] element whenever the page has one, and the
    text of the page only when it has none; the word count of the
    analysis is then the word count of that last element's text.  On the
    worked page [article] the content is "Home" and the word count
    is 1. *)
Theorem scraped_content_is_last_anchor_text (url : string) (p : parsed_page) :
  let c := scrape_result url p in
  page_content c = last (map anchor_text (parsed_anchors p)) (parsed_text p)
  /\ (parsed_anchors p = [] -> page_content c = parsed_text p)
  /\ (forall a anchors, parsed_anchors p = (anchors ++ [a])%list ->
        page_content c = anchor_text a
        /\ word_count (a_content (analyze_content c None))
           = count_words (anchor_text a))
  /\ page_content (scrape_result url article) = "Home"
  /\ word_count (a_content (analyze_content (scrape_result url article) None)) = 1.
Proof.
  cbv zeta. rewrite !scrape_result_fields. cbn [page_content].
  split; [reflexivity|]. split; [|split; [|split; reflexivity]].
  - intros ->. reflexivity.
  - intros a anchors ->.
    cbn [analyze_content a_content analyze_text word_count page_content].
    rewrite map_app. cbn [map]. rewrite last_last. auto.
Qed.

Lemma write_task_same id d fs : write_task id d fs id = Some d.
Proof. unfold write_task. now rewrite String.eqb_refl. Qed.

Lemma write_task_other id d fs k : k <> id -> write_task id d fs k = fs k.
Proof.
  intros H. unfold write_task. destruct (String.eqb_spec k id); [congruence|reflexivity].
Qed.

Lemma to_int_not_nil z :
  Z.to_int z <> Decimal.Pos Decimal.Nil /\ Z.to_int z <> Decimal.Neg Decimal.Nil.
Proof.
  split; intros E; pose proof (DecimalZ.of_to z) as H; rewrite E in H;
    cbv in H; subst z; discriminate E.
Qed.

Lemma str_of_int_inj a b : str_of_int a = str_of_int b -> a = b.
Proof.
  unfold str_of_int. intros H.
  apply (f_equal NilZero.int_of_string) in H.
  destruct (to_int_not_nil a) as [Ha1 Ha2]. destruct (to_int_not_nil b) as [Hb1 Hb2].
  rewrite !NilZero.isi in H by assumption.
  injection H as H. apply (f_equal Z.of_int) in H.
  now rewrite !DecimalZ.of_to in H.
Qed.

(** Extra X22.  When [analyze_url] returns a response, the task id is the
    clock second in decimal, the status is "completed", both awaited calls
    returned, the results are the analysis of the scraped page, the audit
    and the recommendations generated from the two, and
    [get_task_status] on that task id then returns the same response. *)
Theorem completed_task_is_read_back
  (now : Z) (request : url_request) (scraped : option snapshot)
  (audited : option audit) (fs fs' : store)
  (id status : string) (results : option task_results) :
  analyze_url now request scraped audited fs = (fs', Response id status results) ->
  id = str_of_int now
  /\ status = "completed"
  /\ get_task_status id fs' = Response id status results
  /\ exists content lighthouse recommendations,
       scraped = Some content
       /\ audited = Some lighthouse
       /\ generate_recommendations
            (analyze_content content (request_keywords request)) lighthouse
          = Ok recommendations
       /\ results
          = Some {| results_analysis :=
                      analyze_content content (request_keywords request);
                    results_lighthouse := lighthouse;
                    results_recommendations := recommendations |}.
Proof.
  unfold analyze_url.
  destruct scraped as [content|]; [|discriminate].
  destruct audited as [lighthouse|]; [|discriminate].
  destruct (generate_recommendations _ lighthouse) as [r|e] eqn:E; [|discriminate].
  intros H. injection H as <- <- <- <-.
  split; [reflexivity|]. split; [reflexivity|]. split.
  - unfold get_task_status. rewrite write_task_same. reflexivity.
  - exists content, lighthouse, r. auto.
Qed.

Lemma completed_task_is_read_back_witness :
  get_task_status "1700000000"
    (fst (analyze_url 1700000000 example_request (Some empty_page)
            (Some (flat_audit 50)) no_files))
  = Response "1700000000" "completed" (Some example_results).
Proof.
  exact (proj1 (proj2 (proj2
           (completed_task_is_read_back 1700000000 example_request
              (Some empty_page) (Some (flat_audit 50)) no_files
              (fst (analyze_url 1700000000 example_request (Some empty_page)
                      (Some (flat_audit 50)) no_files))
              "1700000000" "completed" (Some example_results)
              ltac:(vm_compute; reflexivity))))).
Defined.

Lemma analyze_url_other_files now request scraped audited fs k :
  k <> str_of_int now ->
  fst (analyze_url now request scraped audited fs) k = fs k.
Proof.
  intros Hk. unfold analyze_url.
  destruct scraped as [content|]; [|now apply write_task_other].
  destruct audited as [lighthouse|]; [|now apply write_task_other].
  destruct (generate_recommendations _ lighthouse); cbn [fst];
    rewrite ?write_task_other by exact Hk; reflexivity.
Qed.

Lemma write_task_twice id d1 d2 fs k :
  write_task id d2 (write_task id d1 fs) k = write_task id d2 fs k.
Proof. unfold write_task. destruct (String.eqb k id); reflexivity. Qed.

(** Extra X24.  [analyze_url] writes no file but the one of its task id: the
    status of every other task is unchanged, in particular that of a task
    started at another clock second; a request in the same clock second
    as an earlier one overwrites the earlier task's file. *)
Theorem analyze_url_writes_one_file
  (now : Z) (request : url_request) (scraped : option snapshot)
  (audited : option audit) (fs : store) :
  (forall id, id <> str_of_int now ->
     get_task_status id (fst (analyze_url now request scraped audited fs))
     = get_task_status id fs)
  /\ (forall earlier request' scraped' audited',
        earlier <> now ->
        get_task_status (str_of_int earlier)
          (fst (analyze_url now request scraped audited
                  (fst (analyze_url earlier request' scraped' audited' fs))))
        = get_task_status (str_of_int earlier)
            (fst (analyze_url earlier request' scraped' audited' fs)))
  /\ (forall request' scraped' audited' id,
        get_task_status id
          (fst (analyze_url now request scraped audited
                  (fst (analyze_url now request' scraped' audited' fs))))
        = get_task_status id (fst (analyze_url now request scraped audited fs))).
Proof.
  split; [|split].
  - intros id Hid. unfold get_task_status.
    now rewrite analyze_url_other_files.
  - intros earlier request' scraped' audited' Hne. unfold get_task_status.
    rewrite analyze_url_other_files; [reflexivity|].
    intros H. apply str_of_int_inj in H. congruence.
  - intros request' scraped' audited' id. unfold get_task_status.
    destruct (String.eqb_spec id (str_of_int now)) as [->|Hne].
    + unfold analyze_url.
      destruct scraped as [content|];
        [destruct audited as [lighthouse|];
         [destruct (generate_recommendations _ lighthouse)|]|];
        cbn [fst]; rewrite ?write_task_same; reflexivity.
    + rewrite !analyze_url_other_files by exact Hne. reflexivity.
Qed.

(** Extra X21.  For a scraped page whose last [<a>] element is [a], whenever
    [generate_recommendations] returns on its analysis, the message about
    thin content is present exactly when the text of [a] has fewer than
    300 words, and every keyword count is the count of the keyword in the
    lower-cased text of [a]. *)
Theorem scraped_page_is_judged_by_its_last_link
  (url : string) (p : parsed_page) (keywords : option (list string))
  (l : audit) (r : recommendations) (a : anchor) (anchors : list anchor) :
  parsed_anchors p = (anchors ++ [a])%list ->
  generate_recommendations (analyze_content (scrape_result url p) keywords) l = Ok r ->
  (In msg_more_content (all_messages r) <-> count_words (anchor_text a) < 300)
  /\ (forall kw items data,
        a_keywords (analyze_content (scrape_result url p) keywords) = Some items ->
        dict_get kw items = Some data ->
        count data = str_count (lower (anchor_text a)) (lower kw)).
Proof.
  intros Hp H. apply generate_recommendations_table in H. subst r.
  assert (Hc : page_content (scrape_result url p) = anchor_text a).
  { rewrite scrape_result_fields. cbn [page_content].
    rewrite Hp, map_app. cbn [map]. now rewrite last_last. }
  split.
  - rewrite more_content_message_iff, Hc. reflexivity.
  - intros kw items data Hitems Hget.
    rewrite (keyword_entry_data _ _ _ _ _ Hitems Hget).
    cbn [analyze_keyword count]. now rewrite Hc.
Qed.

Lemma scraped_page_is_judged_by_its_last_link_witness :
  In msg_more_content
     (all_messages
        {| critical := [msg_add_meta; msg_add_h1; msg_improve_performance "50"];
           important :=
             [msg_adjust_title; msg_more_content; msg_alt_text 1;
              msg_technical_seo "50"; msg_accessibility "50"];
           minor := [msg_external_links] |})
  <-> count_words "Home" < 300.
Proof.
  exact (proj1 (scraped_page_is_judged_by_its_last_link
                  "https://x.com" article None (flat_audit 50) _
                  {| anchor_href := Some "/"; anchor_text := "Home" |}
                  [{| anchor_href := Some "/logo"; anchor_text := "" |};
                   {| anchor_href := None; anchor_text := "top" |}]
                  eq_refl ltac:(vm_compute; reflexivity))).
Defined.

(* ===================================================================== *)
(** * The limit on the conversion of an [int] to a string: facts *)
(* ===================================================================== *)

Lemma within_no_limit z : within_limit 0 z = true.
Proof. reflexivity. Qed.

Lemma num_to_str_cases limit x :
  (num_within_limit limit x = true /\ num_to_str limit x = Ok (str_of_num x))
  \/ (num_within_limit limit x = false /\ num_to_str limit x = Raise ValueError).
Proof.
  destruct x as [z|f]; simpl; [|auto].
  unfold int_to_str. destruct (within_limit limit z); auto.
Qed.

Lemma keyword_item_limited_cases limit kw data r :
  (density_shown data && negb (num_within_limit limit (density data)) = false
   /\ keyword_item_limited limit kw data r = Ok (keyword_item kw data r))
  \/ (density_shown data && negb (num_within_limit limit (density data)) = true
      /\ keyword_item_limited limit kw data r = Raise ValueError).
Proof.
  unfold keyword_item_limited, keyword_item, density_shown, bind.
  destruct (num_to_str_cases limit (density data)) as [[Hw E]|[Hw E]];
    rewrite Hw, E;
    destruct (num_lt (density data) (PyFloat float_0_5));
    destruct (num_gt (density data) (PyInt 3)); simpl; auto.
Qed.

Lemma keyword_loop_limited_cases limit items r :
  (existsb (fun item => density_shown (snd item)
                        && negb (num_within_limit limit (density (snd item)))) items
   = false
   /\ keyword_loop_limited limit items r
      = Ok (fold_left (fun r item => keyword_item (fst item) (snd item) r) items r))
  \/ (existsb (fun item => density_shown (snd item)
                           && negb (num_within_limit limit (density (snd item)))) items
      = true
      /\ keyword_loop_limited limit items r = Raise ValueError).
Proof.
  revert r. induction items as [|[kw data] items IH]; intros r; simpl; [auto|].
  destruct (keyword_item_limited_cases limit kw data r) as [[Hc E]|[Hc E]];
    rewrite Hc, E; simpl; [apply IH|auto].
Qed.

Lemma generate_recommendations_limited_cases limit a l :
  (over_limit limit a = false
   /\ generate_recommendations_limited limit a l = generate_recommendations a l)
  \/ (over_limit limit a = true
      /\ generate_recommendations_limited limit a l = Raise ValueError).
Proof.
  unfold generate_recommendations_limited, generate_recommendations, over_limit.
  set (r0 := content_rule a _). clearbody r0.
  unfold keyword_rule_limited, keyword_rule, keyword_items.
  destruct (a_keywords a) as [items|].
  - destruct (keyword_loop_limited_cases limit items r0) as [[Hc E]|[Hc E]];
      rewrite Hc, E; simpl; [|auto].
    unfold image_rule_limited, image_rule, int_to_str.
    destruct (0 <? missing_alt_count (a_images a)); simpl; [|auto].
    destruct (within_limit limit (missing_alt_count (a_images a))); simpl; auto.
  - simpl. unfold image_rule_limited, image_rule, int_to_str.
    destruct (0 <? missing_alt_count (a_images a)); simpl; [|auto].
    destruct (within_limit limit (missing_alt_count (a_images a))); simpl; auto.
Qed.

Lemma density_of_page_within_limit limit c kw :
  0 <= limit ->
  num_within_limit limit (density (analyze_keyword c kw)) = true.
Proof.
  intros Hl. cbn [analyze_keyword density]. unfold raw_density.
  destruct (0 <? count_words (page_content c)); [reflexivity|].
  cbn [round2 num_within_limit]. unfold within_limit.
  change (digits 0) with 1. apply negb_true_iff.
  destruct (Z.ltb_spec 0 limit); [|reflexivity].
  simpl. apply Z.ltb_ge. lia.
Qed.

Lemma over_limit_of_page limit c keywords :
  0 <= limit ->
  within_limit limit (missing_alt_count (a_images (analyze_content c keywords))) = true ->
  over_limit limit (analyze_content c keywords) = false.
Proof.
  intros Hl Hm. unfold over_limit. rewrite Hm, andb_false_r, orb_false_r.
  destruct (existsb _ _) eqn:E; [|reflexivity].
  apply existsb_exists in E. destruct E as (item & Hin & Hd).
  apply in_keyword_items in Hin. destruct Hin as [_ Hdata].
  rewrite Hdata, density_of_page_within_limit in Hd by exact Hl.
  now rewrite andb_false_r in Hd.
Qed.

Lemma generate_recommendations_limited_raise limit a l e :
  generate_recommendations_limited limit a l = Raise e ->
  (e = ValueError /\ over_limit limit a = true)
  \/ (e = OverflowError /\ over_limit limit a = false /\ score_overflows l = true).
Proof.
  intros H.
  destruct (generate_recommendations_limited_cases limit a l) as [[Ho E]|[Ho E]];
    rewrite E in H.
  - right. pose proof (generate_recommendations_raise_kind a l e H). subst e.
    apply generate_recommendations_raises in H. auto.
  - left. inversion H. auto.
Qed.

(** Extra X10.  Under the digit limit [limit] of the interpreter,
    [generate_recommendations] raises [ValueError] exactly when a number
    that the keyword rule or the image rule shows is an integer with more
    digits than the limit; otherwise it raises [OverflowError] exactly when
    a score that is formatted (the performance score below 95, the SEO or
    the accessibility score below 90) is an integer that ['{:.0f}'.format]
    cannot convert to a [float]; otherwise it returns the rows of the rule
    table.  It raises nothing else, what it returns is what the program
    without the limit returns, and with the limit 0 it is that program.  A
    [float] score and an integer score between 0 and 100 can always be
    formatted, and the analysis of a page is over the limit only through
    its count of images without alt text.  With 10^4300 such images and
    the scores at [- 10 ^ 400] the generator raises [ValueError] under the
    default limit 4300; with one image less, or with the limit 0, it
    raises [OverflowError]. *)
Theorem generator_raises_exactly_when (limit : Z) (a : analysis) (l : audit) :
  (generate_recommendations_limited limit a l = Raise ValueError
   <-> over_limit limit a = true)
  /\ (generate_recommendations_limited limit a l = Raise OverflowError
      <-> over_limit limit a = false /\ score_overflows l = true)
  /\ (generate_recommendations_limited limit a l
      = Ok (combine_all (rule_table a l))
      <-> over_limit limit a = false /\ score_overflows l = false)
  /\ (forall e, generate_recommendations_limited limit a l = Raise e ->
                e = ValueError \/ e = OverflowError)
  /\ (forall r, generate_recommendations_limited limit a l = Ok r ->
                generate_recommendations a l = Ok r)
  /\ generate_recommendations_limited 0 a l = generate_recommendations a l
  /\ (forall f, unformattable (PyFloat f) = false)
  /\ (forall z, 0 <= z <= 100 -> unformattable (PyInt z) = false)
  /\ (forall c keywords,
        0 <= limit ->
        within_limit limit
          (missing_alt_count (a_images (analyze_content c keywords))) = true ->
        over_limit limit (analyze_content c keywords) = false)
  /\ (generate_recommendations_limited default_limit (crowded (10 ^ 4300))
                                       (audit_of (- 10 ^ 400))
      = Raise ValueError
      /\ generate_recommendations_limited default_limit (crowded (10 ^ 4300 - 1))
                                          (audit_of (- 10 ^ 400))
         = Raise OverflowError
      /\ generate_recommendations_limited 0 (crowded (10 ^ 4300))
                                          (audit_of (- 10 ^ 400))
         = Raise OverflowError
      /\ score_overflows (audit_of (10 ^ 400)) = false).
Proof.
  assert (Hcases := generate_recommendations_limited_cases limit a l).
  assert (Hscore : score_overflows l = true
                   <-> generate_recommendations a l = Raise OverflowError).
  { symmetry. apply generate_recommendations_raises. }
  assert (Hret : score_overflows l = false ->
                 generate_recommendations a l = Ok (combine_all (rule_table a l))).
  { apply generate_recommendations_returns. }
  split; [|split; [|split; [|split; [|split; [|split; [|split; [|split; [|split]]]]]]]].
  - destruct Hcases as [[Ho E]|[Ho E]]; rewrite E, Ho; split; try reflexivity;
      try discriminate.
    intros H. pose proof (generate_recommendations_raise_kind a l _ H). discriminate.
  - destruct Hcases as [[Ho E]|[Ho E]]; rewrite E, Ho.
    + rewrite Hscore. tauto.
    + split; [discriminate|]. intros [H _]. discriminate.
  - destruct Hcases as [[Ho E]|[Ho E]]; rewrite E, Ho.
    + split.
      * intros H. split; [reflexivity|].
        clear Hscore Hret. destruct (score_overflows l) eqn:Es; [|reflexivity].
        pose proof (proj2 (generate_recommendations_raises a l) Es). congruence.
      * intros [_ H]. now apply Hret.
    + split; [discriminate|]. intros [H _]. discriminate.
  - intros e H. apply generate_recommendations_limited_raise in H.
    destruct H as [[-> _]|[-> _]]; auto.
  - intros r H. destruct Hcases as [[Ho E]|[Ho E]]; rewrite E in H; [exact H|discriminate].
  - destruct (generate_recommendations_limited_cases 0 a l) as [[Ho E]|[Ho E]];
      [exact E|].
    unfold over_limit in Ho.
    rewrite within_no_limit, andb_false_r, orb_false_r in Ho.
    apply existsb_exists in Ho. destruct Ho as (item & _ & H).
    destruct (density (snd item)); simpl in H; now rewrite andb_false_r in H.
  - reflexivity.
  - intros z Hz. unfold unformattable. now rewrite format_0f_small_int.
  - intros c keywords. apply over_limit_of_page.
  - split; [vm_compute; reflexivity|]. split; [vm_compute; reflexivity|].
    split; vm_compute; reflexivity.
Qed.

(* ===================================================================== *)
(** * The two functions on the heap: facts *)
(* ===================================================================== *)

(** ** Steps of a program on the heap *)

Lemma bind_ok {A B : Type} (m : M A) (k : A -> M B) w a w' :
  m w = (Ok a, w') -> bindM m k w = k a w'.
Proof. intros H. unfold bindM. rewrite H. reflexivity. Qed.

(** A step of a program whose first statement returns. *)
Tactic Notation "run" uconstr(L) := erewrite (bind_ok _ _ _ _ _ L).

Lemma bind_raise {A B : Type} (m : M A) (k : A -> M B) w e w' :
  m w = (Raise e, w') -> bindM m k w = (Raise e, w').
Proof. intros H. unfold bindM. rewrite H. reflexivity. Qed.

Lemma bind_ret {A B : Type} (a : A) (k : A -> M B) w :
  bindM (ret a) k w = k a w.
Proof. reflexivity. Qed.

Lemma deref_old h fs l r o :
  nth_error h r = Some o -> deref r (extended h fs l) = Some o.
Proof.
  intros H. unfold deref, extended. simpl.
  rewrite nth_error_app1; [exact H|].
  apply nth_error_Some. rewrite H. discriminate.
Qed.

Lemma deref_new h fs l j :
  deref (List.length h + j)%nat (extended h fs l) = nth_error l j.
Proof.
  unfold deref, extended. simpl.
  rewrite nth_error_app2 by lia. f_equal. lia.
Qed.

Lemma replace_nth_app {A : Type} (h l : list A) j x :
  replace_nth (List.length h + j)%nat x (h ++ l) = (h ++ replace_nth j x l)%list.
Proof. induction h as [|y h IH]; simpl; [reflexivity|]. now rewrite IH. Qed.

Lemma update_new h fs l j o :
  update (List.length h + j)%nat o (extended h fs l) = extended h fs (replace_nth j o l).
Proof.
  unfold update, extended. simpl. now rewrite replace_nth_app.
Qed.

Lemma alloc_extended h fs l o :
  alloc o (extended h fs l)
  = (Ok (VRef (List.length h + List.length l)%nat), extended h fs (l ++ [o])).
Proof.
  unfold alloc, extended. simpl.
  rewrite length_app, <- app_assoc. reflexivity.
Qed.

Lemma getitem_old h fs l d items k v :
  dict_at h d items -> field items k v ->
  getitem d k (extended h fs l) = (Ok v, extended h fs l).
Proof.
  intros (r & -> & Hr) Hk. unfold getitem.
  rewrite (deref_old _ _ _ _ _ Hr). unfold field in Hk. now rewrite Hk.
Qed.

Lemma getitem_missing h fs l d items k :
  dict_at h d items -> dict_get k items = None ->
  getitem d k (extended h fs l) = (Raise KeyError, extended h fs l).
Proof.
  intros (r & -> & Hr) Hk. unfold getitem.
  rewrite (deref_old _ _ _ _ _ Hr). now rewrite Hk.
Qed.

Lemma getitem_new h fs l j items k v :
  nth_error l j = Some (ODict items) -> dict_get k items = Some v ->
  getitem (VRef (List.length h + j)%nat) k (extended h fs l) = (Ok v, extended h fs l).
Proof.
  intros Hj Hk. unfold getitem. rewrite deref_new, Hj, Hk. reflexivity.
Qed.

Lemma setitem_new h fs l j items k v :
  nth_error l j = Some (ODict items) ->
  setitem (VRef (List.length h + j)%nat) k v (extended h fs l)
  = (Ok tt, extended h fs (replace_nth j (ODict (dict_set k v items)) l)).
Proof.
  intros Hj. unfold setitem. rewrite deref_new, Hj, update_new. reflexivity.
Qed.

Lemma append_new h fs l j items x :
  nth_error l j = Some (OList items) ->
  append_to (VRef (List.length h + j)%nat) x (extended h fs l)
  = (Ok tt, extended h fs (replace_nth j (OList (items ++ [x])) l)).
Proof.
  intros Hj. unfold append_to. rewrite deref_new, Hj, update_new. reflexivity.
Qed.

Lemma lacks_old h fs l d items k b :
  dict_at h d items -> field items k (VBool b) ->
  lacks d k (extended h fs l) = (Ok (negb b), extended h fs l).
Proof.
  intros Hd Hk. unfold lacks.
  rewrite (bind_ok _ _ _ _ _ (getitem_old _ _ _ _ _ _ _ Hd Hk)). reflexivity.
Qed.

Lemma has_key_old h fs l d items k :
  dict_at h d items ->
  has_key d k (extended h fs l)
  = (Ok (match dict_get k items with Some _ => true | None => false end),
     extended h fs l).
Proof.
  intros (r & -> & Hr). unfold has_key.
  now rewrite (deref_old _ _ _ _ _ Hr).
Qed.

Lemma items_of_old h fs l d items :
  dict_at h d items -> items_of d (extended h fs l) = (Ok items, extended h fs l).
Proof.
  intros (r & -> & Hr). unfold items_of.
  now rewrite (deref_old _ _ _ _ _ Hr).
Qed.

Lemma values_of_old h fs l d items :
  dict_at h d items ->
  values_of d (extended h fs l) = (Ok (map snd items), extended h fs l).
Proof.
  intros (r & -> & Hr). unfold values_of.
  now rewrite (deref_old _ _ _ _ _ Hr).
Qed.

Lemma iterate_old h fs l v items :
  list_at h v items -> iterate v (extended h fs l) = (Ok items, extended h fs l).
Proof.
  intros (r & -> & Hr). unfold iterate.
  now rewrite (deref_old _ _ _ _ _ Hr).
Qed.

Lemma len_of_old h fs l v items :
  list_at h v items ->
  len_of v (extended h fs l) = (Ok (list_len items), extended h fs l).
Proof.
  intros (r & -> & Hr). unfold len_of.
  now rewrite (deref_old _ _ _ _ _ Hr).
Qed.

Lemma truth_list_old h fs l v items :
  list_at h v items ->
  truth v (extended h fs l)
  = (Ok (negb (list_len items =? 0)), extended h fs l).
Proof.
  intros (r & -> & Hr). unfold truth.
  now rewrite (deref_old _ _ _ _ _ Hr).
Qed.

(** ** The recommendation lists on the heap *)

Section Say.
Variables (h : list object) (fs : store).

Let rw := recommendation_world h fs.
Let rv : value := VRef (List.length h + 3)%nat.

Lemma getitem_recommendations severity v r :
  dict_get severity [("critical", VRef (List.length h));
                     ("important", VRef (List.length h + 1)%nat);
                     ("minor", VRef (List.length h + 2)%nat)] = Some v ->
  getitem rv severity (rw r) = (Ok v, rw r).
Proof.
  intros Hv. unfold rv, rw, recommendation_world.
  apply (getitem_new h fs (recommendation_objects (List.length h) r) 3%nat
           _ severity v eq_refl Hv).
Qed.

Lemma say_raise severity (msg : M string) r e :
  In severity ["critical"; "important"; "minor"] ->
  msg (rw r) = (Raise e, rw r) ->
  say rv severity msg (rw r) = (Raise e, rw r).
Proof.
  intros Hs Hm. unfold say.
  assert (exists v, getitem rv severity (rw r) = (Ok v, rw r)) as [v Hv].
  { simpl in Hs.
    destruct Hs as [<-|[<-|[<-|[]]]];
      eexists; apply getitem_recommendations; reflexivity. }
  rewrite (bind_ok _ _ _ _ _ Hv).
  apply bind_raise. exact Hm.
Qed.

Lemma say_critical (msg : M string) r m :
  msg (rw r) = (Ok m, rw r) ->
  say rv "critical" msg (rw r) = (Ok tt, rw (append_critical m r)).
Proof.
  intros Hm. unfold say.
  rewrite (bind_ok _ _ _ _ _ (getitem_recommendations "critical" _ r eq_refl)).
  rewrite (bind_ok _ _ _ _ _ Hm).
  unfold rw, recommendation_world.
  replace (List.length h) with (List.length h + 0)%nat at 1 by lia.
  rewrite (append_new h fs (recommendation_objects (List.length h) r) 0%nat
             _ _ eq_refl).
  unfold recommendation_objects, append_critical. simpl.
  now rewrite map_app.
Qed.

Lemma say_important (msg : M string) r m :
  msg (rw r) = (Ok m, rw r) ->
  say rv "important" msg (rw r) = (Ok tt, rw (append_important m r)).
Proof.
  intros Hm. unfold say.
  rewrite (bind_ok _ _ _ _ _ (getitem_recommendations "important" _ r eq_refl)).
  rewrite (bind_ok _ _ _ _ _ Hm).
  unfold rw, recommendation_world.
  rewrite (append_new h fs (recommendation_objects (List.length h) r) 1%nat
             _ _ eq_refl).
  unfold recommendation_objects, append_important. simpl.
  now rewrite map_app.
Qed.

Lemma say_minor (msg : M string) r m :
  msg (rw r) = (Ok m, rw r) ->
  say rv "minor" msg (rw r) = (Ok tt, rw (append_minor m r)).
Proof.
  intros Hm. unfold say.
  rewrite (bind_ok _ _ _ _ _ (getitem_recommendations "minor" _ r eq_refl)).
  rewrite (bind_ok _ _ _ _ _ Hm).
  unfold rw, recommendation_world.
  rewrite (append_new h fs (recommendation_objects (List.length h) r) 2%nat
             _ _ eq_refl).
  unfold recommendation_objects, append_minor. simpl.
  now rewrite map_app.
Qed.
End Say.

Lemma num_gt_int a b : num_gt (PyInt a) (PyInt b) = (b <? a).
Proof.
  unfold num_gt, num_compare, Z.ltb. rewrite (Z.compare_antisym a b).
  destruct (a ?= b); reflexivity.
Qed.

Lemma equals_int_int n z w :
  equals_int (VNum (PyInt n)) z w = (Ok (n =? z), w).
Proof.
  unfold equals_int, ret, num_compare, Z.eqb.
  destruct (Z.compare_spec n z) as [->|H|H].
  - destruct z; simpl; rewrite ?Pos.eqb_refl; reflexivity.
  - destruct n, z; simpl; try reflexivity; try lia;
      (destruct (Pos.eqb_spec p p0); [subst; lia|reflexivity]).
  - destruct n, z; simpl; try reflexivity; try lia;
      (destruct (Pos.eqb_spec p p0); [subst; lia|reflexivity]).
Qed.

Lemma greater_than_num x n w : greater_than (VNum x) n w = (Ok (num_gt x n), w).
Proof. reflexivity. Qed.

Lemma less_than_num x n w : less_than (VNum x) n w = (Ok (num_lt x n), w).
Proof. reflexivity. Qed.

Lemma bind_lift {A B : Type} (x : exc A) (k : A -> M B) w :
  bindM (lift x) k w = match x with Ok a => k a w | Raise e => (Raise e, w) end.
Proof. unfold bindM, lift. destruct x; reflexivity. Qed.

Section Rules.
Variables (h : list object) (fs : store).
Variables (va : value) (a : analysis) (vl : value) (l : audit).
Hypothesis Ha : analysis_at h va a.
Hypothesis Hl : audit_at h vl l.

Let rw := recommendation_world h fs.
Let rv : value := VRef (List.length h + 3)%nat.

Lemma title_rule_m_runs r :
  title_rule_m va rv (rw r) = (Ok tt, rw (title_rule a r)).
Proof.
  destruct Ha as (items & vt & vm & vh & vc & vk & vi & Hd & Ft & Ht & _).
  destruct Ht as (ti & Htd & _ & F2 & F3).
  unfold title_rule_m, title_rule, rw, recommendation_world.
  run (getitem_old h fs _ _ _ _ _ Hd Ft).
  run (lacks_old h fs _ _ _ _ _ Htd F2).
  destruct (has_title (a_title a)); simpl.
  - run (getitem_old h fs _ _ _ _ _ Hd Ft).
    run (lacks_old h fs _ _ _ _ _ Htd F3).
    destruct (title_optimal_length (a_title a)); simpl.
    + reflexivity.
    + apply say_important. reflexivity.
  - apply say_critical. reflexivity.
Qed.

Lemma meta_rule_m_runs r :
  meta_rule_m va rv (rw r) = (Ok tt, rw (meta_rule a r)).
Proof.
  destruct Ha as (items & vt & vm & vh & vc & vk & vi & Hd & _ & _ & Fm & Hm & _).
  destruct Hm as (ti & Htd & _ & F2 & F3).
  unfold meta_rule_m, meta_rule, rw, recommendation_world.
  run (getitem_old h fs _ _ _ _ _ Hd Fm).
  run (lacks_old h fs _ _ _ _ _ Htd F2).
  destruct (has_meta (a_meta_description a)); simpl.
  - run (getitem_old h fs _ _ _ _ _ Hd Fm).
    run (lacks_old h fs _ _ _ _ _ Htd F3).
    destruct (meta_optimal_length (a_meta_description a)); simpl.
    + reflexivity.
    + apply say_important. reflexivity.
  - apply say_critical. reflexivity.
Qed.

Lemma heading_rule_m_runs r :
  heading_rule_m va rv (rw r) = (Ok tt, rw (heading_rule a r)).
Proof.
  destruct Ha as (items & vt & vm & vh & vc & vk & vi & Hd & _ & _ & _ & _
                  & Fh & Hh & _).
  destruct Hh as (ti & Htd & F1 & _ & _ & F4).
  unfold heading_rule_m, heading_rule, rw, recommendation_world.
  run (getitem_old h fs _ _ _ _ _ Hd Fh).
  run (lacks_old h fs _ _ _ _ _ Htd F4).
  destruct (has_proper_structure (a_headings a)); simpl; [reflexivity|].
  run (getitem_old h fs _ _ _ _ _ Hd Fh).
  run (getitem_old h fs _ _ _ _ _ Htd F1).
  run (equals_int_int _ _ _).
  destruct (h1_count (a_headings a) =? 0).
  - apply say_critical. reflexivity.
  - run (getitem_old h fs _ _ _ _ _ Hd Fh).
    run (getitem_old h fs _ _ _ _ _ Htd F1).
    run (greater_than_num _ _ _). rewrite num_gt_int.
    destruct (1 <? h1_count (a_headings a)).
    + apply say_important. reflexivity.
    + reflexivity.
Qed.

Lemma content_rule_m_runs r :
  content_rule_m va rv (rw r) = (Ok tt, rw (content_rule a r)).
Proof.
  destruct Ha as (items & vt & vm & vh & vc & vk & vi & Hd & _ & _ & _ & _
                  & _ & _ & Fc & Hc & _).
  destruct Hc as (ti & Htd & _ & F2).
  unfold content_rule_m, content_rule, rw, recommendation_world.
  run (getitem_old h fs _ _ _ _ _ Hd Fc).
  run (lacks_old h fs _ _ _ _ _ Htd F2).
  destruct (has_sufficient_content (a_content a)); simpl.
  - reflexivity.
  - apply say_important. reflexivity.
Qed.

Lemma shown_field_ok limit d items k x created shown :
  dict_at h d items -> field items k (VNum x) ->
  num_to_str limit x = Ok shown ->
  shown_field limit d k (extended h fs created)
  = (Ok shown, extended h fs created).
Proof.
  intros Hd Hk E. unfold shown_field.
  run (getitem_old h fs _ _ _ _ _ Hd Hk). simpl. unfold lift. now rewrite E.
Qed.

Lemma shown_field_raise limit d items k x created e :
  dict_at h d items -> field items k (VNum x) ->
  num_to_str limit x = Raise e ->
  shown_field limit d k (extended h fs created)
  = (Raise e, extended h fs created).
Proof.
  intros Hd Hk E. unfold shown_field.
  run (getitem_old h fs _ _ _ _ _ Hd Hk). simpl. unfold lift. now rewrite E.
Qed.

Lemma keyword_item_m_runs limit kw d data r :
  keyword_data_at h d data ->
  match keyword_item_limited limit kw data r with
  | Ok r' => keyword_item_m limit rv kw d (rw r) = (Ok tt, rw r')
  | Raise e => exists r', keyword_item_m limit rv kw d (rw r) = (Raise e, rw r')
  end.
Proof.
  intros (items & Hd & _ & Fd & F1 & F2 & F3).
  unfold keyword_item_m, keyword_item_limited.
  set (r1 := if negb (in_title data) && negb (in_meta data) && negb (in_headings data)
             then append_important (msg_include_keyword kw) r else r).
  assert (Hinc :
    (b1 <~ lacks d "in_title" ;;
     b2 <~ (if b1 then lacks d "in_meta" else ret false) ;;
     b3 <~ (if b2 then lacks d "in_headings" else ret false) ;;
     (if b3 then say rv "important" (ret (msg_include_keyword kw)) else ret tt))
      (rw r) = (Ok tt, rw r1)).
  { unfold rw, recommendation_world.
    run (lacks_old h fs _ _ _ _ _ Hd F1).
    subst r1.
    destruct (in_title data); simpl.
    - rewrite !bind_ret. reflexivity.
    - run (lacks_old h fs _ _ _ _ _ Hd F2).
      destruct (in_meta data); simpl.
      + rewrite !bind_ret. reflexivity.
      + run (lacks_old h fs _ _ _ _ _ Hd F3).
        destruct (in_headings data); simpl.
        * reflexivity.
        * apply say_important. reflexivity. }
  assert (Hassoc : forall (k : M unit),
    ((b1 <~ lacks d "in_title" ;;
      b2 <~ (if b1 then lacks d "in_meta" else ret false) ;;
      b3 <~ (if b2 then lacks d "in_headings" else ret false) ;;
      (if b3 then say rv "important" (ret (msg_include_keyword kw)) else ret tt) ;;; k)
       (rw r)) = k (rw r1)).
  { intros k. revert Hinc. unfold bindM.
    destruct (lacks d "in_title" (rw r)) as [[b1|e1] w1]; [|discriminate].
    destruct ((if b1 then lacks d "in_meta" else ret false) w1) as [[b2|e2] w2];
      [|discriminate].
    destruct ((if b2 then lacks d "in_headings" else ret false) w2) as [[b3|e3] w3];
      [|discriminate].
    destruct ((if b3 then say rv "important" (ret (msg_include_keyword kw))
               else ret tt) w3) as [[[]|e4] w4]; [|discriminate].
    intros [= ->]. reflexivity. }
  rewrite Hassoc. clear Hassoc Hinc.
  generalize r1. clear r1. intros r1.
  unfold rw, recommendation_world.
  run (getitem_old h fs _ _ _ _ _ Hd Fd).
  run (less_than_num _ _ _).
  destruct (num_lt (density data) (PyFloat float_0_5)).
  - destruct (num_to_str limit (density data)) as [shown|e] eqn:E; simpl.
    + apply say_minor. unfold recommendation_world.
      run (shown_field_ok limit d items "density" _ _ shown Hd Fd E).
      reflexivity.
    + exists r1. apply say_raise; [simpl; auto|]. unfold recommendation_world.
      apply bind_raise.
      apply (shown_field_raise limit d items "density" _ _ e Hd Fd E).
  - run (getitem_old h fs _ _ _ _ _ Hd Fd).
    run (greater_than_num _ _ _).
    destruct (num_gt (density data) (PyInt 3)).
    + destruct (num_to_str limit (density data)) as [shown|e] eqn:E; simpl.
      * apply say_important. unfold recommendation_world.
        run (shown_field_ok limit d items "density" _ _ shown Hd Fd E).
        reflexivity.
      * exists r1. apply say_raise; [simpl; auto|]. unfold recommendation_world.
        apply bind_raise.
        apply (shown_field_raise limit d items "density" _ _ e Hd Fd E).
    + reflexivity.
Qed.

Lemma keyword_loop_m_runs limit kitems entries :
  Forall2 (keyword_entry_at h) kitems entries ->
  forall r,
  match keyword_loop_limited limit entries r with
  | Ok r' =>
      for_each kitems (fun item => keyword_item_m limit rv (fst item) (snd item))
               (rw r) = (Ok tt, rw r')
  | Raise e =>
      exists r',
      for_each kitems (fun item => keyword_item_m limit rv (fst item) (snd item))
               (rw r) = (Raise e, rw r')
  end.
Proof.
  induction 1 as [|[k v] [k' data] kitems entries [Hk Hv] _ IH]; intros r.
  - reflexivity.
  - simpl in Hk, Hv. subst k'. simpl.
    pose proof (keyword_item_m_runs limit k v data r Hv) as Hitem.
    unfold bind.
    destruct (keyword_item_limited limit k data r) as [r1|e].
    + rewrite (bind_ok _ _ _ _ _ Hitem). apply IH.
    + destruct Hitem as [r' Hitem]. exists r'.
      apply bind_raise. exact Hitem.
Qed.

Lemma keyword_rule_m_runs limit r :
  match keyword_rule_limited limit a r with
  | Ok r' => keyword_rule_m limit va rv (rw r) = (Ok tt, rw r')
  | Raise e => exists r', keyword_rule_m limit va rv (rw r) = (Raise e, rw r')
  end.
Proof.
  destruct Ha as (items & vt & vm & vh & vc & vk & vi & Hd & _ & _ & _ & _
                  & _ & _ & _ & _ & Hk & _).
  unfold keyword_rule_m, keyword_rule_limited, keyword_analysis_at in *.
  destruct (a_keywords a) as [entries|].
  - destruct Hk as (vks & kitems & Fk & Hkd & Hall).
    pose proof (keyword_loop_m_runs limit kitems entries Hall r) as Hloop.
    assert (Hpre : forall k : M unit,
      (present <~ has_key va "keywords" ;;
       (if present then
          ks <~ getitem va "keywords" ;;
          items0 <~ items_of ks ;;
          for_each items0 (fun item =>
            keyword_item_m limit rv (fst item) (snd item))
        else ret tt)) (rw r)
      = for_each kitems (fun item => keyword_item_m limit rv (fst item) (snd item))
          (rw r)).
    { intros _. unfold rw, recommendation_world.
      run (has_key_old h fs _ _ _ "keywords" Hd).
      unfold field in Fk. rewrite Fk.
      run (getitem_old h fs _ _ _ _ _ Hd Fk).
      run (items_of_old h fs _ _ _ Hkd). reflexivity. }
    rewrite (Hpre (ret tt)). exact Hloop.
  - unfold rw, recommendation_world.
    run (has_key_old h fs _ _ _ "keywords" Hd).
    rewrite Hk. reflexivity.
Qed.

Lemma image_rule_m_runs limit r :
  match image_rule_limited limit a r with
  | Ok r' => image_rule_m limit va rv (rw r) = (Ok tt, rw r')
  | Raise e => exists r', image_rule_m limit va rv (rw r) = (Raise e, rw r')
  end.
Proof.
  destruct Ha as (items & vt & vm & vh & vc & vk & vi & Hd & _ & _ & _ & _
                  & _ & _ & _ & _ & _ & _ & _ & Fi & Hi).
  destruct Hi as (ti & Htd & _ & F2).
  unfold image_rule_m, image_rule_limited.
  assert (Hhead : forall k : bool -> M unit,
    (images <~ getitem va "images" ;;
     n <~ getitem images "missing_alt_count" ;;
     some <~ greater_than n (PyInt 0) ;; k some) (rw r)
    = k (0 <? missing_alt_count (a_images a)) (rw r)).
  { intros k. unfold rw, recommendation_world.
    run (getitem_old h fs _ _ _ _ _ Hd Fi).
    run (getitem_old h fs _ _ _ _ _ Htd F2).
    run (greater_than_num _ _ _). now rewrite num_gt_int. }
  rewrite Hhead. clear Hhead.
  destruct (0 <? missing_alt_count (a_images a)); [|reflexivity].
  unfold bind.
  assert (E0 : num_to_str limit (PyInt (missing_alt_count (a_images a)))
               = int_to_str limit (missing_alt_count (a_images a))) by reflexivity.
  destruct (int_to_str limit (missing_alt_count (a_images a))) as [shown|e].
  - apply say_important. unfold recommendation_world.
    run (getitem_old h fs _ _ _ _ _ Hd Fi).
    run (shown_field_ok limit vi ti "missing_alt_count" _ _ shown Htd F2 E0).
    reflexivity.
  - exists r. apply say_raise; [simpl; auto|]. unfold recommendation_world.
    run (getitem_old h fs _ _ _ _ _ Hd Fi).
    apply bind_raise.
    apply (shown_field_raise limit vi ti "missing_alt_count" _ _ e Htd F2 E0).
Qed.

Lemma link_rule_m_runs r :
  link_rule_m va rv (rw r) = (Ok tt, rw (link_rule a r)).
Proof.
  destruct Ha as (items & vt & vm & vh & vc & vk & vi & Hd & _ & _ & _ & _
                  & _ & _ & _ & _ & _ & Fl & Hlk & _).
  destruct Hlk as (ti & Htd & F1 & F2 & _).
  unfold link_rule_m, link_rule.
  set (r1 := if internal_count (a_links a) =? 0
             then append_minor msg_internal_links r else r).
  assert (Hfirst :
    (links <~ getitem va "links" ;;
     n <~ getitem links "internal_count" ;;
     none <~ equals_int n 0 ;;
     (if none then say rv "minor" (ret msg_internal_links) else ret tt)) (rw r)
    = (Ok tt, rw r1)).
  { unfold rw, recommendation_world. subst r1.
    run (getitem_old h fs _ _ _ _ _ Hd Fl).
    run (getitem_old h fs _ _ _ _ _ Htd F1).
    run (equals_int_int _ _ _).
    destruct (internal_count (a_links a) =? 0).
    - apply say_minor. reflexivity.
    - reflexivity. }
  assert (Hassoc : forall k : M unit,
    (links <~ getitem va "links" ;;
     n <~ getitem links "internal_count" ;;
     none <~ equals_int n 0 ;;
     (if none then say rv "minor" (ret msg_internal_links) else ret tt) ;;; k)
      (rw r) = k (rw r1)).
  { intros k. revert Hfirst. unfold bindM.
    destruct (getitem va "links" (rw r)) as [[x1|e1] w1]; [|discriminate].
    destruct (getitem x1 "internal_count" w1) as [[x2|e2] w2]; [|discriminate].
    destruct (equals_int x2 0 w2) as [[x3|e3] w3]; [|discriminate].
    destruct ((if x3 then say rv "minor" (ret msg_internal_links) else ret tt) w3)
      as [[[]|e4] w4]; [|discriminate].
    intros [= ->]. reflexivity. }
  rewrite Hassoc. clear Hassoc Hfirst. generalize r1. clear r1. intros r1.
  unfold rw, recommendation_world.
  run (getitem_old h fs _ _ _ _ _ Hd Fl).
  run (getitem_old h fs _ _ _ _ _ Htd F2).
  run (equals_int_int _ _ _).
  destruct (external_count (a_links a) =? 0).
  - apply say_minor. reflexivity.
  - reflexivity.
Qed.

Lemma formatted_field_ok k x created score :
  forall items, dict_at h vl items -> field items k (VNum x) ->
  format_0f x = Ok score ->
  formatted_field vl k (extended h fs created) = (Ok score, extended h fs created).
Proof.
  intros items Hd Hk E. unfold formatted_field.
  run (getitem_old h fs _ _ _ _ _ Hd Hk). simpl. unfold lift. now rewrite E.
Qed.

Lemma formatted_field_raise k x created e :
  forall items, dict_at h vl items -> field items k (VNum x) ->
  format_0f x = Raise e ->
  formatted_field vl k (extended h fs created) = (Raise e, extended h fs created).
Proof.
  intros items Hd Hk E. unfold formatted_field.
  run (getitem_old h fs _ _ _ _ _ Hd Hk). simpl. unfold lift. now rewrite E.
Qed.

Lemma performance_rule_m_runs r :
  match performance_rule l r with
  | Ok r' => performance_rule_m vl rv (rw r) = (Ok tt, rw r')
  | Raise e => exists r', performance_rule_m vl rv (rw r) = (Raise e, rw r')
  end.
Proof.
  destruct Hl as (items & Hd & Fp & _ & _).
  unfold performance_rule_m, performance_rule, bind.
  assert (Hhead : forall (n : Z) (k : bool -> M unit),
    (p <~ getitem vl "performance" ;;
     poor <~ less_than p (PyInt n) ;; k poor) (rw r)
    = k (num_lt (performance l) (PyInt n)) (rw r)).
  { intros n k. unfold rw, recommendation_world.
    run (getitem_old h fs _ _ _ _ _ Hd Fp).
    run (less_than_num _ _ _). reflexivity. }
  rewrite Hhead.
  destruct (num_lt (performance l) (PyInt 90)).
  - destruct (format_0f (performance l)) as [score|e] eqn:E.
    + apply say_critical. unfold recommendation_world.
      run (formatted_field_ok "performance" _ _ score items Hd Fp E). reflexivity.
    + exists r. apply say_raise; [simpl; auto|]. unfold recommendation_world.
      apply bind_raise.
      apply (formatted_field_raise "performance" _ _ e items Hd Fp E).
  - rewrite Hhead.
    destruct (num_lt (performance l) (PyInt 95)); [|reflexivity].
    destruct (format_0f (performance l)) as [score|e] eqn:E.
    + apply say_important. unfold recommendation_world.
      run (formatted_field_ok "performance" _ _ score items Hd Fp E). reflexivity.
    + exists r. apply say_raise; [simpl; auto|]. unfold recommendation_world.
      apply bind_raise.
      apply (formatted_field_raise "performance" _ _ e items Hd Fp E).
Qed.

Lemma seo_rule_m_runs r :
  match seo_rule l r with
  | Ok r' => seo_rule_m vl rv (rw r) = (Ok tt, rw r')
  | Raise e => exists r', seo_rule_m vl rv (rw r) = (Raise e, rw r')
  end.
Proof.
  destruct Hl as (items & Hd & _ & Fp & _).
  unfold seo_rule_m, seo_rule, bind.
  assert (Hhead : forall (k : bool -> M unit),
    (p <~ getitem vl "seo" ;;
     poor <~ less_than p (PyInt 90) ;; k poor) (rw r)
    = k (num_lt (seo l) (PyInt 90)) (rw r)).
  { intros k. unfold rw, recommendation_world.
    run (getitem_old h fs _ _ _ _ _ Hd Fp).
    run (less_than_num _ _ _). reflexivity. }
  rewrite Hhead.
  destruct (num_lt (seo l) (PyInt 90)); [|reflexivity].
  destruct (format_0f (seo l)) as [score|e] eqn:E.
  - apply say_important. unfold recommendation_world.
    run (formatted_field_ok "seo" _ _ score items Hd Fp E). reflexivity.
  - exists r. apply say_raise; [simpl; auto|]. unfold recommendation_world.
    apply bind_raise.
    apply (formatted_field_raise "seo" _ _ e items Hd Fp E).
Qed.

Lemma accessibility_rule_m_runs r :
  match accessibility_rule l r with
  | Ok r' => accessibility_rule_m vl rv (rw r) = (Ok tt, rw r')
  | Raise e => exists r', accessibility_rule_m vl rv (rw r) = (Raise e, rw r')
  end.
Proof.
  destruct Hl as (items & Hd & _ & _ & Fp).
  unfold accessibility_rule_m, accessibility_rule, bind.
  assert (Hhead : forall (k : bool -> M unit),
    (p <~ getitem vl "accessibility" ;;
     poor <~ less_than p (PyInt 90) ;; k poor) (rw r)
    = k (num_lt (accessibility l) (PyInt 90)) (rw r)).
  { intros k. unfold rw, recommendation_world.
    run (getitem_old h fs _ _ _ _ _ Hd Fp).
    run (less_than_num _ _ _). reflexivity. }
  rewrite Hhead.
  destruct (num_lt (accessibility l) (PyInt 90)); [|reflexivity].
  destruct (format_0f (accessibility l)) as [score|e] eqn:E.
  - apply say_important. unfold recommendation_world.
    run (formatted_field_ok "accessibility" _ _ score items Hd Fp E). reflexivity.
  - exists r. apply say_raise; [simpl; auto|]. unfold recommendation_world.
    apply bind_raise.
    apply (formatted_field_raise "accessibility" _ _ e items Hd Fp E).
Qed.
End Rules.

Lemma extended_nil w : extended (objects w) (files w) [] = w.
Proof. destruct w as [h fs]. unfold extended. simpl. now rewrite app_nil_r. Qed.

Lemma generate_recommendations_m_start limit va vl h fs :
  generate_recommendations_m limit va vl (extended h fs [])
  = (title_rule_m va (VRef (List.length h + 3)%nat) ;;;
     meta_rule_m va (VRef (List.length h + 3)%nat) ;;;
     heading_rule_m va (VRef (List.length h + 3)%nat) ;;;
     content_rule_m va (VRef (List.length h + 3)%nat) ;;;
     keyword_rule_m limit va (VRef (List.length h + 3)%nat) ;;;
     image_rule_m limit va (VRef (List.length h + 3)%nat) ;;;
     link_rule_m va (VRef (List.length h + 3)%nat) ;;;
     performance_rule_m vl (VRef (List.length h + 3)%nat) ;;;
     seo_rule_m vl (VRef (List.length h + 3)%nat) ;;;
     accessibility_rule_m vl (VRef (List.length h + 3)%nat) ;;;
     ret (VRef (List.length h + 3)%nat))
      (recommendation_world h fs no_recommendations).
Proof.
  unfold generate_recommendations_m.
  rewrite (bind_ok _ _ _ _ _ (alloc_extended h fs [] _)).
  rewrite (bind_ok _ _ _ _ _ (alloc_extended h fs _ _)).
  rewrite (bind_ok _ _ _ _ _ (alloc_extended h fs _ _)).
  rewrite (bind_ok _ _ _ _ _ (alloc_extended h fs _ _)).
  simpl List.length. simpl app.
  rewrite Nat.add_0_r. reflexivity.
Qed.

Lemma generate_recommendations_m_runs limit h fs va a vl l :
  analysis_at h va a -> audit_at h vl l ->
  match generate_recommendations_limited limit a l with
  | Ok r =>
      generate_recommendations_m limit va vl (extended h fs [])
      = (Ok (VRef (List.length h + 3)%nat), recommendation_world h fs r)
  | Raise e =>
      exists r,
      generate_recommendations_m limit va vl (extended h fs [])
      = (Raise e, recommendation_world h fs r)
  end.
Proof.
  intros Ha Hl. rewrite generate_recommendations_m_start.
  unfold generate_recommendations_limited.
  run (title_rule_m_runs h fs va a Ha _).
  run (meta_rule_m_runs h fs va a Ha _).
  run (heading_rule_m_runs h fs va a Ha _).
  run (content_rule_m_runs h fs va a Ha _).
  set (r4 := content_rule a _).
  pose proof (keyword_rule_m_runs h fs va a Ha limit r4) as Hk.
  unfold bind at 1.
  destruct (keyword_rule_limited limit a r4) as [r5|e];
    [|destruct Hk as [r' Hk]; exists r'; apply bind_raise; exact Hk].
  rewrite (bind_ok _ _ _ _ _ Hk). clear Hk.
  pose proof (image_rule_m_runs h fs va a Ha limit r5) as Hi.
  unfold bind at 1.
  destruct (image_rule_limited limit a r5) as [r6|e];
    [|destruct Hi as [r' Hi]; exists r'; apply bind_raise; exact Hi].
  rewrite (bind_ok _ _ _ _ _ Hi). clear Hi.
  run (link_rule_m_runs h fs va a Ha _).
  set (r7 := link_rule a r6).
  pose proof (performance_rule_m_runs h fs vl l Hl r7) as Hp.
  unfold bind at 1.
  destruct (performance_rule l r7) as [r8|e];
    [|destruct Hp as [r' Hp]; exists r'; apply bind_raise; exact Hp].
  rewrite (bind_ok _ _ _ _ _ Hp). clear Hp.
  pose proof (seo_rule_m_runs h fs vl l Hl r8) as Hs.
  unfold bind at 1.
  destruct (seo_rule l r8) as [r9|e];
    [|destruct Hs as [r' Hs]; exists r'; apply bind_raise; exact Hs].
  rewrite (bind_ok _ _ _ _ _ Hs). clear Hs.
  pose proof (accessibility_rule_m_runs h fs vl l Hl r9) as Hacc.
  destruct (accessibility_rule l r9) as [r10|e];
    [|destruct Hacc as [r' Hacc]; exists r'; apply bind_raise; exact Hacc].
  rewrite (bind_ok _ _ _ _ _ Hacc). reflexivity.
Qed.

Lemma bind_assoc {A B C : Type} (m : M A) (f : A -> M B) (g : B -> M C) w :
  bindM (bindM m f) g w = bindM m (fun x => bindM (f x) g) w.
Proof. unfold bindM. destruct (m w) as [[a|e] w']; reflexivity. Qed.

Lemma lower_of_str s w : lower_of (VStr s) w = (Ok (lower s), w).
Proof. reflexivity. Qed.

Lemma len_of_str s w : len_of (VStr s) w = (Ok (len s), w).
Proof. reflexivity. Qed.

Lemma truth_str s w : truth (VStr s) w = (Ok (truthy s), w).
Proof. reflexivity. Qed.

Lemma optimal_length_of_str lo hi s w :
  optimal_length_of lo hi (VStr s) w
  = (Ok (if truthy s then (lo <=? len s) && (len s <=? hi) else false), w).
Proof.
  unfold optimal_length_of, bindM, truth, len_of, ret.
  destruct (truthy s); reflexivity.
Qed.

Lemma any_of_strings kl l w :
  any_of (fun h => h_lower <~ lower_of h ;; ret (contains h_lower kl))
         (map VStr l) w
  = (Ok (existsb (fun h => contains (lower h) kl) l), w).
Proof.
  induction l as [|x l IH]; [reflexivity|].
  simpl. unfold bindM at 1. simpl.
  destruct (contains (lower x) kl); [reflexivity|]. exact IH.
Qed.

Lemma nth_error_mid {A : Type} (pre : list A) x post :
  nth_error (pre ++ x :: post) (List.length pre) = Some x.
Proof. induction pre; simpl; auto. Qed.

Lemma replace_nth_mid {A : Type} (pre : list A) x y post :
  replace_nth (List.length pre) y (pre ++ x :: post) = (pre ++ y :: post)%list.
Proof. induction pre as [|z pre IH]; simpl; [reflexivity|]. now rewrite IH. Qed.

Lemma startswith_tuple_strings s ps w :
  startswith_tuple s (map VStr ps) w = (Ok (startswith_any s ps), w).
Proof.
  induction ps as [|p ps IH]; [reflexivity|].
  simpl. destruct (startswith s p); [reflexivity|exact IH].
Qed.

Lemma key_of_str s w : key_of (VStr s) w = (Ok s, w).
Proof. reflexivity. Qed.

Lemma bind_setitem_new {B : Type} h fs l j items k v (f : unit -> M B) :
  nth_error l j = Some (ODict items) ->
  bindM (setitem (VRef (List.length h + j)%nat) k v) f (extended h fs l)
  = f tt (extended h fs (replace_nth j (ODict (dict_set k v items)) l)).
Proof. intros Hj. apply bind_ok. now apply setitem_new. Qed.

Lemma bind_alloc {B : Type} h fs l o (f : value -> M B) :
  bindM (alloc o) f (extended h fs l)
  = f (VRef (List.length h + List.length l)%nat) (extended h fs (l ++ [o])).
Proof. apply bind_ok. apply alloc_extended. Qed.

Section Analyze.
Variables (h : list object) (fs : store).
Variables (vc : value) (c : snapshot).
Hypothesis Hc : snapshot_at h vc c.

Lemma in_headings_runs kl created vh :
  headings_at h vh (page_headings c) ->
  (h_lists <~ values_of vh ;;
   any_of (fun h_list =>
             hl <~ iterate h_list ;;
             any_of (fun h => h_lower <~ lower_of h ;;
                              ret (contains h_lower kl)) hl)
          h_lists) (extended h fs created)
  = (Ok (existsb (fun h => contains (lower h) kl)
                 (List.concat (headings_values (page_headings c)))),
     extended h fs created).
Proof.
  intros (v1 & v2 & v3 & Hd & H1 & H2 & H3).
  run (values_of_old h fs _ _ _ Hd).
  unfold headings_values. simpl List.concat. rewrite app_nil_r, !existsb_app.
  simpl map. simpl any_of.
  rewrite bind_assoc.
  run (iterate_old h fs _ _ _ H1).
  run (any_of_strings _ _ _).
  destruct (existsb _ (h1 (page_headings c))); [reflexivity|].
  rewrite bind_assoc.
  run (iterate_old h fs _ _ _ H2).
  run (any_of_strings _ _ _).
  destruct (existsb _ (h2 (page_headings c))); [reflexivity|].
  rewrite bind_assoc.
  run (iterate_old h fs _ _ _ H3).
  run (any_of_strings _ _ _).
  destruct (existsb _ (h3 (page_headings c))); reflexivity.
Qed.

Lemma keyword_entry_of_runs kw created :
  keyword_entry_of vc (VStr (page_title c)) (VStr (page_meta_description c))
    (VStr (page_content c)) (VStr kw) (count_words (page_content c))
    (extended h fs created)
  = (Ok (VRef (List.length h + List.length created)%nat),
     extended h fs
       (created ++ [ODict (keyword_data_items (analyze_keyword c kw))])).
Proof.
  destruct Hc as (items & vh & vl & vi & ls & ims & Hd & _ & _ & _ & Fh & Hh & _).
  unfold keyword_entry_of.
  run (lower_of_str _ _). run (lower_of_str _ _).
  run (lower_of_str _ _). run (lower_of_str _ _).
  run (getitem_old h fs _ _ _ _ _ Hd Fh).
  rewrite <- bind_assoc.
  run (in_headings_runs (lower kw) created vh Hh).
  apply alloc_extended.
Qed.

Lemma keyword_loop_runs kws :
  forall pre kitems ds,
  for_each (map VStr kws)
    (fun keyword =>
       d <~ keyword_entry_of vc (VStr (page_title c))
              (VStr (page_meta_description c)) (VStr (page_content c))
              keyword (count_words (page_content c)) ;;
       k <~ key_of keyword ;;
       setitem (VRef (List.length h + List.length pre)%nat) k d)
    (extended h fs (pre ++ ODict kitems :: ds))
  = (Ok tt,
     extended h fs
       (pre ++ ODict (fst (keyword_objects
                             (List.length h + List.length pre + 1) c kws kitems ds))
            :: snd (keyword_objects
                      (List.length h + List.length pre + 1) c kws kitems ds))).
Proof.
  induction kws as [|kw kws IH]; intros pre kitems ds; [reflexivity|].
  simpl map. simpl for_each. rewrite bind_assoc.
  run (keyword_entry_of_runs kw _).
  rewrite bind_assoc, bind_ret.
  rewrite <- app_assoc. simpl app.
  erewrite (bind_ok _ _ _ _ _
              (setitem_new h fs _ (List.length pre) kitems _ _
                 (nth_error_mid pre _ _))).
  rewrite replace_nth_mid.
  rewrite IH. simpl keyword_objects.
  replace (List.length h + List.length (pre ++ ODict kitems :: ds))%nat
    with (List.length h + List.length pre + 1 + List.length ds)%nat
    by (rewrite length_app; simpl; lia).
  reflexivity.
Qed.

Lemma select_internal created items ls links :
  dict_at h vc items -> field items "url" (VStr (page_url c)) ->
  Forall2 (link_at h) ls links ->
  exists kept,
    select (fun link =>
              href <~ getitem link "href" ;;
              s <~ str_receiver href ;;
              url <~ getitem vc "url" ;;
              startswith_tuple s [VStr "/"; url]) ls (extended h fs created)
    = (Ok kept, extended h fs created)
    /\ list_len kept = list_len (filter (is_internal (page_url c)) links).
Proof.
  intros Hd Fu. induction 1 as [|v lk ls links (li & Hld & Fh & _) _ (kept & IH & Hlen)].
  - exists []. split; reflexivity.
  - exists (if is_internal (page_url c) lk then v :: kept else kept). split.
    + cbn [select]. rewrite bind_assoc.
      run (getitem_old h fs _ _ _ _ _ Hld Fh).
      cbn [str_receiver]. rewrite bind_assoc, bind_ret, bind_assoc.
      run (getitem_old h fs _ _ _ _ _ Hd Fu).
      change [VStr "/"; VStr (page_url c)] with (map VStr ["/"; page_url c]).
      run (startswith_tuple_strings _ ["/"; page_url c] _).
      run IH. reflexivity.
    + simpl filter. destruct (is_internal (page_url c) lk); [|exact Hlen].
      unfold list_len in *. simpl List.length. lia.
Qed.

Lemma select_external created ls links :
  Forall2 (link_at h) ls links ->
  exists kept,
    select (fun link =>
              href <~ getitem link "href" ;;
              s <~ str_receiver href ;;
              startswith_tuple s [VStr "http"; VStr "https"]) ls
      (extended h fs created)
    = (Ok kept, extended h fs created)
    /\ list_len kept = list_len (filter is_external links).
Proof.
  induction 1 as [|v lk ls links (li & Hld & Fh & _) _ (kept & IH & Hlen)].
  - exists []. split; reflexivity.
  - exists (if is_external lk then v :: kept else kept). split.
    + cbn [select]. rewrite bind_assoc.
      run (getitem_old h fs _ _ _ _ _ Hld Fh).
      cbn [str_receiver]. rewrite bind_assoc, bind_ret.
      change [VStr "http"; VStr "https"] with (map VStr ["http"; "https"]).
      run (startswith_tuple_strings _ ["http"; "https"] _).
      run IH. reflexivity.
    + simpl filter. destruct (is_external lk); [|exact Hlen].
      unfold list_len in *. simpl List.length. lia.
Qed.

Lemma select_without_alt created ims images :
  Forall2 (image_at h) ims images ->
  exists kept,
    select (fun img => a <~ getitem img "alt" ;; b <~ truth a ;; ret (negb b))
           ims (extended h fs created)
    = (Ok kept, extended h fs created)
    /\ list_len kept
       = list_len (filter (fun img => negb (truthy (alt img))) images).
Proof.
  induction 1 as [|v im ims images (li & Hld & _ & Fa) _ (kept & IH & Hlen)].
  - exists []. split; reflexivity.
  - exists (if negb (truthy (alt im)) then v :: kept else kept). split.
    + simpl select. rewrite bind_assoc.
      run (getitem_old h fs _ _ _ _ _ Hld Fa).
      rewrite bind_assoc.
      run (truth_str _ _). rewrite bind_ret.
      run IH. reflexivity.
    + simpl filter. destruct (negb (truthy (alt im))); [|exact Hlen].
      unfold list_len in *. simpl List.length. lia.
Qed.
End Analyze.

Section AnalyzerSections.
Variables (h : list object) (fs : store).
Variables (vc : value) (c : snapshot).
Hypothesis Hc : snapshot_at h vc c.

Let av : value := VRef (List.length h + 0)%nat.

(** What a section does to the world: the entry [key] of [analysis] is
    set to a new dictionary. *)
Let after (key : string) (items : dict value) (aitems : dict value)
  (rest : list object) : world :=
  extended h fs
    (ODict (dict_set key (VRef (List.length h + S (List.length rest))%nat) aitems)
       :: rest ++ [ODict items]).

Lemma analyze_title_m_runs aitems rest :
  analyze_title_m vc av (extended h fs (ODict aitems :: rest))
  = (Ok (VStr (page_title c)),
     after "title" (title_items (analyze_title (page_title c))) aitems rest).
Proof.
  destruct Hc as (items & vh & vl & vi & ls & ims & Hd & _ & Ft & _).
  unfold analyze_title_m, after, av.
  run (getitem_old h fs _ _ _ _ _ Hd Ft).
  run (len_of_str _ _). run (truth_str _ _). run (optimal_length_of_str _ _ _ _).
  rewrite bind_alloc.
  erewrite bind_setitem_new; [|reflexivity].
  reflexivity.
Qed.

Lemma analyze_meta_m_runs aitems rest :
  analyze_meta_m vc av (extended h fs (ODict aitems :: rest))
  = (Ok (VStr (page_meta_description c)),
     after "meta_description"
       (meta_items (analyze_meta (page_meta_description c))) aitems rest).
Proof.
  destruct Hc as (items & vh & vl & vi & ls & ims & Hd & _ & _ & Fm & _).
  unfold analyze_meta_m, after, av.
  run (getitem_old h fs _ _ _ _ _ Hd Fm).
  run (len_of_str _ _). run (truth_str _ _). run (optimal_length_of_str _ _ _ _).
  rewrite bind_alloc.
  erewrite bind_setitem_new; [|reflexivity].
  reflexivity.
Qed.

Lemma heading_count_runs created :
  heading_count vc "h1" (extended h fs created)
    = (Ok (list_len (h1 (page_headings c))), extended h fs created)
  /\ heading_count vc "h2" (extended h fs created)
    = (Ok (list_len (h2 (page_headings c))), extended h fs created)
  /\ heading_count vc "h3" (extended h fs created)
    = (Ok (list_len (h3 (page_headings c))), extended h fs created).
Proof.
  destruct Hc as (items & vh & vl & vi & ls & ims & Hd & _ & _ & _ & Fh & Hh & _).
  destruct Hh as (v1 & v2 & v3 & Hhd & H1 & H2 & H3).
  unfold heading_count, list_len.
  repeat split.
  - run (getitem_old h fs _ _ _ _ _ Hd Fh).
    run (getitem_old h fs _ _ _ "h1" _ Hhd eq_refl).
    rewrite (len_of_old h fs _ _ _ H1). unfold list_len. now rewrite length_map.
  - run (getitem_old h fs _ _ _ _ _ Hd Fh).
    run (getitem_old h fs _ _ _ "h2" _ Hhd eq_refl).
    rewrite (len_of_old h fs _ _ _ H2). unfold list_len. now rewrite length_map.
  - run (getitem_old h fs _ _ _ _ _ Hd Fh).
    run (getitem_old h fs _ _ _ "h3" _ Hhd eq_refl).
    rewrite (len_of_old h fs _ _ _ H3). unfold list_len. now rewrite length_map.
Qed.

Lemma analyze_headings_m_runs aitems rest :
  analyze_headings_m vc av (extended h fs (ODict aitems :: rest))
  = (Ok tt,
     after "headings"
       (headings_items (analyze_headings (page_headings c))) aitems rest).
Proof.
  unfold analyze_headings_m, after, av.
  destruct (heading_count_runs (ODict aitems :: rest)) as (E1 & E2 & E3).
  run E1. run E2. run E3. run E1.
  rewrite bind_alloc.
  erewrite setitem_new; [|reflexivity].
  reflexivity.
Qed.

Lemma analyze_text_m_runs aitems rest :
  analyze_text_m vc av (extended h fs (ODict aitems :: rest))
  = (Ok (VStr (page_content c), count_words (page_content c)),
     after "content"
       (content_items (analyze_text (page_content c))) aitems rest).
Proof.
  destruct Hc as (items & vh & vl & vi & ls & ims & Hd & _ & _ & _ & _ & _ & Ft & _).
  unfold analyze_text_m, after, av.
  run (getitem_old h fs _ _ _ _ _ Hd Ft).
  run (lower_of_str _ _).
  rewrite bind_alloc.
  erewrite bind_setitem_new; [|reflexivity].
  reflexivity.
Qed.

Lemma analyze_links_m_runs aitems rest :
  analyze_links_m vc av (extended h fs (ODict aitems :: rest))
  = (Ok tt,
     after "links"
       (links_items (analyze_links (page_url c) (page_links c))) aitems rest).
Proof.
  destruct Hc as (items & vh & vl & vi & ls & ims & Hd & Fu & _ & _ & _ & _ & _
                  & Fl & Hll & Hls & _).
  unfold analyze_links_m, after, av.
  destruct (select_internal h fs vc c (ODict aitems :: rest) items ls _ Hd Fu Hls)
    as (kept1 & E1 & L1).
  destruct (select_external h fs (ODict aitems :: rest) ls _ Hls)
    as (kept2 & E2 & L2).
  run (getitem_old h fs _ _ _ _ _ Hd Fl).
  run (iterate_old h fs _ _ _ Hll).
  run E1.
  run (getitem_old h fs _ _ _ _ _ Hd Fl).
  run (iterate_old h fs _ _ _ Hll).
  run E2.
  run (getitem_old h fs _ _ _ _ _ Hd Fl).
  run (len_of_old h fs _ _ _ Hll).
  rewrite bind_alloc.
  erewrite setitem_new; [|reflexivity].
  rewrite L1, L2.
  replace (list_len ls) with (list_len (page_links c))
    by (unfold list_len; now rewrite (Forall2_length Hls)).
  reflexivity.
Qed.

Lemma analyze_images_m_runs aitems rest :
  analyze_images_m vc av (extended h fs (ODict aitems :: rest))
  = (Ok tt,
     after "images"
       (images_items (analyze_images (page_images c))) aitems rest).
Proof.
  destruct Hc as (items & vh & vl & vi & ls & ims & Hd & _ & _ & _ & _ & _ & _
                  & _ & _ & _ & Fi & Hil & His).
  unfold analyze_images_m, after, av.
  destruct (select_without_alt h fs (ODict aitems :: rest) ims _ His)
    as (kept & E & L).
  run (getitem_old h fs _ _ _ _ _ Hd Fi).
  run (iterate_old h fs _ _ _ Hil).
  run E.
  run (getitem_old h fs _ _ _ _ _ Hd Fi).
  run (len_of_old h fs _ _ _ Hil).
  rewrite bind_alloc.
  erewrite setitem_new; [|reflexivity].
  rewrite L.
  replace (list_len ims) with (list_len (page_images c))
    by (unfold list_len; now rewrite (Forall2_length His)).
  reflexivity.
Qed.
End AnalyzerSections.

Section Keywords.
Variables (h : list object) (fs : store).
Variables (vc : value) (c : snapshot).
Hypothesis Hc : snapshot_at h vc c.

Lemma analyze_keywords_m_none vk keywords created :
  keywords_at h vk keywords ->
  match keywords with Some (_ :: _) => False | _ => True end ->
  analyze_keywords_m vc vk (VRef (List.length h + 0)%nat)
    (VStr (page_title c)) (VStr (page_meta_description c))
    (VStr (page_content c)) (count_words (page_content c))
    (extended h fs created)
  = (Ok tt, extended h fs created).
Proof.
  intros Hk Hnone. unfold analyze_keywords_m.
  destruct keywords as [[|k ks]|]; [| destruct Hnone |].
  - run (truth_list_old h fs _ _ _ Hk). reflexivity.
  - simpl in Hk. subst vk. reflexivity.
Qed.

Lemma analyze_keywords_m_some vk k ks aitems rest :
  keywords_at h vk (Some (k :: ks)) ->
  analyze_keywords_m vc vk (VRef (List.length h + 0)%nat)
    (VStr (page_title c)) (VStr (page_meta_description c))
    (VStr (page_content c)) (count_words (page_content c))
    (extended h fs (ODict aitems :: rest))
  = (Ok tt,
     extended h fs
       (ODict (dict_set "keywords"
                 (VRef (List.length h + S (List.length rest))%nat) aitems)
          :: rest
          ++ ODict (fst (keyword_objects
                           (List.length h + S (List.length rest) + 1) c
                           (k :: ks) [] []))
          :: snd (keyword_objects
                    (List.length h + S (List.length rest) + 1) c
                    (k :: ks) [] []))).
Proof.
  intros Hk. unfold analyze_keywords_m.
  run (truth_list_old h fs _ _ _ Hk).
  change (negb (list_len (map VStr (k :: ks)) =? 0)) with
    (negb (Z.of_nat (S (List.length (map VStr ks))) =? 0)).
  replace (Z.of_nat (S (List.length (map VStr ks))) =? 0) with false
    by (symmetry; apply Z.eqb_neq; lia).
  change (negb false) with true. cbv iota.
  rewrite bind_alloc.
  run (iterate_old h fs _ _ _ Hk).
  pose proof (keyword_loop_runs h fs vc c Hc (k :: ks) (ODict aitems :: rest) [] [])
    as Hloop.
  run Hloop.
  erewrite setitem_new; [|reflexivity].
  reflexivity.
Qed.
End Keywords.

Lemma analyze_content_m_runs h fs vc c vk keywords :
  snapshot_at h vc c -> keywords_at h vk keywords ->
  analyze_content_m vc vk (extended h fs [])
  = (Ok (VRef (List.length h)),
     extended h fs (analysis_objects (List.length h) c keywords)).
Proof.
  intros Hc Hk. unfold analyze_content_m.
  rewrite bind_alloc. simpl List.length. simpl app.
  run (analyze_title_m_runs h fs vc c Hc _ _).
  run (analyze_meta_m_runs h fs vc c Hc _ _).
  run (analyze_headings_m_runs h fs vc c Hc _ _).
  run (analyze_text_m_runs h fs vc c Hc _ _).
  simpl fst. simpl snd. simpl app. simpl dict_set. simpl List.length.
  assert (Hcase : match keywords with
                  | Some (k :: ks) => exists k ks, keywords = Some (k :: ks)
                  | _ => match keywords with
                         | Some (_ :: _) => False
                         | _ => True
                         end
                  end).
  { destruct keywords as [[|k ks]|]; eauto. }
  destruct keywords as [[|k ks]|].
  - run (analyze_keywords_m_none h fs vc c vk (Some []) _ Hk I).
    run (analyze_links_m_runs h fs vc c Hc _ _).
    run (analyze_images_m_runs h fs vc c Hc _ _).
    simpl. rewrite Nat.add_0_r. reflexivity.
  - clear Hcase.
    run (analyze_keywords_m_some h fs vc c Hc vk k ks _ _ Hk).
    set (kd := keyword_objects _ c (k :: ks) [] []).
    assert (Hkd : kd = keyword_objects (List.length h + 6) c (k :: ks) [] []).
    { subst kd. f_equal. simpl. lia. }
    clearbody kd.
    run (analyze_links_m_runs h fs vc c Hc _ _).
    run (analyze_images_m_runs h fs vc c Hc _ _).
    unfold analysis_objects. cbv zeta. rewrite <- Hkd.
    simpl dict_set. simpl app.
    rewrite <- !app_assoc. simpl app.
    rewrite Nat.add_0_r.
    simpl List.length. rewrite !length_app. simpl List.length.
    replace (List.length h + S (S (S (S (S (S (List.length (snd kd))))))))%nat
      with (List.length h + 6 + List.length (snd kd))%nat by lia.
    replace (List.length h + S (S (S (S (S (S (List.length (snd kd) + 1)))))))%nat
      with (List.length h + 7 + List.length (snd kd))%nat by lia.
    reflexivity.
  - run (analyze_keywords_m_none h fs vc c vk None _ Hk I).
    run (analyze_links_m_runs h fs vc c Hc _ _).
    run (analyze_images_m_runs h fs vc c Hc _ _).
    simpl. rewrite Nat.add_0_r. reflexivity.
Qed.

Lemma dict_at_created h l j items :
  nth_error l j = Some (ODict items) ->
  dict_at (h ++ l) (VRef (List.length h + j)%nat) items.
Proof.
  intros H. exists (List.length h + j)%nat. split; [reflexivity|].
  rewrite nth_error_app2 by lia.
  replace (List.length h + j - List.length h)%nat with j by lia. exact H.
Qed.

Lemma list_at_created h l j items :
  nth_error l j = Some (OList items) ->
  list_at (h ++ l) (VRef (List.length h + j)%nat) items.
Proof.
  intros H. exists (List.length h + j)%nat. split; [reflexivity|].
  rewrite nth_error_app2 by lia.
  replace (List.length h + j - List.length h)%nat with j by lia. exact H.
Qed.

Lemma dict_set_entries_in n ds kitems entries kw v d :
  keyword_entries_in n ds kitems entries ->
  (exists j, v = VRef (n + j)%nat
             /\ nth_error ds j = Some (ODict (keyword_data_items d))) ->
  keyword_entries_in n ds (dict_set kw v kitems) (dict_set kw d entries).
Proof.
  intros H Hv. induction H as [|[k1 v1] [k2 d2] kitems entries [Hk Hx] Htl IH].
  - constructor; [|constructor]. split; [reflexivity|exact Hv].
  - simpl in Hk. subst k2. simpl.
    destruct (String.eqb k1 kw).
    + constructor; [|exact Htl]. split; [reflexivity|exact Hv].
    + constructor; [|exact IH]. split; [reflexivity|exact Hx].
Qed.

Lemma entries_in_more n ds more kitems entries :
  keyword_entries_in n ds kitems entries ->
  keyword_entries_in n (ds ++ more) kitems entries.
Proof.
  intros H. induction H as [|kv e kitems entries [Hk (j & Hv & Hj)] _ IH];
    constructor; [|exact IH].
  split; [exact Hk|]. exists j. split; [exact Hv|].
  rewrite nth_error_app1; [exact Hj|].
  apply nth_error_Some. rewrite Hj. discriminate.
Qed.

Lemma keyword_objects_entries n c kws :
  forall kitems ds entries,
  keyword_entries_in n ds kitems entries ->
  keyword_entries_in n (snd (keyword_objects n c kws kitems ds))
    (fst (keyword_objects n c kws kitems ds))
    (fold_left (fun d keyword => dict_set keyword (analyze_keyword c keyword) d)
               kws entries).
Proof.
  induction kws as [|kw kws IH]; intros kitems ds entries H; [exact H|].
  simpl. apply IH.
  apply dict_set_entries_in.
  - now apply entries_in_more.
  - exists (List.length ds). split; [reflexivity|].
    rewrite nth_error_app2 by lia. now rewrite Nat.sub_diag.
Qed.

Lemma entries_in_at hp n ds kitems entries :
  (forall j o, nth_error ds j = Some o -> nth_error hp (n + j) = Some o) ->
  keyword_entries_in n ds kitems entries ->
  Forall2 (keyword_entry_at hp) kitems entries.
Proof.
  intros Hnth H.
  induction H as [|kv e kitems entries [Hk (j & Hv & Hj)] _ IH];
    constructor; [|exact IH].
  split; [exact Hk|].
  exists (keyword_data_items (snd e)). split; [|repeat split].
  exists (n + j)%nat. split; [exact Hv|]. apply Hnth. exact Hj.
Qed.

Lemma analysis_objects_hold h c keywords :
  analysis_at (h ++ analysis_objects (List.length h) c keywords)
    (VRef (List.length h)) (analyze_content c keywords).
Proof.
  set (n := List.length h).
  assert (Hfront : forall entries back,
    let l := (ODict entries
               :: [ODict (title_items (analyze_title (page_title c)));
                   ODict (meta_items (analyze_meta (page_meta_description c)));
                   ODict (headings_items (analyze_headings (page_headings c)));
                   ODict (content_items (analyze_text (page_content c)))]
               ++ back)%list in
    dict_at (h ++ l) (VRef n) entries
    /\ title_at (h ++ l) (VRef (n + 1)%nat) (analyze_title (page_title c))
    /\ meta_at (h ++ l) (VRef (n + 2)%nat) (analyze_meta (page_meta_description c))
    /\ headings_analysis_at (h ++ l) (VRef (n + 3)%nat)
         (analyze_headings (page_headings c))
    /\ content_at (h ++ l) (VRef (n + 4)%nat) (analyze_text (page_content c))).
  { intros entries back l. repeat split.
    - replace n with (n + 0)%nat by lia. now apply dict_at_created.
    - eexists. split; [now apply dict_at_created|]. repeat split.
    - eexists. split; [now apply dict_at_created|]. repeat split.
    - eexists. split; [now apply dict_at_created|]. repeat split.
    - eexists. split; [now apply dict_at_created|]. repeat split. }
  unfold analysis_at, analysis_objects. fold n.
  destruct keywords as [[|k ks]|].
  - destruct (Hfront
      ([("title", VRef (n + 1)%nat); ("meta_description", VRef (n + 2)%nat);
        ("headings", VRef (n + 3)%nat); ("content", VRef (n + 4)%nat)]
       ++ [("links", VRef (n + 5)%nat); ("images", VRef (n + 6)%nat)])%list
      [ODict (links_items (analyze_links (page_url c) (page_links c)));
       ODict (images_items (analyze_images (page_images c)))])
      as (H0 & H1 & H2 & H3 & H4).
    do 7 eexists. split; [exact H0|].
    split; [reflexivity|]. split; [exact H1|].
    split; [reflexivity|]. split; [exact H2|].
    split; [reflexivity|]. split; [exact H3|].
    split; [reflexivity|]. split; [exact H4|].
    split; [reflexivity|].
    split; [reflexivity|].
    split; [eexists; split; [now apply (dict_at_created h _ 5)|repeat split]|].
    split; [reflexivity|].
    eexists; split; [now apply (dict_at_created h _ 6)|repeat split].
  - cbv zeta.
    set (kd := keyword_objects (n + 6) c (k :: ks) [] []).
    destruct (Hfront
      ([("title", VRef (n + 1)%nat); ("meta_description", VRef (n + 2)%nat);
        ("headings", VRef (n + 3)%nat); ("content", VRef (n + 4)%nat)]
       ++ [("keywords", VRef (n + 5)%nat);
           ("links", VRef (n + 6 + List.length (snd kd))%nat);
           ("images", VRef (n + 7 + List.length (snd kd))%nat)])%list
      (ODict (fst kd) :: snd kd
       ++ [ODict (links_items (analyze_links (page_url c) (page_links c)));
           ODict (images_items (analyze_images (page_images c)))])%list)
      as (H0 & H1 & H2 & H3 & H4).
    simpl app in H0, H1, H2, H3, H4.
    simpl app.
    assert (Hnth : forall j o,
      nth_error (snd kd
                 ++ [ODict (links_items (analyze_links (page_url c) (page_links c)));
                     ODict (images_items (analyze_images (page_images c)))])%list j
        = Some o ->
      nth_error
        (h ++ ODict
                [("title", VRef (n + 1)%nat); ("meta_description", VRef (n + 2)%nat);
                 ("headings", VRef (n + 3)%nat); ("content", VRef (n + 4)%nat);
                 ("keywords", VRef (n + 5)%nat);
                 ("links", VRef (n + 6 + List.length (snd kd))%nat);
                 ("images", VRef (n + 7 + List.length (snd kd))%nat)]
              :: ODict (title_items (analyze_title (page_title c)))
              :: ODict (meta_items (analyze_meta (page_meta_description c)))
              :: ODict (headings_items (analyze_headings (page_headings c)))
              :: ODict (content_items (analyze_text (page_content c)))
              :: ODict (fst kd)
              :: snd kd
                 ++ [ODict (links_items (analyze_links (page_url c) (page_links c)));
                     ODict (images_items (analyze_images (page_images c)))])%list
        (n + 6 + j) = Some o).
    { intros j o Hj. rewrite nth_error_app2 by (unfold n; lia).
      replace (n + 6 + j - List.length h)%nat with (6 + j)%nat by (unfold n; lia).
      exact Hj. }
    do 7 eexists. split; [exact H0|].
    split; [reflexivity|]. split; [exact H1|].
    split; [reflexivity|]. split; [exact H2|].
    split; [reflexivity|]. split; [exact H3|].
    split; [reflexivity|]. split; [exact H4|].
    split.
    { simpl a_keywords. unfold keyword_analysis_at.
      exists (VRef (n + 5)%nat), (fst kd). split; [reflexivity|].
      split; [now apply (dict_at_created h _ 5)|].
      pose proof (keyword_objects_entries (n + 6) c (k :: ks) [] [] []
                    (Forall2_nil _)) as Hent.
      fold kd in Hent. unfold analyze_keywords.
      apply (entries_in_at _ (n + 6) (snd kd)); [|exact Hent].
      intros j o Hj. apply Hnth. rewrite nth_error_app1; [exact Hj|].
      apply nth_error_Some. rewrite Hj. discriminate. }
    assert (Hl : dict_at
      (h ++ ODict
              [("title", VRef (n + 1)%nat); ("meta_description", VRef (n + 2)%nat);
               ("headings", VRef (n + 3)%nat); ("content", VRef (n + 4)%nat);
               ("keywords", VRef (n + 5)%nat);
               ("links", VRef (n + 6 + List.length (snd kd))%nat);
               ("images", VRef (n + 7 + List.length (snd kd))%nat)]
            :: ODict (title_items (analyze_title (page_title c)))
            :: ODict (meta_items (analyze_meta (page_meta_description c)))
            :: ODict (headings_items (analyze_headings (page_headings c)))
            :: ODict (content_items (analyze_text (page_content c)))
            :: ODict (fst kd)
            :: snd kd
               ++ [ODict (links_items (analyze_links (page_url c) (page_links c)));
                   ODict (images_items (analyze_images (page_images c)))])%list
      (VRef (n + 6 + List.length (snd kd))%nat)
      (links_items (analyze_links (page_url c) (page_links c)))).
    { exists (n + 6 + List.length (snd kd))%nat. split; [reflexivity|].
      apply Hnth. rewrite nth_error_app2 by lia. now rewrite Nat.sub_diag. }
    assert (Hi : dict_at
      (h ++ ODict
              [("title", VRef (n + 1)%nat); ("meta_description", VRef (n + 2)%nat);
               ("headings", VRef (n + 3)%nat); ("content", VRef (n + 4)%nat);
               ("keywords", VRef (n + 5)%nat);
               ("links", VRef (n + 6 + List.length (snd kd))%nat);
               ("images", VRef (n + 7 + List.length (snd kd))%nat)]
            :: ODict (title_items (analyze_title (page_title c)))
            :: ODict (meta_items (analyze_meta (page_meta_description c)))
            :: ODict (headings_items (analyze_headings (page_headings c)))
            :: ODict (content_items (analyze_text (page_content c)))
            :: ODict (fst kd)
            :: snd kd
               ++ [ODict (links_items (analyze_links (page_url c) (page_links c)));
                   ODict (images_items (analyze_images (page_images c)))])%list
      (VRef (n + 7 + List.length (snd kd))%nat)
      (images_items (analyze_images (page_images c)))).
    { exists (n + 7 + List.length (snd kd))%nat. split; [reflexivity|].
      assert (Hx : nth_error
                (snd kd
                 ++ [ODict (links_items (analyze_links (page_url c) (page_links c)));
                     ODict (images_items (analyze_images (page_images c)))])%list
                (List.length (snd kd) + 1)
              = Some (ODict (images_items (analyze_images (page_images c))))).
      { rewrite nth_error_app2 by lia.
        replace (List.length (snd kd) + 1 - List.length (snd kd))%nat
          with 1%nat by lia.
        reflexivity. }
      pose proof (Hnth _ _ Hx) as Hy.
      replace (n + 6 + (List.length (snd kd) + 1))%nat
        with (n + 7 + List.length (snd kd))%nat in Hy by lia.
      exact Hy. }
    split; [reflexivity|].
    split; [eexists; split; [exact Hl|repeat split]|].
    split; [reflexivity|].
    eexists; split; [exact Hi|repeat split].
  - destruct (Hfront
      ([("title", VRef (n + 1)%nat); ("meta_description", VRef (n + 2)%nat);
        ("headings", VRef (n + 3)%nat); ("content", VRef (n + 4)%nat)]
       ++ [("links", VRef (n + 5)%nat); ("images", VRef (n + 6)%nat)])%list
      [ODict (links_items (analyze_links (page_url c) (page_links c)));
       ODict (images_items (analyze_images (page_images c)))])
      as (H0 & H1 & H2 & H3 & H4).
    do 7 eexists. split; [exact H0|].
    split; [reflexivity|]. split; [exact H1|].
    split; [reflexivity|]. split; [exact H2|].
    split; [reflexivity|]. split; [exact H3|].
    split; [reflexivity|]. split; [exact H4|].
    split; [reflexivity|].
    split; [reflexivity|].
    split; [eexists; split; [now apply (dict_at_created h _ 5)|repeat split]|].
    split; [reflexivity|].
    eexists; split; [now apply (dict_at_created h _ 6)|repeat split].
Qed.

(** ** The encodings survive new objects, and hold one value *)

Lemma dict_at_more h more v items :
  dict_at h v items -> dict_at (h ++ more) v items.
Proof.
  intros (r & -> & Hr). exists r. split; [reflexivity|].
  rewrite nth_error_app1; [exact Hr|].
  apply nth_error_Some. rewrite Hr. discriminate.
Qed.

Lemma list_at_more h more v items :
  list_at h v items -> list_at (h ++ more) v items.
Proof.
  intros (r & -> & Hr). exists r. split; [reflexivity|].
  rewrite nth_error_app1; [exact Hr|].
  apply nth_error_Some. rewrite Hr. discriminate.
Qed.

Lemma Forall2_more {A B : Type} (P Q : A -> B -> Prop) l l' :
  (forall x y, P x y -> Q x y) -> Forall2 P l l' -> Forall2 Q l l'.
Proof. intros H. induction 1; constructor; auto. Qed.

Lemma snapshot_at_more h more v c :
  snapshot_at h v c -> snapshot_at (h ++ more) v c.
Proof.
  intros (items & vh & vl & vi & ls & ims & Hd & Fu & Ft & Fm & Fh & Hh & Fc
          & Fl & Hll & Hls & Fi & Hil & His).
  exists items, vh, vl, vi, ls, ims.
  split; [now apply dict_at_more|]. do 4 (split; [assumption|]).
  split.
  { destruct Hh as (v1 & v2 & v3 & Hhd & H1 & H2 & H3).
    exists v1, v2, v3. split; [now apply dict_at_more|].
    repeat split; now apply list_at_more. }
  do 2 (split; [assumption|]).
  split; [now apply list_at_more|].
  split.
  { apply (Forall2_more (link_at h)); [|exact Hls].
    intros x y (li & Hx & F1 & F2). exists li. split; [now apply dict_at_more|auto]. }
  split; [assumption|].
  split; [now apply list_at_more|].
  apply (Forall2_more (image_at h)); [|exact His].
  intros x y (li & Hx & F1 & F2). exists li. split; [now apply dict_at_more|auto].
Qed.

Lemma keywords_at_more h more v k :
  keywords_at h v k -> keywords_at (h ++ more) v k.
Proof. destruct k; simpl; [apply list_at_more|auto]. Qed.

Lemma audit_at_more h more v l :
  audit_at h v l -> audit_at (h ++ more) v l.
Proof.
  intros (items & Hd & F). exists items. split; [now apply dict_at_more|exact F].
Qed.

Lemma analysis_at_more h more v a :
  analysis_at h v a -> analysis_at (h ++ more) v a.
Proof.
  intros (items & vt & vm & vh & vc & vl & vi & Hd & Ft & Ht & Fm & Hm & Fh & Hh
          & Fc & Hc & Hk & Fl & Hl & Fi & Hi).
  exists items, vt, vm, vh, vc, vl, vi.
  split; [now apply dict_at_more|].
  split; [assumption|].
  split; [destruct Ht as (x & Hx & F); exists x; split;
          [now apply dict_at_more|exact F]|].
  split; [assumption|].
  split; [destruct Hm as (x & Hx & F); exists x; split;
          [now apply dict_at_more|exact F]|].
  split; [assumption|].
  split; [destruct Hh as (x & Hx & F); exists x; split;
          [now apply dict_at_more|exact F]|].
  split; [assumption|].
  split; [destruct Hc as (x & Hx & F); exists x; split;
          [now apply dict_at_more|exact F]|].
  split.
  { unfold keyword_analysis_at in *. destruct (a_keywords a) as [entries|];
      [|exact Hk].
    destruct Hk as (vk & kitems & Fk & Hkd & Hall).
    exists vk, kitems. split; [assumption|]. split; [now apply dict_at_more|].
    apply (Forall2_more (keyword_entry_at h)); [|exact Hall].
    intros x y [Hxy (di & Hx & F)]. split; [exact Hxy|].
    exists di. split; [now apply dict_at_more|exact F]. }
  split; [assumption|].
  split; [destruct Hl as (x & Hx & F); exists x; split;
          [now apply dict_at_more|exact F]|].
  split; [assumption|].
  destruct Hi as (x & Hx & F); exists x; split; [now apply dict_at_more|exact F].
Qed.

Lemma dict_at_functional h v i1 i2 :
  dict_at h v i1 -> dict_at h v i2 -> i1 = i2.
Proof.
  intros (r1 & -> & H1) (r2 & [= <-] & H2). congruence.
Qed.

Lemma list_at_functional h v i1 i2 :
  list_at h v i1 -> list_at h v i2 -> i1 = i2.
Proof.
  intros (r1 & -> & H1) (r2 & [= <-] & H2). congruence.
Qed.

Lemma map_VStr_inj l1 l2 : map VStr l1 = map VStr l2 -> l1 = l2.
Proof.
  revert l2. induction l1 as [|x l1 IH]; intros [|y l2]; simpl; try discriminate;
    [reflexivity|].
  intros [= -> H]. f_equal. now apply IH.
Qed.

Lemma recommendations_at_functional h v r1 r2 :
  recommendations_at h v r1 -> recommendations_at h v r2 -> r1 = r2.
Proof.
  intros (c1 & i1 & m1 & Hd1 & Hc1 & Hi1 & Hm1)
         (c2 & i2 & m2 & Hd2 & Hc2 & Hi2 & Hm2).
  pose proof (dict_at_functional _ _ _ _ Hd1 Hd2) as E.
  injection E as <- <- <-.
  apply (list_at_functional _ _ _ _ Hc1) in Hc2.
  apply (list_at_functional _ _ _ _ Hi1) in Hi2.
  apply (list_at_functional _ _ _ _ Hm1) in Hm2.
  apply map_VStr_inj in Hc2, Hi2, Hm2.
  destruct r1, r2; simpl in *; congruence.
Qed.

Lemma keyword_data_at_functional h v d1 d2 :
  keyword_data_at h v d1 -> keyword_data_at h v d2 -> d1 = d2.
Proof.
  intros (i1 & Hd1 & A1 & B1 & C1 & D1 & E1) (i2 & Hd2 & A2 & B2 & C2 & D2 & E2).
  pose proof (dict_at_functional _ _ _ _ Hd1 Hd2). subst i2.
  unfold field in *.
  destruct d1, d2; simpl in *. congruence.
Qed.

Lemma analysis_at_functional h v a1 a2 :
  analysis_at h v a1 -> analysis_at h v a2 -> a1 = a2.
Proof.
  intros (items & vt & vm & vh & vc & vl & vi & Hd & Ft & Ht & Fm & Hm & Fh & Hh
          & Fc & Hc & Hk & Fl & Hl & Fi & Hi)
         (items' & vt' & vm' & vh' & vc' & vl' & vi' & Hd' & Ft' & Ht' & Fm' & Hm'
          & Fh' & Hh' & Fc' & Hc' & Hk' & Fl' & Hl' & Fi' & Hi').
  pose proof (dict_at_functional _ _ _ _ Hd Hd'). subst items'.
  unfold field in *.
  assert (vt' = vt) by congruence. assert (vm' = vm) by congruence.
  assert (vh' = vh) by congruence. assert (vc' = vc) by congruence.
  assert (vl' = vl) by congruence. assert (vi' = vi) by congruence.
  subst.
  assert (E1 : a_title a1 = a_title a2).
  { destruct Ht as (x & Hx & A & B & C), Ht' as (x' & Hx' & A' & B' & C').
    pose proof (dict_at_functional _ _ _ _ Hx Hx'). subst x'. unfold field in *.
    destruct (a_title a1), (a_title a2); simpl in *. congruence. }
  assert (E2 : a_meta_description a1 = a_meta_description a2).
  { destruct Hm as (x & Hx & A & B & C), Hm' as (x' & Hx' & A' & B' & C').
    pose proof (dict_at_functional _ _ _ _ Hx Hx'). subst x'. unfold field in *.
    destruct (a_meta_description a1), (a_meta_description a2); simpl in *.
    congruence. }
  assert (E3 : a_headings a1 = a_headings a2).
  { destruct Hh as (x & Hx & A & B & C & D), Hh' as (x' & Hx' & A' & B' & C' & D').
    pose proof (dict_at_functional _ _ _ _ Hx Hx'). subst x'. unfold field in *.
    destruct (a_headings a1), (a_headings a2); simpl in *. congruence. }
  assert (E4 : a_content a1 = a_content a2).
  { destruct Hc as (x & Hx & A & B), Hc' as (x' & Hx' & A' & B').
    pose proof (dict_at_functional _ _ _ _ Hx Hx'). subst x'. unfold field in *.
    destruct (a_content a1), (a_content a2); simpl in *. congruence. }
  assert (E5 : a_links a1 = a_links a2).
  { destruct Hl as (x & Hx & A & B & C), Hl' as (x' & Hx' & A' & B' & C').
    pose proof (dict_at_functional _ _ _ _ Hx Hx'). subst x'. unfold field in *.
    destruct (a_links a1), (a_links a2); simpl in *. congruence. }
  assert (E6 : a_images a1 = a_images a2).
  { destruct Hi as (x & Hx & A & B), Hi' as (x' & Hx' & A' & B').
    pose proof (dict_at_functional _ _ _ _ Hx Hx'). subst x'. unfold field in *.
    destruct (a_images a1), (a_images a2); simpl in *. congruence. }
  assert (E7 : a_keywords a1 = a_keywords a2).
  { unfold keyword_analysis_at in *.
    destruct (a_keywords a1) as [e1|], (a_keywords a2) as [e2|].
    - destruct Hk as (vk & k1 & Fk & Hkd & Hall),
               Hk' as (vk' & k2 & Fk' & Hkd' & Hall').
      unfold field in *. assert (vk' = vk) by congruence. subst vk'.
      pose proof (dict_at_functional _ _ _ _ Hkd Hkd'). subst k2.
      f_equal. clear - Hall Hall'. revert e2 Hall'.
      induction Hall as [|kv e k1 e1 [Hk Hd] _ IH]; intros e2 Hall';
        inversion Hall' as [|kv' e' k1' e2' [Hk' Hd'] Htl]; subst;
        [reflexivity|].
      f_equal; [|now apply IH].
      destruct e as [ke de], e' as [ke' de']. simpl in *.
      f_equal; [congruence|].
      exact (keyword_data_at_functional _ _ _ _ Hd Hd').
    - destruct Hk as (vk & k1 & Fk & _). unfold field in Fk. congruence.
    - destruct Hk' as (vk & k1 & Fk & _). unfold field in Fk. congruence.
    - reflexivity. }
  destruct a1, a2; simpl in *. congruence.
Qed.

Lemma recommendation_objects_hold h r :
  recommendations_at (h ++ recommendation_objects (List.length h) r)
    (VRef (List.length h + 3)%nat) r.
Proof.
  exists (VRef (List.length h)), (VRef (List.length h + 1)%nat),
    (VRef (List.length h + 2)%nat).
  split; [now apply dict_at_created|].
  split; [replace (List.length h) with (List.length h + 0)%nat at 2 by lia;
          now apply list_at_created|].
  split; now apply list_at_created.
Qed.

Lemma analyze_content_m_at w vc vk c keywords :
  snapshot_at (objects w) vc c -> keywords_at (objects w) vk keywords ->
  analyze_content_m vc vk w
  = (Ok (VRef (List.length (objects w))),
     {| objects :=
          (objects w ++ analysis_objects (List.length (objects w)) c keywords)%list;
        files := files w |}).
Proof.
  intros Hc Hk.
  rewrite <- (extended_nil w) at 1.
  exact (analyze_content_m_runs (objects w) (files w) vc c vk keywords Hc Hk).
Qed.

Lemma generate_recommendations_m_at limit w va vl a l :
  analysis_at (objects w) va a -> audit_at (objects w) vl l ->
  match generate_recommendations_limited limit a l with
  | Ok r =>
      generate_recommendations_m limit va vl w
      = (Ok (VRef (List.length (objects w) + 3)%nat),
         {| objects :=
              (objects w ++ recommendation_objects (List.length (objects w)) r)%list;
            files := files w |})
  | Raise e =>
      exists r,
      generate_recommendations_m limit va vl w
      = (Raise e,
         {| objects :=
              (objects w ++ recommendation_objects (List.length (objects w)) r)%list;
            files := files w |})
  end.
Proof.
  intros Ha Hl.
  pose proof (generate_recommendations_m_runs limit (objects w) (files w)
                va a vl l Ha Hl) as H.
  rewrite (extended_nil w) in H. exact H.
Qed.

Lemma generate_recommendations_limited_total limit a l :
  audit_in_range l = true -> over_limit limit a = false ->
  generate_recommendations_limited limit a l = Ok (combine_all (rule_table a l)).
Proof.
  intros Hr Ho.
  destruct (generate_recommendations_limited_cases limit a l) as [[_ E]|[Ho' _]];
    [|congruence].
  rewrite E. now apply generate_recommendations_total.
Qed.

Lemma crowded_heap_holds n :
  analysis_at (crowded_heap n) (VRef 0) (crowded n)
  /\ audit_at (crowded_heap n) (VRef 7) (flat_audit 100).
Proof.
  split.
  - exists [("title", VRef 1); ("meta_description", VRef 2); ("headings", VRef 3);
            ("content", VRef 4); ("links", VRef 5); ("images", VRef 6)],
      (VRef 1), (VRef 2), (VRef 3), (VRef 4), (VRef 5), (VRef 6).
    split; [exists 0%nat; split; reflexivity|].
    split; [reflexivity|].
    split; [eexists; split; [exists 1%nat; split; reflexivity|repeat split]|].
    split; [reflexivity|].
    split; [eexists; split; [exists 2%nat; split; reflexivity|repeat split]|].
    split; [reflexivity|].
    split; [eexists; split; [exists 3%nat; split; reflexivity|repeat split]|].
    split; [reflexivity|].
    split; [eexists; split; [exists 4%nat; split; reflexivity|repeat split]|].
    split; [reflexivity|].
    split; [reflexivity|].
    split; [eexists; split; [exists 5%nat; split; reflexivity|repeat split]|].
    split; [reflexivity|].
    eexists; split; [exists 6%nat; split; reflexivity|repeat split].
  - eexists. split; [exists 7%nat; split; reflexivity|repeat split].
Qed.

Lemma example_heap_holds :
  snapshot_at example_heap (VRef 2) mixed_case_page
  /\ keywords_at example_heap (VRef 3) (Some ["sEo"])
  /\ keywords_at example_heap VNone None
  /\ audit_at example_heap (VRef 4) (flat_audit 100).
Proof.
  split; [|split; [|split]].
  - exists [("url", VStr "https://x.com"); ("title", VStr "");
            ("meta_description", VStr ""); ("headings", VRef 1);
            ("content", VStr "Seo SEO seo"); ("links", VRef 0);
            ("images", VRef 0)], (VRef 1), (VRef 0), (VRef 0), [], [].
    split; [exists 2%nat; split; reflexivity|].
    do 4 (split; [reflexivity|]).
    split.
    { exists (VRef 0), (VRef 0), (VRef 0).
      split; [exists 1%nat; split; reflexivity|].
      repeat split; exists 0%nat; split; reflexivity. }
    split; [reflexivity|]. split; [reflexivity|].
    split; [exists 0%nat; split; reflexivity|].
    split; [constructor|].
    split; [reflexivity|].
    split; [exists 0%nat; split; reflexivity|constructor].
  - exists 3%nat. split; reflexivity.
  - reflexivity.
  - eexists. split; [exists 4%nat; split; reflexivity|repeat split].
Qed.

Lemma skipn_created {A : Type} (h l : list A) n :
  List.length h = n -> skipn n (h ++ l) = l.
Proof.
  intros <-. rewrite skipn_app, skipn_all, Nat.sub_diag. reflexivity.
Qed.


